(** * ShellHell: the free-action resolution pipeline

    A shallow embedding of [game/actions.py] (dice engine, validator,
    resolver, orchestrator, door handler), of [AIService.interpret_action]
    and of the grimoire and door models, followed by the properties
    proved about them.

    Conventions of the embedding.
    - A Python [str] is a Rocq [string] holding its UTF-8 bytes.  Substring
      tests on UTF-8 bytes agree with substring tests on code points.
      [str.lower] is a parameter of the model (class [PyStr.Lowering]);
      whitespace is Python's Unicode whitespace.
    - A Python [float] plausibility is an exact rational ([Q]); decimal
      literals such as 0.1 or 0.95 are read as the fractions they denote.
    - A Python [int] is a [Z].
    - [random] is an injected sequence of raw draws that the code consumes
      from left to right.
    - The external text generator is an oracle: its reply is an input. *)

From Stdlib Require Import ZArith QArith Qround String Ascii List Bool Lia.
From Stdlib Require Import DecimalString Lqa.
Import ListNotations.

Open Scope string_scope.
Open Scope Z_scope.

(** ** Python string operations *)

Module PyStr.

(** [str.lower].  Python lowercases by the Unicode tables, which the
    model does not fix: the lowercasing function is the one method of a
    class, every definition below takes it as a parameter, and every
    general statement of the second part holds for every such function,
    hence for Python's.  A law of [str.lower] that a proof needs is a
    hypothesis of its theorem. *)
Class Lowering := { lower : string -> string }.

(** The lowercasing used where an example is evaluated: it covers the
    letters the game's German and English text uses, ASCII A-Z and the
    Latin-1 capitals U+00C0..U+00DE (two UTF-8 bytes, lead byte 0xC3),
    and agrees with [str.lower] on text made of ASCII and Latin-1
    characters.  Other scripts pass through unchanged. *)
Definition lower_ascii (c : ascii) : ascii :=
  let n := N_of_ascii c in
  if ((65 <=? n) && (n <=? 90))%N then ascii_of_N (n + 32) else c.

Definition lower_latin1 (c : ascii) : ascii :=
  let n := N_of_ascii c in
  if ((128 <=? n) && (n <=? 158) && negb (n =? 151))%N
  then ascii_of_N (n + 32) else c.

Definition is_lead_c3 (c : ascii) : bool := (N_of_ascii c =? 195)%N.

Fixpoint lower_western (s : string) : string :=
  match s with
  | EmptyString => EmptyString
  | String c rest =>
      if is_lead_c3 c then
        match rest with
        | EmptyString => String c EmptyString
        | String d rest' =>
            String c (String (lower_latin1 d) (lower_western rest'))
        end
      else String (lower_ascii c) (lower_western rest)
  end.

Definition western : Lowering := {| lower := lower_western |}.

(** [len(s)]: the number of code points, i.e. of bytes that are not UTF-8
    continuation bytes (0x80..0xBF). *)
Definition is_continuation (c : ascii) : bool :=
  let n := N_of_ascii c in ((128 <=? n) && (n <=? 191))%N.

Fixpoint len (s : string) : nat :=
  match s with
  | EmptyString => O
  | String c rest => if is_continuation c then len rest else S (len rest)
  end.

(** Truthiness of a string: non-empty. *)
Definition truthy (s : string) : bool :=
  match s with EmptyString => false | _ => true end.

(** [needle in hay]. *)
Fixpoint str_in (needle hay : string) : bool :=
  if String.prefix needle hay then true
  else match hay with
       | EmptyString => false
       | String _ rest => str_in needle rest
       end.

(** [any(keyword in text for keyword in keywords)]. *)
Definition any_in (keywords : list string) (text : string) : bool :=
  existsb (fun k => str_in k text) keywords.

(** [x in names] for a list of strings (exact equality). *)
Definition mem (x : string) (names : list string) : bool :=
  existsb (String.eqb x) names.

(** The code points of a string, each with its UTF-8 bytes: a byte that
    is not a continuation byte starts a new one. *)
Fixpoint cut_points (s : string) : string * list string :=
  match s with
  | EmptyString => (EmptyString, [])
  | String c rest =>
      let (pending, pts) := cut_points rest in
      if is_continuation c then (String c pending, pts)
      else (EmptyString, String c pending :: pts)
  end.

Definition points (s : string) : list string := snd (cut_points s).

Definition utf8 (bytes : list N) : string :=
  string_of_list_ascii (map ascii_of_N bytes).

(** The whitespace of [str.strip], [str.isspace] and the regex class
    [\s] on [str] patterns: U+0009..U+000D, U+001C..U+001F, U+0020,
    U+0085, U+00A0, U+1680, U+2000..U+200A, U+2028, U+2029, U+202F,
    U+205F and U+3000, by their UTF-8 bytes. *)
Definition whitespace : list string :=
  map utf8
      [[9]; [10]; [11]; [12]; [13]; [28]; [29]; [30]; [31]; [32];
       [194; 133]; [194; 160]; [225; 154; 128];
       [226; 128; 128]; [226; 128; 129]; [226; 128; 130]; [226; 128; 131];
       [226; 128; 132]; [226; 128; 133]; [226; 128; 134]; [226; 128; 135];
       [226; 128; 136]; [226; 128; 137]; [226; 128; 138];
       [226; 128; 168]; [226; 128; 169]; [226; 128; 175];
       [226; 129; 159]; [227; 128; 128]]%N.

Definition is_space (point : string) : bool := mem point whitespace.

Fixpoint lstrip_points (pts : list string) : list string :=
  match pts with
  | [] => []
  | p :: rest => if is_space p then lstrip_points rest else pts
  end.

Definition rstrip_points (pts : list string) : list string :=
  rev (lstrip_points (rev pts)).

Definition lstrip (s : string) : string :=
  String.concat "" (lstrip_points (points s)).

Definition rstrip (s : string) : string :=
  String.concat "" (rstrip_points (points s)).

Definition strip (s : string) : string :=
  String.concat "" (rstrip_points (lstrip_points (points s))).

(** [re.split(r'[...]+', s)]: the pieces between maximal runs of
    separator code points; a leading or trailing run yields an empty
    piece, as in Python. *)
Fixpoint split_runs (is_sep : string -> bool) (pts : list string)
         (cur : string) (in_run : bool) : list string :=
  match pts with
  | [] => [cur]
  | p :: rest =>
      if is_sep p then
        if in_run then split_runs is_sep rest EmptyString true
        else cur :: split_runs is_sep rest EmptyString true
      else split_runs is_sep rest (cur ++ p) false
  end.

Definition re_split (is_sep : string -> bool) (s : string) : list string :=
  split_runs is_sep (points s) EmptyString false.

Definition is_char (k : N) (c : ascii) : bool := (N_of_ascii c =? k)%N.

(** The code point is the ASCII character [k]. *)
Definition is_point (k : N) (point : string) : bool :=
  String.eqb point (utf8 [k]).

(** The class [\s\-]. *)
Definition sep_space_hyphen (point : string) : bool :=
  is_space point || is_point 45 point.

(** The class [\s\-,.:;!?]. *)
Definition sep_punct (point : string) : bool :=
  is_space point || is_point 45 point || is_point 44 point
  || is_point 46 point || is_point 58 point || is_point 59 point
  || is_point 33 point || is_point 63 point.

End PyStr.

(** ** The injected random source *)

Module Rand.

(** Raw draws still to be consumed. *)
Definition Rng := list Z.

(** A computation that consumes draws. *)
Definition M (A : Type) : Type := Rng -> A * Rng.

Definition ret {A} (a : A) : M A := fun g => (a, g).

Definition bind {A B} (m : M A) (k : A -> M B) : M B :=
  fun g => let (a, g') := m g in k a g'.

(** [random.randint(lo, hi)]: the next draw reduced into [lo..hi].  The
    code only calls it with [lo <= hi]; Python raises on an empty range,
    which no path of the pipeline reaches. *)
Definition randint (lo hi : Z) : M Z :=
  fun g =>
    match g with
    | [] => (lo, [])
    | x :: g' => (lo + x mod (hi - lo + 1), g')
    end.

(** [random.random()]: consumes one draw; the code ignores the value. *)
Definition random_unit : M unit :=
  fun g => match g with [] => (tt, []) | _ :: g' => (tt, g') end.

End Rand.

Notation "x <- m ;; k" := (Rand.bind m (fun x => k))
  (at level 61, m at next level, right associativity).

(** ** DiceRoller *)

Module DiceRoller.

Definition roll (sides : Z) : Rand.M Z := Rand.randint 1 sides.

Definition d20 : Rand.M Z := roll 20.

(** [attribute_check(attribute_value, difficulty, advantage,
    disadvantage, gift_bonus)] returns [(success, roll, total)]. *)
Definition attribute_check (attribute_value difficulty : Z)
           (advantage disadvantage : bool) (gift_bonus : Z)
  : Rand.M (bool * Z * Z) :=
  roll1 <- d20 ;;
  r <- (if advantage || disadvantage then
          roll2 <- d20 ;;
          Rand.ret (if advantage then Z.max roll1 roll2
                    else Z.min roll1 roll2)
        else Rand.ret roll1) ;;
  let modifier := (attribute_value - 10) / 2 in
  let total := r + modifier + gift_bonus in
  let success := total >=? difficulty in
  Rand.ret (success, r, total).

End DiceRoller.

(** ** Data model ([models/items.py], [models/dungeon.py], [models/npc.py],
       [models/grimoire.py], [models/player.py]) *)

Inductive ItemType :=
| WEAPON | ARMOR | RING | HEAD | CONSUMABLE | KEY | MATERIAL.

Definition ItemType_value (t : ItemType) : string :=
  match t with
  | WEAPON => "weapon" | ARMOR => "armor" | RING => "ring" | HEAD => "head"
  | CONSUMABLE => "consumable" | KEY => "key" | MATERIAL => "material"
  end.

(** [Item]: the fields the pipeline reads.  The [equipped] flag, which
    only [Player.equip_item] and [unequip_item] write, is left out, so
    the model says nothing about it. *)
Record Item := mkItem {
  item_id : string;
  item_name : string;
  item_description : string;
  item_type : ItemType;
  item_is_curse : bool;
  item_key_id : option string
}.

(** Equality of items as the dataclass defines it: field by field. *)
Definition ItemType_eqb (a b : ItemType) : bool :=
  match a, b with
  | WEAPON, WEAPON | ARMOR, ARMOR | RING, RING | HEAD, HEAD
  | CONSUMABLE, CONSUMABLE | KEY, KEY | MATERIAL, MATERIAL => true
  | _, _ => false
  end.

Definition option_string_eqb (a b : option string) : bool :=
  match a, b with
  | Some x, Some y => String.eqb x y
  | None, None => true
  | _, _ => false
  end.

Definition Item_eqb (a b : Item) : bool :=
  String.eqb (item_id a) (item_id b)
  && String.eqb (item_name a) (item_name b)
  && String.eqb (item_description a) (item_description b)
  && ItemType_eqb (item_type a) (item_type b)
  && Bool.eqb (item_is_curse a) (item_is_curse b)
  && option_string_eqb (item_key_id a) (item_key_id b).

(** [item in items] and [items.remove(item)] (first equal element). *)
Definition item_in (x : Item) (items : list Item) : bool :=
  existsb (Item_eqb x) items.

Fixpoint list_remove (x : Item) (items : list Item) : list Item :=
  match items with
  | [] => []
  | y :: rest => if Item_eqb x y then rest else y :: list_remove x rest
  end.

Record Monster := mkMonster {
  monster_name : string;
  monster_hp : Z;
  monster_max_hp : Z;
  monster_attack : Z;
  monster_defense : Z;
  monster_stunned : bool;
  monster_unaware : bool
}.

Record NPC := mkNPC {
  npc_id : string;
  npc_name : string;
  npc_role : string;
  npc_alive : bool
}.

(** A non-empty palette dictionary; [ao_name] is its ['name'] entry when
    it has one. *)
Record AssignedObject := mkAssigned {
  ao_name : option string
}.

Inductive RoomType :=
| EMPTY | MONSTER | TREASURE | STAIRS_DOWN | STAIRS_UP.

Record Room := mkRoom {
  room_type : RoomType;
  room_description : option string;
  room_monster : option Monster;
  room_npc : option NPC;
  room_loot : list Item;
  room_looted : bool;
  room_hidden_key : option Item;
  room_destroyed_objects : list string;
  room_discovered_objects : list string;
  room_assigned_object : option AssignedObject
}.

Record Spell := mkSpell {
  spell_name : string;
  spell_effect_type : string;
  spell_magnitude : string;
  spell_components : list string;
  spell_gesture : string;
  spell_words : string;
  spell_plausibility : Q;
  spell_discovery_context : string;
  spell_uses : Z
}.

Record Grimoire := mkGrimoire {
  spells : list Spell;
  total_discoveries : Z;
  current_run_discoveries : Z
}.

Record Attributes := mkAttributes {
  strength : Z;
  dexterity : Z;
  wisdom : Z;
  intelligence : Z
}.

Record Buff := mkBuff {
  buff_name : string;
  buff_type : string;
  buff_value : Z;
  buff_duration : Z
}.

(** [gift['secret_bonus']]: bonus per key such as ["wisdom_rolls"]. *)
Record Gift := mkGift {
  gift_name : string;
  secret_bonus : list (string * Z)
}.

Record Player := mkPlayer {
  attributes : Attributes;
  hp : Z;
  max_hp : Z;
  attack : Z;
  defense : Z;
  gold : Z;
  xp : Z;
  level : Z;
  buffs : list Buff;
  inventory : list Item;
  equipment : list (string * option Item);
  grimoire : Grimoire;
  gift : option Gift;
  morality : Z
}.

(** The interpreter's structured intent.  A field is [None] when the key
    is absent from the dictionary ([target] also when it is null); a field
    that is present carries a value of the schema's type. *)
Record Intent := mkIntent {
  action_type : option string;
  target : option string;
  method : option string;
  plausibility : option Q;
  valid : option bool;
  reason_if_invalid : option string;
  components_used : option (list string)
}.

Definition get {A} (field : option A) (default : A) : A :=
  match field with Some v => v | None => default end.

(** [a < b] on rationals, as a boolean. *)
Definition Qltb (a b : Q) : bool := negb (Qle_bool b a).

(** [int(q)]: truncation toward zero. *)
Definition py_int (q : Q) : Z := Z.quot (Qnum q) (Zpos (Qden q)).

(** ** ActionValidator *)

Inductive Validation :=
| Allowed
| Denied (reason : string).

Module ActionValidator.

Import PyStr.

Section Validator.

Context {L : Lowering}.

Definition FORBIDDEN_METHODS : list string :=
  ["teleport"; "fly"; "phase_through"; "time_travel";
   "summon"; "resurrect"; "omniscience"; "invincibility"].

Definition exploration_targets : list string :=
  ["room"; "raum"; "environment"; "umgebung"; "self";
   "ausgänge"; "exits"; "ausgang"; "exit";
   "wände"; "walls"; "wand"; "wall";
   "boden"; "floor"; "decke"; "ceiling";
   "gegend"; "area"; "surroundings"].

Definition target_action_types : list string :=
  ["physical_attack"; "social"; "interact_object"].

Definition taking_keywords : list string :=
  ["nimm"; "nehm"; "take"; "grab"; "pick up"; "mitnehm"; "einsteck"; "pack"].

Definition immovable_objects : list string :=
  ["altar"; "statue"; "wand"; "wall"; "mauer"; "boden"; "floor";
   "decke"; "ceiling"; "säule"; "column"; "pfeiler"; "pillar";
   "tür"; "door"; "tor"; "gate"; "treppe"; "stairs"; "leiter"; "ladder";
   "thron"; "throne"; "tisch"; "table"; "stuhl"; "chair";
   "sarkophag"; "sarcophagus"; "grab"; "grave"; "gruft"; "crypt";
   "brunnen"; "fountain"; "well"; "becken"; "basin"; "pool"].

(** [has_ability(player, ability)]. *)
Definition ability_items (ability : string) : list string :=
  if String.eqb ability "fly" then
    ["wings"; "levitation potion"; "flight spell"]
  else if String.eqb ability "teleport" then
    ["teleportation scroll"; "warp stone"]
  else if String.eqb ability "phase_through" then
    ["ethereal cloak"; "ghost potion"]
  else [].

Definition has_ability (player : Player) (ability : string) : bool :=
  let inventory_names_lower :=
    map (fun it => lower (item_name it)) (inventory player) in
  existsb (fun it => mem it inventory_names_lower) (ability_items ability).

(** Some item of the list carries the target in its lowercased name. *)
Definition name_match (t : string) (items : list Item) : bool :=
  existsb (fun it => str_in (lower t) (lower (item_name it))) items.

Definition equipped_match (t : string)
           (eq : list (string * option Item)) : bool :=
  existsb (fun se => match snd se with
                     | Some it => str_in (lower t) (lower (item_name it))
                     | None => false
                     end) eq.

Definition matches_with_declension (target_word npc_word : string) : bool :=
  if String.eqb target_word npc_word then true
  else if (5 <=? len target_word)%nat && (5 <=? len npc_word)%nat then
    str_in target_word npc_word || str_in npc_word target_word
  else false.

Definition npc_match (t : string) (n : option NPC) : bool :=
  match n with
  | Some npc =>
      npc_alive npc &&
      (matches_with_declension (lower t) (lower (npc_name npc))
       || matches_with_declension (lower t) (lower (npc_role npc)))
  | None => false
  end.

Definition assigned_match (t : string) (a : option AssignedObject) : bool :=
  match a with
  | Some obj =>
      let obj_name := lower (get (ao_name obj) "") in
      str_in obj_name (lower t) || str_in (lower t) obj_name
  | None => false
  end.

(** Bidirectional substring match against a list of recorded names
    (used for discovered and for destroyed objects). *)
Definition fuzzy_match (t : string) (names : list string) : bool :=
  existsb (fun o => str_in (lower o) (lower t) || str_in (lower t) (lower o))
          names.

Definition word_matches (target_word text : string) : bool :=
  existsb (fun text_word =>
             (4 <=? len target_word)%nat && (4 <=? len text_word)%nat
             && (str_in target_word text_word || str_in text_word target_word))
          (re_split sep_punct text).

Definition target_words (t : string) : list string :=
  filter (fun w => (3 <? len w)%nat) (re_split sep_space_hyphen (lower t)).

Definition anchor_match (t desc : string) : bool :=
  existsb (fun w => word_matches w (lower desc)) (target_words t).

Definition destroyed_reason (t : string) : string :=
  "OBJECT_DESTROYED: " ++ t ++ " ist irreparabel zerstört".

Definition fixed_reason (t : string) : string :=
  "OBJECT_FIXED: " ++ t ++ " ist fest verbaut und kann nicht mitgenommen werden".

(** The description block of the target search (lines 196-269): [inl]
    is an early return, [inr] the new value of [target_found]. *)
Definition description_block (intent : Intent) (room : Room) (t : string)
           (target_found : bool) : Validation + bool :=
  match room_description room with
  | Some desc =>
      if truthy desc then
        if fuzzy_match t (room_destroyed_objects room) then
          inl (Denied (destroyed_reason t))
        else if anchor_match t desc then
          let method_lower := lower (get (method intent) "") in
          let is_taking := any_in taking_keywords method_lower in
          let is_loot_item := name_match t (room_loot room) in
          if is_taking && negb is_loot_item
             && existsb (fun immov => str_in immov (lower t)) immovable_objects
          then inl (Denied (fixed_reason t))
          else inr true
        else inr target_found
      else inr target_found
  | None => inr target_found
  end.

(** Step 3, the target-existence check: [Some v] is an early return. *)
Definition check_target (intent : Intent) (player : Player) (room : Room)
  : option Validation :=
  match target intent with
  | Some t =>
      if truthy t && mem (get (action_type intent) "") target_action_types
      then
        if mem (lower t) exploration_targets then None
        else
          let found_monster :=
            match room_monster room with
            | Some m => str_in (lower t) (lower (monster_name m))
            | None => false
            end in
          let target_found :=
            found_monster
            || name_match t (room_loot room)
            || name_match t (inventory player)
            || equipped_match t (equipment player)
            || npc_match t (room_npc room)
            || assigned_match t (room_assigned_object room)
            || fuzzy_match t (room_discovered_objects room) in
          match description_block intent room t target_found with
          | inl v => Some v
          | inr true => None
          | inr false => Some (Denied ("TARGET_NOT_PRESENT: " ++ t))
          end
      else None
  | None => None
  end.

(** Step 4, the forbidden-method check. *)
Definition check_physics (intent : Intent) (player : Player)
  : option Validation :=
  let m := lower (get (method intent) "") in
  match find (fun forbidden => str_in forbidden m
                               && negb (has_ability player forbidden))
             FORBIDDEN_METHODS with
  | Some forbidden => Some (Denied ("PHYSICS_VIOLATION: " ++ forbidden))
  | None => None
  end.

(** Step 5, the inventory requirements. *)
Definition check_components (intent : Intent) (player : Player)
  : option Validation :=
  let inventory_names := map item_name (inventory player) in
  match find (fun component => negb (mem component inventory_names))
             (get (components_used intent) []) with
  | Some component => Some (Denied ("MISSING_COMPONENT: " ++ component))
  | None => None
  end.

(** Steps 1 and 2: the interpreter's own verdict and the plausibility
    threshold. *)
Definition check_valid (intent : Intent) : option Validation :=
  if negb (get (valid intent) true) then
    Some (Denied (get (reason_if_invalid intent) "INTERPRETER_REJECTION"))
  else None.

Definition check_plausibility (intent : Intent) : option Validation :=
  if Qltb (get (plausibility intent) 0%Q) (1 # 10)%Q then Some (Denied "IMPLAUSIBLE")
  else None.

(** The first check that returns decides. *)
Fixpoint first_verdict (checks : list (option Validation)) : Validation :=
  match checks with
  | [] => Allowed
  | Some v :: _ => v
  | None :: rest => first_verdict rest
  end.

Definition validate (intent : Intent) (player : Player) (room : Room)
  : Validation :=
  first_verdict
    [check_valid intent;
     check_plausibility intent;
     check_target intent player room;
     check_physics intent player;
     check_components intent player].

End Validator.

End ActionValidator.

(** ** The interpreter gateway ([AIService.interpret_action]) *)

(** What the text generator handed back to the interpreter: nothing, text
    that [json.loads] rejects, or a JSON object read as an intent.  A
    reply that parses to another JSON value (an array, a string, a
    number) or to an object with values outside the schema's types is
    not covered. *)
Inductive BackendReply :=
| ReplyEmpty
| ReplyInvalidJson
| ReplyObject (i : Intent).

Module AIService.

(** The dictionary the interpreter returns when it treats the action as
    invalid. *)
Definition invalid_intent (reason : string) : Intent :=
  {| action_type := None; target := None; method := None;
     plausibility := Some 0%Q; valid := Some false;
     reason_if_invalid := Some reason; components_used := None |}.

(** The first of ['action_type'], ['valid'], ['plausibility'] that the
    parsed object lacks. *)
Definition missing_field (i : Intent) : option string :=
  match action_type i, valid i, plausibility i with
  | None, _, _ => Some "action_type"
  | _, None, _ => Some "valid"
  | _, _, None => Some "plausibility"
  | _, _, _ => None
  end.

Definition interpret_action (is_available : bool) (reply : BackendReply)
  : Intent :=
  if negb is_available then invalid_intent "AI not available"
  else
    match reply with
    | ReplyEmpty => invalid_intent "LLM returned empty response"
    | ReplyInvalidJson => invalid_intent "LLM returned invalid JSON"
    | ReplyObject i =>
        match missing_field i with
        | Some field =>
            invalid_intent ("LLM response missing '" ++ field ++ "'")
        | None => i
        end
    end.

End AIService.

(** ** ActionResolver *)

Record Impact := mkImpact {
  imp_hp : Z;
  imp_gold : Z;
  imp_xp : Z;
  imp_item : option Item
}.

Definition no_impact : Impact := mkImpact 0 0 0 None.

(** The magic evaluator's verdict, also the [magic_data] of a result. *)
Record MagicData := mkMagicData {
  md_spell_name : string;
  md_effect_type : string;
  md_magnitude : string;
  md_is_valid_attempt : bool;
  md_is_discovery : bool;
  md_plausibility : option Q;
  md_consequence : option string
}.

(** The dictionary [resolve_magic_attempt] returns; a field is [None]
    when the key is absent. *)
Record MagicResult := mkMagicResult {
  mr_success : bool;
  mr_magic_data : option MagicData;
  mr_spell_discovered : bool;
  mr_known_spell_cast : option bool;
  mr_roll : option Z;
  mr_total : option Z;
  mr_difficulty : option Z;
  mr_plausibility : option Q;
  mr_impact : Impact
}.

(** The dictionary [resolve_free_action] returns, without the [context]
    entry that only feeds the narration prompt.  Keys a branch does not
    set hold the default the orchestrator reads with [.get]. *)
Record Result := mkResult {
  res_success : bool;
  res_rejected : bool;
  res_rejection_reason : string;
  res_attribute : option string;
  res_attribute_value : Z;
  res_difficulty : Z;
  res_plausibility : Q;
  res_roll : Z;
  res_total : Z;
  res_intent : Intent;
  res_impact : Impact;
  res_equipped_item : option Item;
  res_magic_data : option MagicData;
  res_spell_discovered : bool;
  res_known_spell_cast : bool;
  res_gift_discovered : bool;
  res_gift_bonus : Z
}.

(** A call either returns or raises a Python exception. *)
Inductive Outcome (A : Type) :=
| Returned (a : A)
| Raised (exn : string).
Arguments Returned {A} a.
Arguments Raised {A} exn.

(** What the external generator answers during one resolution. *)
Record Oracle := mkOracle {
  ai_available : bool;
  interpreter_reply : BackendReply;
  magic_evaluation : option MagicData;
  crafted_item : option Item;
  taken_item : option Item
}.

(** The [game] argument of [resolve_free_action]: [None], its default
    (the repository's test script calls the resolver so), or the Game
    instance, as [execute_free_action] passes it.  The resolver reads
    only [game.theme], on its way to the item generator. *)
Inductive GameArg :=
| NoGame
| TheGame.

(** Field updates. *)
Definition set_monster (r : Room) (m : option Monster) : Room :=
  {| room_type := room_type r; room_description := room_description r;
     room_monster := m; room_npc := room_npc r; room_loot := room_loot r;
     room_looted := room_looted r; room_hidden_key := room_hidden_key r;
     room_destroyed_objects := room_destroyed_objects r;
     room_discovered_objects := room_discovered_objects r;
     room_assigned_object := room_assigned_object r |}.

Definition set_loot (r : Room) (l : list Item) : Room :=
  {| room_type := room_type r; room_description := room_description r;
     room_monster := room_monster r; room_npc := room_npc r; room_loot := l;
     room_looted := room_looted r; room_hidden_key := room_hidden_key r;
     room_destroyed_objects := room_destroyed_objects r;
     room_discovered_objects := room_discovered_objects r;
     room_assigned_object := room_assigned_object r |}.

Definition set_destroyed_objects (r : Room) (l : list string) : Room :=
  {| room_type := room_type r; room_description := room_description r;
     room_monster := room_monster r; room_npc := room_npc r;
     room_loot := room_loot r;
     room_looted := room_looted r; room_hidden_key := room_hidden_key r;
     room_destroyed_objects := l;
     room_discovered_objects := room_discovered_objects r;
     room_assigned_object := room_assigned_object r |}.

Definition set_discovered_objects (r : Room) (l : list string) : Room :=
  {| room_type := room_type r; room_description := room_description r;
     room_monster := room_monster r; room_npc := room_npc r;
     room_loot := room_loot r;
     room_looted := room_looted r; room_hidden_key := room_hidden_key r;
     room_destroyed_objects := room_destroyed_objects r;
     room_discovered_objects := l;
     room_assigned_object := room_assigned_object r |}.

Definition set_looted (r : Room) (b : bool) : Room :=
  {| room_type := room_type r; room_description := room_description r;
     room_monster := room_monster r; room_npc := room_npc r;
     room_loot := room_loot r;
     room_looted := b; room_hidden_key := room_hidden_key r;
     room_destroyed_objects := room_destroyed_objects r;
     room_discovered_objects := room_discovered_objects r;
     room_assigned_object := room_assigned_object r |}.

Definition set_hp (p : Player) (v : Z) : Player :=
  {| attributes := attributes p; hp := v; max_hp := max_hp p;
     attack := attack p; defense := defense p; gold := gold p; xp := xp p;
     level := level p; buffs := buffs p; inventory := inventory p;
     equipment := equipment p; grimoire := grimoire p; gift := gift p;
     morality := morality p |}.

Definition set_gold (p : Player) (v : Z) : Player :=
  {| attributes := attributes p; hp := hp p; max_hp := max_hp p;
     attack := attack p; defense := defense p; gold := v; xp := xp p;
     level := level p; buffs := buffs p; inventory := inventory p;
     equipment := equipment p; grimoire := grimoire p; gift := gift p;
     morality := morality p |}.

Definition set_xp (p : Player) (v : Z) : Player :=
  {| attributes := attributes p; hp := hp p; max_hp := max_hp p;
     attack := attack p; defense := defense p; gold := gold p; xp := v;
     level := level p; buffs := buffs p; inventory := inventory p;
     equipment := equipment p; grimoire := grimoire p; gift := gift p;
     morality := morality p |}.

Definition set_buffs (p : Player) (v : list Buff) : Player :=
  {| attributes := attributes p; hp := hp p; max_hp := max_hp p;
     attack := attack p; defense := defense p; gold := gold p; xp := xp p;
     level := level p; buffs := v; inventory := inventory p;
     equipment := equipment p; grimoire := grimoire p; gift := gift p;
     morality := morality p |}.

Definition set_inventory (p : Player) (v : list Item) : Player :=
  {| attributes := attributes p; hp := hp p; max_hp := max_hp p;
     attack := attack p; defense := defense p; gold := gold p; xp := xp p;
     level := level p; buffs := buffs p; inventory := v;
     equipment := equipment p; grimoire := grimoire p; gift := gift p;
     morality := morality p |}.

Definition set_equipment (p : Player) (v : list (string * option Item))
  : Player :=
  {| attributes := attributes p; hp := hp p; max_hp := max_hp p;
     attack := attack p; defense := defense p; gold := gold p; xp := xp p;
     level := level p; buffs := buffs p; inventory := inventory p;
     equipment := v; grimoire := grimoire p; gift := gift p;
     morality := morality p |}.

Definition set_grimoire (p : Player) (v : Grimoire) : Player :=
  {| attributes := attributes p; hp := hp p; max_hp := max_hp p;
     attack := attack p; defense := defense p; gold := gold p; xp := xp p;
     level := level p; buffs := buffs p; inventory := inventory p;
     equipment := equipment p; grimoire := v; gift := gift p;
     morality := morality p |}.

Definition set_morality (p : Player) (v : Z) : Player :=
  {| attributes := attributes p; hp := hp p; max_hp := max_hp p;
     attack := attack p; defense := defense p; gold := gold p; xp := xp p;
     level := level p; buffs := buffs p; inventory := inventory p;
     equipment := equipment p; grimoire := grimoire p; gift := gift p;
     morality := v |}.

(** [Player.adjust_morality]. *)
Definition adjust_morality (p : Player) (amount : Z) : Player :=
  set_morality p (Z.max (-100) (Z.min 100 (morality p + amount))).

(** ** Grimoire *)

Module GrimoireOps.

Import PyStr.

Section Spells.

Context {L : Lowering}.

(** [set(a) == set(b)] on lists of names. *)
Definition same_set (a b : list string) : bool :=
  forallb (fun x => mem x b) a && forallb (fun x => mem x a) b.

Definition spell_matches (components : list string) (words : string)
           (s : Spell) : bool :=
  same_set (spell_components s) components
  && String.eqb (lower (spell_words s)) (lower words).

(** [Grimoire.find_spell]: the position of the first matching spell.
    The Python method returns the spell object itself, which the caller
    then mutates in place; the position keeps that link. *)
Fixpoint find_index (components : list string) (words : string)
         (l : list Spell) : option nat :=
  match l with
  | [] => None
  | s :: rest =>
      if spell_matches components words s then Some O
      else option_map S (find_index components words rest)
  end.

Definition find_spell (g : Grimoire) (components : list string)
           (words : string) : option (nat * Spell) :=
  match find_index components words (spells g) with
  | Some i => option_map (fun s => (i, s)) (nth_error (spells g) i)
  | None => None
  end.

Definition increment_uses (s : Spell) : Spell :=
  {| spell_name := spell_name s; spell_effect_type := spell_effect_type s;
     spell_magnitude := spell_magnitude s;
     spell_components := spell_components s;
     spell_gesture := spell_gesture s; spell_words := spell_words s;
     spell_plausibility := spell_plausibility s;
     spell_discovery_context := spell_discovery_context s;
     spell_uses := spell_uses s + 1 |}.

Fixpoint update_at (i : nat) (f : Spell -> Spell) (l : list Spell)
  : list Spell :=
  match l, i with
  | [], _ => []
  | s :: rest, O => f s :: rest
  | s :: rest, S j => s :: update_at j f rest
  end.

(** [known_spell.uses += 1] on the spell at position [i]. *)
Definition bump_uses (g : Grimoire) (i : nat) : Grimoire :=
  {| spells := update_at i increment_uses (spells g);
     total_discoveries := total_discoveries g;
     current_run_discoveries := current_run_discoveries g |}.

(** [Grimoire.add_spell]: [true] when the spell was new. *)
Definition add_spell (g : Grimoire) (s : Spell) : bool * Grimoire :=
  if existsb (fun existing =>
                String.eqb (spell_name existing) (spell_name s)
                || (same_set (spell_components existing) (spell_components s)
                    && String.eqb (lower (spell_words existing))
                                  (lower (spell_words s))))
             (spells g)
  then (false, g)
  else (true,
        {| spells := spells g ++ [s];
           total_discoveries := total_discoveries g + 1;
           current_run_discoveries := current_run_discoveries g + 1 |}).

End Spells.

End GrimoireOps.

Module ActionResolver.

Import PyStr.

Section Resolver.

Context {L : Lowering}.

(** [get_gift_bonus(player, attribute_name)]. *)
Definition get_gift_bonus (player : Player) (attribute_name : string) : Z :=
  match gift player with
  | None => 0
  | Some g =>
      let bonus_key := attribute_name ++ "_rolls" in
      match find (fun kv => String.eqb (fst kv) bonus_key) (secret_bonus g) with
      | Some kv => snd kv
      | None => 0
      end
  end.

Definition treasure_keywords : list string :=
  ["schatz"; "treasure"; "gold"; "münz"; "coin"; "geld"; "money";
   "plünder"; "loot"; "beute"; "wertsach"; "valuabl";
   "durchsuch"; "search for"; "suche nach"; "finde"; "versteck"; "hidden";
   "truhe"; "chest"; "kiste"; "box"; "schatzkammer"; "vault"].

(** The XP of a successful check (lines 391-403). *)
Definition success_xp (margin difficulty : Z) (plaus : Q) : Z :=
  if Qle_bool (8 # 10) plaus then 0
  else if Qle_bool (6 # 10) plaus then Z.max 1 (difficulty / 2)
  else
    let creativity_bonus := py_int ((1 - plaus) * 10)%Q in
    difficulty + margin * 2 + creativity_bonus.

(** [determine_rewards(success, roll_total, difficulty, plausibility,
    action_type, action_text)]. *)
Definition determine_rewards (success : bool) (roll_total difficulty : Z)
           (plaus : Q) (act_type : option string)
           (action_text : option string) : Rand.M Impact :=
  if success then
    let margin := roll_total - difficulty in
    let xp_ := success_xp margin difficulty plaus in
    if (margin >=? 10)
       && negb (match act_type with
                | Some t => String.eqb t "social"
                | None => false
                end)
    then
      let is_treasure_action :=
        match action_text with
        | Some txt => truthy txt && any_in treasure_keywords (lower txt)
        | None => false
        end in
      if is_treasure_action then
        g <- Rand.randint 5 15 ;;
        _ <- Rand.random_unit ;;
        Rand.ret (mkImpact 0 g xp_ None)
      else Rand.ret (mkImpact 0 0 xp_ None)
    else Rand.ret (mkImpact 0 0 xp_ None)
  else
    let margin := difficulty - roll_total in
    if margin >=? 8 then
      d <- Rand.randint 2 5 ;; Rand.ret (mkImpact (- d) 0 0 None)
    else if margin >=? 5 then
      d <- Rand.randint 1 3 ;; Rand.ret (mkImpact (- d) 0 0 None)
    else if difficulty >=? 14 then
      d <- Rand.randint 1 (margin / 2 + 1) ;;
      Rand.ret (mkImpact (- d) 0 0 None)
    else Rand.ret (mkImpact 0 0 0 None).

Definition magnitude_mult (magnitude : string) : Q :=
  if String.eqb magnitude "minor" then 1
  else if String.eqb magnitude "moderate" then (3 # 2)
  else if String.eqb magnitude "major" then 2
  else 1.

(** [int(n * mult)]. *)
Definition scaled (n : Z) (mult : Q) : Z := py_int (inject_Z n * mult)%Q.

(** [room.monster and room.monster.hp > 0]. *)
Definition living_monster (room : Room) : option Monster :=
  match room_monster room with
  | Some m => if monster_hp m >? 0 then Some m else None
  | None => None
  end.

Definition damage_monster (m : Monster) (damage : Z) (stun : bool)
           (defense_loss : Z) : Monster :=
  {| monster_name := monster_name m;
     monster_hp := monster_hp m - damage;
     monster_max_hp := monster_max_hp m;
     monster_attack := monster_attack m;
     monster_defense :=
       if defense_loss =? 0 then monster_defense m
       else Z.max 0 (monster_defense m - defense_loss);
     monster_stunned := stun || monster_stunned m;
     monster_unaware := monster_unaware m |}.

(** An attack spell: damage in [lo..hi] scaled by the magnitude when a
    living monster is present, else a backfire in [bf_lo..bf_hi]. *)
Definition attack_spell (lo hi xp_base bf_lo bf_hi : Z) (stun : bool)
           (defense_loss : Z) (mult : Q) (player : Player) (room : Room)
  : Rand.M (Impact * Player * Room) :=
  match living_monster room with
  | Some m =>
      d <- Rand.randint lo hi ;;
      let damage := scaled d mult in
      Rand.ret (mkImpact 0 0 (scaled xp_base mult) None, player,
                set_monster room
                  (Some (damage_monster m damage stun defense_loss)))
  | None =>
      b <- Rand.randint bf_lo bf_hi ;;
      Rand.ret (mkImpact (- b) 0 1 None, player, room)
  end.

Definition heal_spell (lo hi xp_base : Z) (mult : Q) (player : Player)
           (room : Room) : Rand.M (Impact * Player * Room) :=
  h <- Rand.randint lo hi ;;
  let heal_amount := scaled h mult in
  Rand.ret (mkImpact heal_amount 0 (scaled xp_base mult) None,
            set_hp player (Z.min (max_hp player) (hp player + heal_amount)),
            room).

(** [apply_spell_effect(spell, player, room, target)]. *)
Definition apply_spell_effect (spell : Spell) (player : Player)
           (room : Room) : Rand.M (Impact * Player * Room) :=
  let mult := magnitude_mult (spell_magnitude spell) in
  let ty := spell_effect_type spell in
  if String.eqb ty "fire" then
    attack_spell 5 15 10 1 2 false 0 mult player room
  else if String.eqb ty "ice" then
    attack_spell 3 10 12 1 2 true 0 mult player room
  else if String.eqb ty "lightning" then
    attack_spell 8 20 15 2 4 false 0 mult player room
  else if String.eqb ty "heal" then
    heal_spell 10 20 5 mult player room
  else if String.eqb ty "shield" then
    v <- Rand.randint 3 8 ;;
    let buff := mkBuff "Magic Shield" "defense" (scaled v mult) 3 in
    Rand.ret (mkImpact 0 0 (scaled 8 mult) None,
              set_buffs player (buffs player ++ [buff]), room)
  else if String.eqb ty "dark" then
    attack_spell 6 12 12 2 5 false 2 mult player room
  else if String.eqb ty "light" then
    heal_spell 5 10 6 mult player room
  else
    Rand.ret (mkImpact 0 0 (scaled 5 mult) None, player, room).

(** The regular expression that pulls the spoken words out of the
    method text: the first non-empty run of characters without a quote
    (single or double) that stands between two quotes. *)
Definition is_quote (c : ascii) : bool := is_char 34 c || is_char 39 c.

Fixpoint span_unquoted (s : string) : string * string :=
  match s with
  | EmptyString => (EmptyString, EmptyString)
  | String c rest =>
      if is_quote c then (EmptyString, s)
      else let (run, after) := span_unquoted rest in (String c run, after)
  end.

Fixpoint extract_words (s : string) : option string :=
  match s with
  | EmptyString => None
  | String c rest =>
      if is_quote c then
        match span_unquoted rest with
        | (String a run, String _ _) => Some (String a run)
        | _ => extract_words rest
        end
      else extract_words rest
  end.

(** [int(20 - plausibility * 15)]. *)
Definition difficulty_of (plaus : Q) : Z := py_int (20 - plaus * 15)%Q.

(** [min(0.95, p + 0.2)], on exact rationals (the source rounds the sum
    to a double). *)
Definition boosted (p : Q) : Q :=
  let q := (p + (2 # 10))%Q in
  if Qltb q (95 # 100) then q else (95 # 100)%Q.

Definition RoomType_value (t : RoomType) : string :=
  match t with
  | EMPTY => "EMPTY" | MONSTER => "MONSTER" | TREASURE => "TREASURE"
  | STAIRS_DOWN => "STAIRS_DOWN" | STAIRS_UP => "STAIRS_UP"
  end.

Definition known_magic_data (s : Spell) (plaus : Q) : MagicData :=
  {| md_spell_name := spell_name s;
     md_effect_type := spell_effect_type s;
     md_magnitude := spell_magnitude s;
     md_is_valid_attempt := true;
     md_is_discovery := false;
     md_plausibility := Some plaus;
     md_consequence := None |}.

(** The known-spell branch of [resolve_magic_attempt] (lines 586-642);
    [i] is the position of [known_spell] in the grimoire. *)
Definition cast_known_spell (i : nat) (known_spell : Spell)
           (player : Player) (room : Room)
  : Rand.M (MagicResult * Player * Room) :=
  let plaus := boosted (spell_plausibility known_spell) in
  let difficulty := difficulty_of plaus in
  let attr_value := intelligence (attributes player) in
  chk <- DiceRoller.attribute_check attr_value difficulty false false 0 ;;
  let '(success, roll, total) := chk in
  let player1 :=
    set_grimoire player (GrimoireOps.bump_uses (grimoire player) i) in
  let known_spell1 := GrimoireOps.increment_uses known_spell in
  if success then
    eff <- apply_spell_effect known_spell1 player1 room ;;
    let '(spell_impact, player2, room2) := eff in
    Rand.ret
      ({| mr_success := true;
          mr_magic_data := Some (known_magic_data known_spell1 plaus);
          mr_spell_discovered := false;
          mr_known_spell_cast := Some true;
          mr_roll := Some roll; mr_total := Some total;
          mr_difficulty := Some difficulty;
          mr_plausibility := Some plaus;
          mr_impact := spell_impact |}, player2, room2)
  else
    b <- Rand.randint 1 3 ;;
    Rand.ret
      ({| mr_success := false;
          mr_magic_data := Some (known_magic_data known_spell1 plaus);
          mr_spell_discovered := false;
          mr_known_spell_cast := Some false;
          mr_roll := Some roll; mr_total := Some total;
          mr_difficulty := Some difficulty;
          mr_plausibility := Some plaus;
          mr_impact := mkImpact (- b) 0 0 None |}, player1, room).

Definition merge_spell_impact (impact spell_impact : Impact) : Impact :=
  {| imp_hp := if imp_hp spell_impact =? 0 then imp_hp impact
               else imp_hp spell_impact;
     imp_gold := if imp_gold spell_impact >? 0 then imp_gold spell_impact
                 else imp_gold impact;
     imp_xp := imp_xp impact + imp_xp spell_impact;
     imp_item := match imp_item spell_impact with
                 | Some it => Some it
                 | None => imp_item impact
                 end |}.

Definition level_text (n : Z) : string :=
  NilZero.string_of_int (Z.to_int n).

(** The branch of [resolve_magic_attempt] for a combination that is not
    in the grimoire (lines 644-727). *)
Definition attempt_unknown_spell (action : string)
           (components : list string) (gesture words : string)
           (player : Player) (room : Room) (orc : Oracle)
  : Rand.M (MagicResult * Player * Room) :=
  match magic_evaluation orc with
  | Some magic_data =>
      if negb (md_is_valid_attempt magic_data) then
        Rand.ret (mkMagicResult false None false None None None None None
                                no_impact, player, room)
      else
        let plaus := get (md_plausibility magic_data) (1 # 10)%Q in
        let difficulty := difficulty_of plaus in
        let attr_value := intelligence (attributes player) in
        chk <- DiceRoller.attribute_check attr_value difficulty
                                          false false 0 ;;
        let '(success, roll, total) := chk in
        impact <- determine_rewards success total difficulty plaus
                                    None (Some action) ;;
        if success && md_is_discovery magic_data then
          let spell :=
            {| spell_name := md_spell_name magic_data;
               spell_effect_type := md_effect_type magic_data;
               spell_magnitude := md_magnitude magic_data;
               spell_components := components;
               spell_gesture := gesture;
               spell_words := words;
               spell_plausibility := plaus;
               spell_discovery_context :=
                 RoomType_value (room_type room) ++ " - "
                 ++ level_text (level player);
               spell_uses := 0 |} in
          let (spell_discovered, grimoire1) :=
            GrimoireOps.add_spell (grimoire player) spell in
          let player1 := set_grimoire player grimoire1 in
          let player2 :=
            match md_consequence magic_data with
            | Some c => if String.eqb c "moral_corruption"
                        then adjust_morality player1 (-15) else player1
            | None => player1
            end in
          eff <- apply_spell_effect spell player2 room ;;
          let '(spell_impact, player3, room3) := eff in
          Rand.ret
            ({| mr_success := success;
                mr_magic_data := Some magic_data;
                mr_spell_discovered := spell_discovered;
                mr_known_spell_cast := None;
                mr_roll := Some roll; mr_total := Some total;
                mr_difficulty := Some difficulty;
                mr_plausibility := Some plaus;
                mr_impact := merge_spell_impact impact spell_impact |},
             player3, room3)
        else
          Rand.ret
            ({| mr_success := success;
                mr_magic_data := Some magic_data;
                mr_spell_discovered := false;
                mr_known_spell_cast := None;
                mr_roll := Some roll; mr_total := Some total;
                mr_difficulty := Some difficulty;
                mr_plausibility := Some plaus;
                mr_impact := impact |}, player, room)
  | None =>
      Rand.ret (mkMagicResult false None false None None None None None
                              no_impact, player, room)
  end.

(** [resolve_magic_attempt(action, intent, player, room, ai_service)]. *)
Definition resolve_magic_attempt (action : string) (intent : Intent)
           (player : Player) (room : Room) (orc : Oracle)
  : Rand.M (MagicResult * Player * Room) :=
  let components := get (components_used intent) [] in
  let method_ := get (method intent) "" in
  let gesture := method_ in
  let words := get (extract_words method_) "" in
  match GrimoireOps.find_spell (grimoire player) components words with
  | Some (i, known_spell) => cast_known_spell i known_spell player room
  | None =>
      attempt_unknown_spell action components gesture words player room orc
  end.

(** [map_action_to_attribute(action_type, method)]; [None] is the
    Python [None] the table holds for ['equip']. *)
Definition map_action_to_attribute (act_type method_ : string)
  : option string :=
  let method_lower := lower method_ in
  if any_in ["force"; "break"; "smash"; "lift"; "push"] method_lower
  then Some "strength"
  else if any_in ["dodge"; "sneak"; "climb"; "jump"; "quick"] method_lower
  then Some "dexterity"
  else if any_in ["perceive"; "notice"; "sense"; "listen"; "spot"] method_lower
  then Some "wisdom"
  else if any_in ["investigate"; "recall"; "decipher"; "analyze"] method_lower
  then Some "intelligence"
  else if String.eqb act_type "physical_attack" then Some "strength"
  else if String.eqb act_type "environment_action" then Some "strength"
  else if String.eqb act_type "move" then Some "dexterity"
  else if String.eqb act_type "interact_object" then Some "wisdom"
  else if String.eqb act_type "social" then Some "intelligence"
  else if String.eqb act_type "attempt_magic" then Some "intelligence"
  else if String.eqb act_type "use_item" then Some "wisdom"
  else if String.eqb act_type "equip" then None
  else Some "wisdom".

(** [getattr(player.attributes, name)]. *)
Definition getattr_attribute (a : Attributes) (name : string) : option Z :=
  if String.eqb name "strength" then Some (strength a)
  else if String.eqb name "dexterity" then Some (dexterity a)
  else if String.eqb name "wisdom" then Some (wisdom a)
  else if String.eqb name "intelligence" then Some (intelligence a)
  else None.

Definition crafting_keywords : list string :=
  ["baue"; "forme"; "erstelle"; "arbeite"; "fertige"; "schmiede";
   "konstruiere"; "bastle"; "zusammen"; "herstell";
   "craft"; "build"; "forge"; "create"; "make"; "assemble";
   "rüstung"; "waffe"; "dolch"; "schwert"; "schild"; "armor"; "weapon"].

Definition _is_crafting_action (action method_ : string) : bool :=
  let action_lower := lower action in
  let method_lower := lower method_ in
  existsb (fun keyword => str_in keyword action_lower
                          || str_in keyword method_lower)
          crafting_keywords.

(** The fallback intent of [resolve_free_action] (lines 935-944). *)
Definition safe_default_intent (action : string) : Intent :=
  {| action_type := Some "interact_object";
     target := None;
     method := Some action;
     plausibility := Some (5 # 10)%Q;
     valid := Some true;
     reason_if_invalid := None;
     components_used := Some [] |}.

(** An empty dictionary is falsy. *)
Definition dict_is_empty (i : Intent) : bool :=
  match action_type i, target i, method i, plausibility i, valid i,
        reason_if_invalid i, components_used i with
  | None, None, None, None, None, None, None => true
  | _, _, _, _, _, _, _ => false
  end.

(** Step 1 of [resolve_free_action]: the intent the pipeline works with. *)
Definition obtain_intent (action : string) (orc : Oracle) : Intent :=
  let intent :=
    if ai_available orc
    then Some (AIService.interpret_action (ai_available orc)
                                          (interpreter_reply orc))
    else None in
  match intent with
  | Some i => if dict_is_empty i then safe_default_intent action else i
  | None => safe_default_intent action
  end.

Definition rejected_result (intent : Intent) (reason : string) : Result :=
  {| res_success := false; res_rejected := true;
     res_rejection_reason := reason;
     res_attribute := None; res_attribute_value := 0;
     res_difficulty := 0; res_plausibility := (5 # 10)%Q;
     res_roll := 0; res_total := 0;
     res_intent := intent; res_impact := no_impact;
     res_equipped_item := None; res_magic_data := None;
     res_spell_discovered := false; res_known_spell_cast := false;
     res_gift_discovered := false; res_gift_bonus := 0 |}.

(** [Player.equip_item]; the [equipped] flag of items is not part of
    the model. *)
Definition slot_lookup (slot : string) (eq : list (string * option Item))
  : option (option Item) :=
  option_map snd (find (fun se => String.eqb (fst se) slot) eq).

Definition slot_update (slot : string) (it : Item)
           (eq : list (string * option Item)) : list (string * option Item) :=
  map (fun se => if String.eqb (fst se) slot then (fst se, Some it) else se) eq.

Definition equip_item (player : Player) (it : Item) : bool * Player :=
  if negb (item_in it (inventory player)) then (false, player)
  else
    let slot := ItemType_value (item_type it) in
    match slot_lookup slot (equipment player) with
    | None => (false, player)
    | Some (Some cur) =>
        if item_is_curse cur then (false, player)
        else (true, set_equipment player (slot_update slot it (equipment player)))
    | Some None =>
        (true, set_equipment player (slot_update slot it (equipment player)))
    end.

(** The equip branch (lines 1002-1138).  The branch reads
    [intent.get('target', '').lower()]: a null target raises, which is
    the [None] case here; an intent without the key at all reads the
    empty text in the source, a case the [Intent] record does not tell
    apart from null and that this definition does not cover. *)
Definition resolve_equip (intent : Intent) (player : Player)
  : Outcome Result * Player :=
  match target intent with
  | None => (Raised "AttributeError", player)
  | Some t =>
      let target_name := lower t in
      match find (fun it => str_in target_name (lower (item_name it))
                            || str_in target_name (lower (item_id it)))
                 (inventory player) with
      | None =>
          (Returned (rejected_result intent
                       ("Du hast '" ++ target_name ++ "' nicht im Inventar.")),
           player)
      | Some target_item =>
          let slot := ItemType_value (item_type target_item) in
          if negb (mem slot ["weapon"; "armor"; "ring"; "head"]) then
            (Returned (rejected_result intent
                         (item_name target_item
                          ++ " kann nicht angelegt werden (Typ: "
                          ++ slot ++ ").")), player)
          else
            match slot_lookup slot (equipment player) with
            | Some (Some cur) =>
                if item_is_curse cur then
                  (Returned (rejected_result intent
                               ("💀 " ++ item_name cur ++
                                " ist verflucht und kann nicht abgelegt werden! Du brauchst einen Priester oder Einsiedler, um den Fluch zu brechen.")),
                   player)
                else
                  let (ok, player1) := equip_item player target_item in
                  if ok then
                    (Returned
                       {| res_success := true; res_rejected := false;
                          res_rejection_reason := "";
                          res_attribute := None; res_attribute_value := 0;
                          res_difficulty := 0; res_plausibility := 1%Q;
                          res_roll := 0; res_total := 0;
                          res_intent := intent; res_impact := no_impact;
                          res_equipped_item := Some target_item;
                          res_magic_data := None;
                          res_spell_discovered := false;
                          res_known_spell_cast := false;
                          res_gift_discovered := false;
                          res_gift_bonus := 0 |}, player1)
                  else
                    (Returned (rejected_result intent
                                 ("Konnte " ++ item_name target_item
                                  ++ " nicht anlegen.")), player1)
            | _ =>
                let (ok, player1) := equip_item player target_item in
                if ok then
                  (Returned
                     {| res_success := true; res_rejected := false;
                        res_rejection_reason := "";
                        res_attribute := None; res_attribute_value := 0;
                        res_difficulty := 0; res_plausibility := 1%Q;
                        res_roll := 0; res_total := 0;
                        res_intent := intent; res_impact := no_impact;
                        res_equipped_item := Some target_item;
                        res_magic_data := None;
                        res_spell_discovered := false;
                        res_known_spell_cast := false;
                        res_gift_discovered := false;
                        res_gift_bonus := 0 |}, player1)
                else
                  (Returned (rejected_result intent
                               ("Konnte " ++ item_name target_item
                                ++ " nicht anlegen.")), player1)
            end
      end
  end.

(** The magic branch (lines 1141-1178). *)
Definition resolve_magic (action : string) (intent : Intent)
           (player : Player) (room : Room) (orc : Oracle)
  : Rand.M (Outcome Result * Player * Room) :=
  m <- resolve_magic_attempt action intent player room orc ;;
  let '(magic_result, player1, room1) := m in
  Rand.ret
    (Returned
       {| res_success := mr_success magic_result; res_rejected := false;
          res_rejection_reason := "";
          res_attribute := Some "intelligence";
          res_attribute_value := intelligence (attributes player1);
          res_difficulty := get (mr_difficulty magic_result) 15;
          res_plausibility := get (mr_plausibility magic_result) (1 # 10)%Q;
          res_roll := get (mr_roll magic_result) 0;
          res_total := get (mr_total magic_result) 0;
          res_intent := intent;
          res_impact := mr_impact magic_result;
          res_equipped_item := None;
          res_magic_data := mr_magic_data magic_result;
          res_spell_discovered := mr_spell_discovered magic_result;
          res_known_spell_cast :=
            get (mr_known_spell_cast magic_result) false;
          res_gift_discovered := false; res_gift_bonus := 0 |},
     player1, room1).

Definition search_keywords : list string :=
  ["untersuche"; "durchsuche"; "suche"; "inspect"; "search"].

(** Step 4c: is the target an object of the room description or the
    palette object (lines 1240-1257)? *)
Definition is_from_description (t : string) (room : Room) : bool :=
  (match room_description room with
   | Some desc =>
       truthy desc
       && existsb (fun word => str_in word (lower desc))
                  (ActionValidator.target_words t)
   | None => false
   end)
  || ActionValidator.assigned_match t (room_assigned_object room).

(** [game.theme]: [None] has no such attribute. *)
Definition theme_missing (game : GameArg) : bool :=
  match game with NoGame => true | TheGame => false end.

(** Steps 3 and 4 for every other action type (lines 1180-1312).  The
    two calls of the item generator take [game.theme] as an argument,
    which raises when [game] is [None].  The plausibility is a finite
    number: [int] of a NaN or an infinity, which raises in the source,
    has no counterpart in [Q]. *)
Definition resolve_check (action : string) (intent : Intent)
           (player : Player) (room : Room) (game : GameArg) (orc : Oracle)
  : Rand.M (Outcome Result * Player * Room) :=
  match action_type intent, method intent with
  | Some act_type, Some method_ =>
      match map_action_to_attribute act_type method_ with
      | None => Rand.ret (Raised "TypeError", player, room)
      | Some attr_name =>
          match getattr_attribute (attributes player) attr_name,
                plausibility intent with
          | Some attr_value, Some plaus =>
              let difficulty0 := difficulty_of plaus in
              let is_searching := any_in search_keywords (lower action) in
              let difficulty :=
                if is_searching then Z.max difficulty0 12 else difficulty0 in
              let gift_bonus := get_gift_bonus player attr_name in
              chk <- DiceRoller.attribute_check attr_value difficulty
                                                false false gift_bonus ;;
              let '(success, roll, total) := chk in
              let gift_discovered :=
                (gift_bonus >? 0)
                && match gift player with Some _ => true | None => false end in
              impact0 <- determine_rewards success total difficulty plaus
                                           (Some act_type) (Some action) ;;
              let crafting := success && _is_crafting_action action method_ in
              if crafting && theme_missing game then
                Rand.ret (Raised "AttributeError", player, room)
              else
                let impact1 :=
                  if crafting then
                    match crafted_item orc with
                    | Some it => mkImpact (imp_hp impact0) (imp_gold impact0)
                                          (imp_xp impact0) (Some it)
                    | None => impact0
                    end
                  else impact0 in
                let taking :=
                  success && String.eqb act_type "interact_object"
                  && any_in ActionValidator.taking_keywords (lower method_)
                  && match target intent with
                     | Some t =>
                         truthy t
                         && is_from_description t room
                         && negb (ActionValidator.name_match t (room_loot room))
                         && match imp_item impact1 with
                            | None => true | Some _ => false end
                     | None => false
                     end in
                if taking && theme_missing game then
                  Rand.ret (Raised "AttributeError", player, room)
                else
                  let impact2 :=
                    if taking then
                      match taken_item orc with
                      | Some it => mkImpact (imp_hp impact1)
                                            (imp_gold impact1)
                                            (imp_xp impact1) (Some it)
                      | None => impact1
                      end
                    else impact1 in
                  Rand.ret
                    (Returned
                       {| res_success := success; res_rejected := false;
                          res_rejection_reason := "";
                          res_attribute := Some attr_name;
                          res_attribute_value := attr_value;
                          res_difficulty := difficulty;
                          res_plausibility := plaus;
                          res_roll := roll; res_total := total;
                          res_intent := intent; res_impact := impact2;
                          res_equipped_item := None; res_magic_data := None;
                          res_spell_discovered := false;
                          res_known_spell_cast := false;
                          res_gift_discovered := gift_discovered;
                          res_gift_bonus := gift_bonus |}, player, room)
          | _, _ => Rand.ret (Raised "KeyError", player, room)
          end
      end
  | _, _ => Rand.ret (Raised "KeyError", player, room)
  end.

(** [resolve_free_action(action, player, room, game, ai_service)]. *)
Definition resolve_free_action (action : string) (player : Player)
           (room : Room) (game : GameArg) (orc : Oracle)
  : Rand.M (Outcome Result * Player * Room) :=
  let intent := obtain_intent action orc in
  match ActionValidator.validate intent player room with
  | Denied reason =>
      Rand.ret (Returned (rejected_result intent reason), player, room)
  | Allowed =>
      if option_string_eqb (action_type intent) (Some "equip") then
        let (out, player1) := resolve_equip intent player in
        Rand.ret (out, player1, room)
      else if option_string_eqb (action_type intent) (Some "attempt_magic")
      then resolve_magic action intent player room orc
      else resolve_check action intent player room game orc
  end.

End Resolver.

End ActionResolver.

(** ** The narration gateway's answer *)

(** A JSON value as [json.loads] delivers it (numbers as integers). *)
#[warnings="-register-all"] Inductive Json :=
| JNull
| JBool (b : bool)
| JNum (n : Z)
| JStr (s : string)
| JArr (elements : list Json)
| JObj (entries : list (string * Json)).

(** What [narrate_action_result] returns.  [discovered_gold] went through
    [int(...)]; [discovered_items] is passed on as parsed; the object
    names are those of a well-formed answer. *)
Record NarrationResult := mkNarration {
  nr_narrative : string;
  nr_discovered_gold : Z;
  nr_discovered_items : Json;
  nr_discovered_objects : list string
}.

(** ** The orchestrator ([execute_free_action]) *)

(** The [Game] instance: the fields the orchestrator touches, with the
    current room in place of the dungeon lookup. *)
Record Game := mkGame {
  g_player : Player;
  g_room : Room;
  last_failed_action : string;
  fail_count : Z
}.

(** Collaborators the orchestrator hands control to: the narration
    gateway's answer, the treasure tables ([get_treasure_loot] and the
    tier rules), the door handler and the combat routine. *)
Record Collaborators := mkCollaborators {
  narration : NarrationResult;
  roll_treasure : Rand.M (Z * list Item);
  handle_door_action : Game -> string -> bool * Game;
  combat_attack : Game -> Rand.M Game
}.

Module Orchestrator.

Import PyStr.

Section Orchestration.

Context {L : Lowering}.

Definition with_player (g : Game) (p : Player) : Game :=
  mkGame p (g_room g) (last_failed_action g) (fail_count g).

Definition with_room (g : Game) (r : Room) : Game :=
  mkGame (g_player g) r (last_failed_action g) (fail_count g).

Definition with_fail_state (g : Game) (last : string) (count : Z) : Game :=
  mkGame (g_player g) (g_room g) last count.

(** Lines 1724-1747: the repeated-failure tracker. *)
Definition track_failures (game : Game) (action : string) (result : Result)
  : Game :=
  if res_success result then with_fail_state game "" 0
  else
    let action_normalized := strip (lower action) in
    let game1 :=
      if String.eqb action_normalized (last_failed_action game)
      then with_fail_state game (last_failed_action game) (fail_count game + 1)
      else with_fail_state game action_normalized 1 in
    if fail_count game1 >=? 3 then
      match target (res_intent result) with
      | Some t =>
          if truthy t then
            let room1 :=
              set_destroyed_objects
                (g_room game1)
                (room_destroyed_objects (g_room game1) ++ [t]) in
            with_fail_state (with_room game1 room1) "" 0
          else game1
      | None => game1
      end
    else game1.

(** Lines 1749-1796: the pre-narration looting of a treasure room.  The
    gate is the code's; the roll itself is the collaborator's. *)
Definition is_looting (action : string) : bool :=
  let action_lower := lower action in
  any_in ["truhe"; "kiste"; "schatzkiste"; "chest"; "treasure"] action_lower
  && any_in ["öffne"; "nimm"; "plündere"; "durchsuche"; "inhalt";
             "open"; "loot"; "search"] action_lower.

Definition is_treasure_room (r : Room) : bool :=
  match room_type r with TREASURE => true | _ => false end.

Definition loot_treasure (game : Game) (action : string) (result : Result)
           (col : Collaborators) : Rand.M (option (Z * list Item) * Game) :=
  if res_success result
     && option_string_eqb (action_type (res_intent result))
                          (Some "interact_object")
     && is_treasure_room (g_room game)
     && negb (room_looted (g_room game))
     && is_looting action
  then
    t <- roll_treasure col ;;
    Rand.ret (Some t, with_room game (set_looted (g_room game) true))
  else Rand.ret (None, game).

(** Iterating a JSON string yields its characters. *)
Fixpoint split_points (s : string) : string * list string :=
  match s with
  | EmptyString => (EmptyString, [])
  | String c rest =>
      let (pending, points) := split_points rest in
      if is_continuation c then (String c pending, points)
      else (EmptyString, String c pending :: points)
  end.

Definition code_points (s : string) : list string := snd (split_points s).

Definition json_truthy (j : Json) : bool :=
  match j with
  | JNull => false
  | JBool b => b
  | JNum n => negb (n =? 0)
  | JStr s => truthy s
  | JArr l => match l with [] => false | _ => true end
  | JObj kv => match kv with [] => false | _ => true end
  end.

(** [for x in j]: [None] when the value cannot be iterated. *)
Definition json_iterate (j : Json) : option (list Json) :=
  match j with
  | JArr l => Some l
  | JStr s => Some (map JStr (code_points s))
  | JObj kv => Some (map (fun e => JStr (fst e)) kv)
  | JNull | JBool _ | JNum _ => None
  end.

Definition currency_keywords : list string :=
  ["münze"; "coin"; "gold"; "silber"; "kupfer"; "geld"; "money"].

Fixpoint replace_spaces (s : string) : string :=
  match s with
  | EmptyString => EmptyString
  | String c rest =>
      String (if is_char 32 c then ascii_of_N 95 else c) (replace_spaces rest)
  end.

Definition discovered_item (room : Room) (name : string) : Item :=
  {| item_id := "discovered_"
                ++ NilZero.string_of_uint (Nat.to_uint (List.length (room_loot room)))
                ++ "_" ++ replace_spaces (lower name);
     item_name := name;
     item_description := "Du hast " ++ name ++ " entdeckt.";
     item_type := MATERIAL;
     item_is_curse := false;
     item_key_id := None |}.

Definition add_gold (game : Game) (amount : Z) : Game :=
  with_player game (set_gold (g_player game) (gold (g_player game) + amount)).

(** Lines 1840-1862: each discovered item becomes gold (currency) or
    room loot; [item_name.lower()] raises on anything but a string. *)
Fixpoint discover_items (elements : list Json) (game : Game)
  : Rand.M (Outcome unit * Game) :=
  match elements with
  | [] => Rand.ret (Returned tt, game)
  | JStr name :: rest =>
      if any_in currency_keywords (lower name) then
        gold_amount <- Rand.randint 5 20 ;;
        discover_items rest (add_gold game gold_amount)
      else
        discover_items
          rest
          (with_room game
             (set_loot (g_room game)
                       (room_loot (g_room game)
                        ++ [discovered_item (g_room game) name])))
  | _ :: _ => Rand.ret (Raised "AttributeError", game)
  end.

(** Lines 1864-1871. *)
Definition discover_objects (names : list string) (game : Game) : Game :=
  fold_left
    (fun g obj_name =>
       if mem obj_name (room_discovered_objects (g_room g)) then g
       else with_room g (set_discovered_objects
                           (g_room g)
                           (room_discovered_objects (g_room g) ++ [obj_name])))
    names game.

(** Lines 1864-1871 run only when the item loop did not raise. *)
Definition finish_discoveries (nr : NarrationResult)
           (r : Outcome unit * Game) : Outcome unit * Game :=
  match r with
  | (Returned _, game2) =>
      (Returned tt, discover_objects (nr_discovered_objects nr) game2)
  | (Raised e, game2) => (Raised e, game2)
  end.

(** Lines 1826-1871: what the orchestrator does with the narration. *)
Definition process_discoveries (nr : NarrationResult) (game : Game)
  : Rand.M (Outcome unit * Game) :=
  let game1 :=
    if nr_discovered_gold nr >? 0 then add_gold game (nr_discovered_gold nr)
    else game in
  r <- (if json_truthy (nr_discovered_items nr) then
          match json_iterate (nr_discovered_items nr) with
          | Some elements => discover_items elements game1
          | None => Rand.ret (Raised "TypeError", game1)
          end
        else Rand.ret (Returned tt, game1)) ;;
  Rand.ret (finish_discoveries nr r).

(** [combat.check_level_up]. *)
Definition check_level_up (p : Player) : Player :=
  let xp_needed := 100 * (level p) ^ 2 in
  if xp p >=? xp_needed then
    {| attributes := attributes p;
       hp := max_hp p + 10; max_hp := max_hp p + 10;
       attack := attack p + 2; defense := defense p + 1;
       gold := gold p; xp := xp p - xp_needed; level := level p + 1;
       buffs := buffs p; inventory := inventory p;
       equipment := equipment p; grimoire := grimoire p; gift := gift p;
       morality := morality p |}
  else p.

(** Lines 1881-1907: the impact is written to the player. *)
Definition apply_impact (impact : Impact) (p : Player) : Player :=
  let p1 :=
    if imp_hp impact =? 0 then p
    else set_hp p (Z.max 0 (Z.min (max_hp p) (hp p + imp_hp impact))) in
  let p2 :=
    if imp_gold impact >? 0 then set_gold p1 (gold p1 + imp_gold impact)
    else p1 in
  let p3 :=
    if imp_xp impact >? 0
    then check_level_up (set_xp p2 (xp p2 + imp_xp impact))
    else p2 in
  match imp_item impact with
  | Some crafted => set_inventory p3 (inventory p3 ++ [crafted])
  | None => p3
  end.

(** Lines 1913-1919: one pass of the inner loop, for one component. *)
Definition consume_component (component_name : string) (inv : list Item)
  : list Item :=
  match find (fun item => str_in (lower component_name)
                                 (lower (item_name item))) inv with
  | Some item => list_remove item inv
  | None => inv
  end.

Definition consume_components (components : list string) (p : Player)
  : Player :=
  set_inventory p
    (fold_left (fun inv c => consume_component c inv) components (inventory p)).

Definition talk_keywords : list string :=
  ["sprich"; "spreche"; "rede"; "frag"; "frage"; "talk"; "speak"; "ask"; "sag"].

Definition is_npc_conversation (game : Game) (action : string) : bool :=
  match room_npc (g_room game) with
  | Some npc => npc_alive npc && any_in talk_keywords (lower action)
  | None => false
  end.

(** Lines 1881-1919: impact, then the components of a success. *)
Definition settled_player (result : Result) (p : Player) : Player :=
  let p1 := apply_impact (res_impact result) p in
  if res_success result
  then consume_components (get (components_used (res_intent result)) []) p1
  else p1.

(** The impact is only reached when the narration block did not raise. *)
Definition apply_result (result : Result) (n : Outcome unit * Game)
  : Outcome unit * Game :=
  match n with
  | (Raised e, game3) => (Raised e, game3)
  | (Returned _, game3) =>
      (Returned tt,
       with_player game3 (settled_player result (g_player game3)))
  end.

(** Lines 1712-1919 for a result that was neither rejected nor an equip
    nor handed to combat: failure tracking, treasure roll, narration and
    its discoveries, impact, component consumption.  The rest of the
    function (announcements, hidden key, doors, treasure hand-over, NPC
    dialogue, death) lies outside the model. *)
Definition settle_result (game : Game) (action : string) (result : Result)
           (orc : Oracle) (col : Collaborators)
  : Rand.M (Outcome unit * Game) :=
  match res_attribute result with
  | None => Rand.ret (Raised "AttributeError", game)
  | Some _ =>
      let game1 := track_failures game action result in
      t <- loot_treasure game1 action result col ;;
      let game2 := snd t in
      n <- (if negb (is_npc_conversation game2 action) && ai_available orc
            then process_discoveries (narration col) game2
            else Rand.ret (Returned tt, game2)) ;;
      Rand.ret (apply_result result n)
  end.

Definition door_keywords : list string :=
  ["tür"; "door"; "unlock"; "aufschließ"; "öffne"; "open"].

Definition chest_keywords : list string :=
  ["truhe"; "kiste"; "schatzkiste"; "chest"].

(** Lines 1692-1710: does the attack go straight to combat?  [None] is
    the exception a null target raises at [.lower()]. *)
Definition is_backstab (game : Game) (intent : Intent) : option bool :=
  if option_string_eqb (action_type intent) (Some "physical_attack") then
    match ActionResolver.living_monster (g_room game) with
    | Some m =>
        match target intent with
        | Some t =>
            Some (truthy (lower t)
                  && str_in (lower t) (lower (monster_name m))
                  && monster_unaware m)
        | None => None
        end
    | None => Some false
    end
  else Some false.

(** What the orchestrator does with the resolver's result
    (lines 1639-1919). *)
Definition handle_result (game : Game) (action : string) (result : Result)
           (orc : Oracle) (col : Collaborators)
  : Rand.M (Outcome unit * Game) :=
  if res_rejected result then Rand.ret (Returned tt, game)
  else if option_string_eqb (action_type (res_intent result)) (Some "equip")
  then Rand.ret (Returned tt, game)
  else
    match is_backstab game (res_intent result) with
    | None => Rand.ret (Raised "AttributeError", game)
    | Some true =>
        g <- combat_attack col game ;; Rand.ret (Returned tt, g)
    | Some false => settle_result game action result orc col
    end.

(** [execute_free_action(game, action)]. *)
Definition execute_free_action (game : Game) (action : string)
           (orc : Oracle) (col : Collaborators)
  : Rand.M (Outcome unit * Game) :=
  let action_lower := lower action in
  let (handled, game0) :=
    if any_in door_keywords action_lower
       && negb (any_in chest_keywords action_lower)
    then handle_door_action col game action_lower
    else (false, game) in
  if handled then Rand.ret (Returned tt, game0)
  else
    r <- ActionResolver.resolve_free_action
           action (g_player game0) (g_room game0) TheGame orc ;;
    let '(out, player1, room1) := r in
    let game1 := with_room (with_player game0 player1) room1 in
    match out with
    | Raised _ => Rand.ret (Returned tt, game1)
    | Returned result => handle_result game1 action result orc col
    end.

(** ** Views of the game state used in the statements below *)

(** The repeated-failure tracker of a game: last failed action, counter
    and the room's destroyed objects. *)
Definition tracker (g : Game) : string * Z * list string :=
  (last_failed_action g, fail_count g, room_destroyed_objects (g_room g)).

(** [p'] is [p] with [delta] more gold. *)
Definition richer_by (delta : Z) (p p' : Player) : Prop :=
  p' = set_gold p (gold p + delta).

(** The item an impact adds to the inventory, as a list. *)
Definition gained (impact : Impact) : list Item :=
  match imp_item impact with Some it => [it] | None => [] end.

End Orchestration.

End Orchestrator.


(** ** Component consumption as the specification words it *)

Module ComponentSpec.

Import PyStr.

Section Components.

Context {L : Lowering}.

(** Following the specification's words, not the code: "the first item
    whose name contains that entry case-insensitively" is removed, and
    nothing else. *)
Fixpoint remove_first_containing (entry : string) (inv : list Item)
  : list Item :=
  match inv with
  | [] => []
  | it :: rest =>
      if str_in (lower entry) (lower (item_name it)) then rest
      else it :: remove_first_containing entry rest
  end.

Definition remove_each (entries : list string) (inv : list Item) : list Item :=
  fold_left (fun l entry => remove_first_containing entry l) entries inv.

End Components.

End ComponentSpec.

(** ** Concrete game states used in the examples *)

Module Samples.

Definition material (id name : string) : Item :=
  mkItem id name "" MATERIAL false None.

Definition rubinstaub : Item := material "mat_rubinstaub" "Rubinstaub".

Definition amulett : Item := material "amulett_1" "Amulett".

Definition flame_burst : Spell :=
  {| spell_name := "Flame Burst"; spell_effect_type := "fire";
     spell_magnitude := "moderate"; spell_components := ["Rubinstaub"];
     spell_gesture := "thrust upward"; spell_words := "ignis maxima";
     spell_plausibility := (7 # 10)%Q;
     spell_discovery_context := "MONSTER - 1"; spell_uses := 0 |}.

Definition hero (inv : list Item) (spellbook : list Spell) : Player :=
  {| attributes := mkAttributes 15 12 14 10;
     hp := 20; max_hp := 20; attack := 5; defense := 3;
     gold := 10; xp := 0; level := 1; buffs := [];
     inventory := inv;
     equipment := [("weapon", None); ("armor", None);
                   ("ring", None); ("head", None)];
     grimoire := mkGrimoire spellbook 0 0;
     gift := None; morality := 0 |}.

Definition goblin : Monster := mkMonster "Goblin" 20 20 3 1 false false.

Definition chamber (desc : option string) (monster : option Monster)
           (destroyed : list string) : Room :=
  {| room_type := MONSTER; room_description := desc;
     room_monster := monster; room_npc := None; room_loot := [];
     room_looted := false; room_hidden_key := None;
     room_destroyed_objects := destroyed;
     room_discovered_objects := [];
     room_assigned_object := None |}.

Definition intent_of (ty : string) (t : option string) (m : string) (p : Q)
           (components : list string) : Intent :=
  {| action_type := Some ty; target := t; method := Some m;
     plausibility := Some p; valid := Some true;
     reason_if_invalid := None; components_used := Some components |}.

Definition oracle (available : bool) (reply : BackendReply) : Oracle :=
  mkOracle available reply None None None.

Definition silent : NarrationResult := mkNarration "" 0 (JArr []) [].

Definition offline : Oracle := oracle false ReplyEmpty.

Definition collaborators (nr : NarrationResult) : Collaborators :=
  {| narration := nr;
     roll_treasure := Rand.ret (0, []);
     handle_door_action := fun g _ => (false, g);
     combat_attack := fun g => Rand.ret g |}.


(** A successful check that earned 10 XP and used [components]. *)
Definition successful_check (components : list string) : Result :=
  {| res_success := true; res_rejected := false; res_rejection_reason := "";
     res_attribute := Some "strength"; res_attribute_value := 15;
     res_difficulty := 12; res_plausibility := (5 # 10)%Q;
     res_roll := 12; res_total := 14;
     res_intent := intent_of "environment_action" None "craft" (5 # 10)%Q
                             components;
     res_impact := mkImpact 0 0 10 None;
     res_equipped_item := None; res_magic_data := None;
     res_spell_discovered := false; res_known_spell_cast := false;
     res_gift_discovered := false; res_gift_bonus := 0 |}.

(** A narration whose discovered item is an object, not a name. *)
Definition object_item_narration : NarrationResult :=
  mkNarration "Du findest einen Schlüssel." 0
              (JArr [JObj [("name", JStr "Rostiger Schlüssel")]]) [].

(** The player and the room of the repository's validator test
    ([test_sprint1.py], [test_validator]). *)
Definition test_player : Player := hero [] [].

Definition test_room : Room :=
  chamber
    (Some "Ein dunkler, modriger Raum. Fackeln flackern an den Wänden.")
    (Some (mkMonster "Goblin" 10 10 3 1 false false)) [].

(** A room with a crate, no failure on record. *)
Definition crate_game : Game :=
  mkGame (hero [] []) (chamber (Some "Eine alte Kiste.") None []) "" 0.

End Samples.

(** ** Doors ([models/door.py]) *)

Module Doors.

Inductive DoorState := OPEN | CLOSED | LOCKED.

Inductive Direction := NORTH | SOUTH | EAST | WEST.

Record Door := mkDoor {
  door_direction : Direction;
  door_state : DoorState;
  door_key_id : option string
}.

Definition DoorState_value (s : DoorState) : string :=
  match s with OPEN => "open" | CLOSED => "closed" | LOCKED => "locked" end.

Definition Direction_value (d : Direction) : string :=
  match d with
  | NORTH => "north" | SOUTH => "south" | EAST => "east" | WEST => "west"
  end.

Definition is_locked (d : Door) : bool :=
  match door_state d with LOCKED => true | _ => false end.

(** [Door.is_passable]. *)
Definition is_passable (d : Door) : bool :=
  match door_state d with OPEN | CLOSED => true | LOCKED => false end.

Definition with_state (d : Door) (s : DoorState) : Door :=
  mkDoor (door_direction d) s (door_key_id d).

(** [Door.unlock(key_id)]: the answer and the door afterwards. *)
Definition unlock (d : Door) (key_id : option string) : bool * Door :=
  if negb (is_locked d) then (false, d)
  else
    match door_key_id d with
    | Some k =>
        if PyStr.truthy k && option_string_eqb key_id (Some k)
        then (true, with_state d CLOSED)
        else (false, d)
    | None => (false, d)
    end.

(** [Door.open()]. *)
Definition open (d : Door) : bool * Door :=
  if is_locked d then (false, d) else (true, with_state d OPEN).

(** The dictionary of [to_dict] / [from_dict]: a field is [None] when
    the key is absent ([key_id] also when it is null). *)
Record DoorDict := mkDoorDict {
  dd_direction : option string;
  dd_state : option string;
  dd_key_id : option string
}.

Definition to_dict (d : Door) : DoorDict :=
  {| dd_direction := Some (Direction_value (door_direction d));
     dd_state := Some (DoorState_value (door_state d));
     dd_key_id := door_key_id d |}.

(** [Direction(value)] and [DoorState(value)]: [None] is the ValueError
    of an unknown value. *)
Definition Direction_of (v : string) : option Direction :=
  if String.eqb v "north" then Some NORTH
  else if String.eqb v "south" then Some SOUTH
  else if String.eqb v "east" then Some EAST
  else if String.eqb v "west" then Some WEST
  else None.

Definition DoorState_of (v : string) : option DoorState :=
  if String.eqb v "open" then Some OPEN
  else if String.eqb v "closed" then Some CLOSED
  else if String.eqb v "locked" then Some LOCKED
  else None.

Definition from_dict (data : DoorDict) : Outcome Door :=
  match dd_direction data with
  | None => Raised "KeyError"
  | Some dv =>
      match Direction_of dv with
      | None => Raised "ValueError"
      | Some dir =>
          match dd_state data with
          | None => Raised "KeyError"
          | Some sv =>
              match DoorState_of sv with
              | None => Raised "ValueError"
              | Some st => Returned (mkDoor dir st (dd_key_id data))
              end
          end
      end
  end.

(** What a caller can do to a door. *)
Inductive DoorOp :=
| Unlock (key_id : option string)
| Open.

Definition apply_op (d : Door) (op : DoorOp) : Door :=
  match op with
  | Unlock k => snd (unlock d k)
  | Open => snd (open d)
  end.

End Doors.

(** ** The direct door handler ([_handle_door_action]) *)

Module DoorHandler.

Import PyStr Doors.

Section Handler.

Context {L : Lowering}.

(** A dictionary keyed by direction, in insertion order. *)
Definition Direction_eqb (a b : Direction) : bool :=
  match a, b with
  | NORTH, NORTH | SOUTH, SOUTH | EAST, EAST | WEST, WEST => true
  | _, _ => false
  end.

(** [d.get(dir)]. *)
Definition lookup {V : Type} (dir : Direction) (d : list (Direction * V))
  : option V :=
  option_map snd (find (fun e => Direction_eqb (fst e) dir) d).

(** The object stored under [dir] is mutated in place by [f]; the order
    of the dictionary is kept. *)
Fixpoint update {V : Type} (dir : Direction) (f : V -> V)
         (d : list (Direction * V)) : list (Direction * V) :=
  match d with
  | [] => []
  | e :: rest =>
      if Direction_eqb (fst e) dir then (fst e, f (snd e)) :: rest
      else e :: update dir f rest
  end.

(** [room.doors]. *)
Definition DoorMap := list (Direction * Door).

(** What the handler reads and changes: the inventory, the doors of the
    current room, and the doors of the rooms next to it ([get_room]
    returns no room beyond the edge of the level). *)
Record Scene := mkScene {
  sc_inventory : list Item;
  sc_doors : DoorMap;
  sc_neighbours : list (Direction * DoorMap)
}.

Definition direction_map : list (string * Direction) :=
  [("nord", NORTH); ("north", NORTH); ("süd", SOUTH); ("south", SOUTH);
   ("ost", EAST); ("east", EAST); ("west", WEST); ("westen", WEST)].

Definition named_direction (action_lower : string) : option Direction :=
  option_map snd (find (fun e => str_in (fst e) action_lower) direction_map).

Definition first_locked (doors : DoorMap) : option Direction :=
  option_map fst (find (fun e => is_locked (snd e)) doors).

Definition target_direction (action_lower : string) (doors : DoorMap)
  : option Direction :=
  match named_direction action_lower with
  | Some d => Some d
  | None => first_locked doors
  end.

Definition mirror (dir : Direction) : Direction :=
  match dir with
  | NORTH => SOUTH | SOUTH => NORTH | EAST => WEST | WEST => EAST
  end.

(** The two key searches of lines 1535-1549. *)
Definition matching_key (inv : list Item) (door : Door)
           (action_lower : string) : option Item :=
  match find (fun item => option_string_eqb (item_key_id item)
                                            (door_key_id door)) inv with
  | Some item => Some item
  | None =>
      find (fun item =>
              match item_key_id item with
              | Some k => truthy k
              | None => false
              end
              && str_in (lower (item_name item)) action_lower
              && option_string_eqb (item_key_id item) (door_key_id door))
           inv
  end.

Definition unlock_mirror (dir : Direction) (key_id : option string)
           (neighbours : list (Direction * DoorMap))
  : list (Direction * DoorMap) :=
  update dir (update (mirror dir) (fun d => snd (unlock d key_id)))
         neighbours.

(** [_handle_door_action(game, room, action_lower)]: the answer and the
    scene afterwards. *)
Definition handle_door_action (sc : Scene) (action_lower : string)
  : bool * Scene :=
  match target_direction action_lower (sc_doors sc) with
  | None => (false, sc)
  | Some dir =>
      match lookup dir (sc_doors sc) with
      | None => (false, sc)
      | Some door =>
          match door_state door with
          | LOCKED =>
              match matching_key (sc_inventory sc) door action_lower with
              | Some key =>
                  (true,
                   {| sc_inventory := list_remove key (sc_inventory sc);
                      sc_doors :=
                        update dir
                               (fun d => snd (unlock d (item_key_id key)))
                               (sc_doors sc);
                      sc_neighbours :=
                        unlock_mirror dir (item_key_id key)
                                      (sc_neighbours sc) |})
              | None => (true, sc)
              end
          | CLOSED =>
              (true,
               {| sc_inventory := sc_inventory sc;
                  sc_doors := update dir (fun d => snd (open d)) (sc_doors sc);
                  sc_neighbours := sc_neighbours sc |})
          | OPEN => (true, sc)
          end
      end
  end.

End Handler.

End DoorHandler.

(** ** More of the resolver: target location and crafting materials *)

Module ResolverContext.

Import PyStr.

Section Context_.

Context {L : Lowering}.

(** [_determine_target_location(target, player, room)]. *)
Definition _determine_target_location (t : option string) (player : Player)
           (room : Room) : string :=
  match t with
  | None => "environment"
  | Some t =>
      if negb (truthy t) then "environment"
      else
        let target_lower := lower t in
        if existsb (fun item => str_in target_lower (lower (item_name item)))
                   (inventory player)
        then "inventory"
        else if existsb (fun se =>
                           match snd se with
                           | Some item =>
                               str_in target_lower (lower (item_name item))
                           | None => false
                           end) (equipment player)
        then "equipped"
        else if existsb (fun item =>
                           str_in target_lower (lower (item_name item)))
                        (room_loot room)
        then "room"
        else if match room_monster room with
                | Some m => str_in target_lower (lower (monster_name m))
                | None => false
                end
        then "room"
        else if match room_npc room with
                | Some npc =>
                    npc_alive npc
                    && (str_in target_lower (lower (npc_name npc))
                        || str_in target_lower (lower (npc_role npc)))
                | None => false
                end
        then "room"
        else "environment"
  end.

Definition material_keywords : list string :=
  ["holz"; "eisen"; "stahl"; "leder"; "fell"; "haut"; "metall"; "stein";
   "knochen"; "erz"; "splitter"; "schuppen"; "stoff"; "seil"; "kristall";
   "wood"; "iron"; "steel"; "leather"; "hide"; "metal"; "stone"; "bone";
   "ore"; "shard"; "scale"; "cloth"; "rope"; "crystal"].

(** The second loop of [_generate_crafted_item]: keywords of the room
    description that are not yet listed are appended. *)
Definition add_from_description (desc_lower : string)
           (materials : list string) : list string :=
  fold_left
    (fun acc keyword =>
       if str_in keyword desc_lower && negb (mem keyword acc)
       then (acc ++ [keyword])%list else acc)
    material_keywords materials.

(** The materials [_generate_crafted_item] hands to the generator
    (lines 853-874). *)
Definition crafting_materials (action : string) (room : Room) : list string :=
  let from_action :=
    filter (fun keyword => str_in keyword (lower action)) material_keywords in
  match room_description room with
  | Some desc =>
      if truthy desc then add_from_description (lower desc) from_action
      else from_action
  | None => from_action
  end.

End Context_.

End ResolverContext.

(** ** The hidden key of the orchestrator's tail (lines 1961-1973) *)

Module HiddenKey.

Import PyStr Orchestrator.

Section Key.

Context {L : Lowering}.

Definition set_hidden_key (r : Room) (k : option Item) : Room :=
  {| room_type := room_type r; room_description := room_description r;
     room_monster := room_monster r; room_npc := room_npc r;
     room_loot := room_loot r;
     room_looted := room_looted r; room_hidden_key := k;
     room_destroyed_objects := room_destroyed_objects r;
     room_discovered_objects := room_discovered_objects r;
     room_assigned_object := room_assigned_object r |}.

Definition key_search_keywords : list string :=
  ["untersuche"; "durchsuche"; "suche"; "inspect"; "search";
   "wand"; "wall"; "boden"; "floor"].

Definition find_hidden_key (game : Game) (action : string) (result : Result)
  : Game :=
  if res_success result
     && option_string_eqb (action_type (res_intent result))
                          (Some "interact_object")
     && any_in key_search_keywords (lower action)
  then
    match room_hidden_key (g_room game) with
    | Some key =>
        with_room
          (with_player game
             (set_inventory (g_player game)
                            (inventory (g_player game) ++ [key])%list))
          (set_hidden_key (g_room game) None)
    | None => game
    end
  else game.

End Key.

End HiddenKey.

(** ** Saving and loading spells ([Spell.to_dict], [Grimoire.to_dict]) *)

Module GrimoireStore.

(** The dictionary of a spell: a field is [None] when the key is absent. *)
Record SpellDict := mkSpellDict {
  sd_name : option string;
  sd_effect_type : option string;
  sd_magnitude : option string;
  sd_components : option (list string);
  sd_gesture : option string;
  sd_words : option string;
  sd_plausibility : option Q;
  sd_discovery_context : option string;
  sd_uses : option Z
}.

Definition spell_to_dict (s : Spell) : SpellDict :=
  {| sd_name := Some (spell_name s);
     sd_effect_type := Some (spell_effect_type s);
     sd_magnitude := Some (spell_magnitude s);
     sd_components := Some (spell_components s);
     sd_gesture := Some (spell_gesture s);
     sd_words := Some (spell_words s);
     sd_plausibility := Some (spell_plausibility s);
     sd_discovery_context := Some (spell_discovery_context s);
     sd_uses := Some (spell_uses s) |}.

(** [Spell.from_dict]: six keys are read with [data[...]] (KeyError
    when absent), three with [data.get] and a default. *)
Definition spell_from_dict (data : SpellDict) : Outcome Spell :=
  match sd_name data, sd_effect_type data, sd_magnitude data,
        sd_components data, sd_gesture data, sd_words data with
  | Some n, Some e, Some m, Some c, Some g, Some w =>
      Returned
        {| spell_name := n; spell_effect_type := e; spell_magnitude := m;
           spell_components := c; spell_gesture := g; spell_words := w;
           spell_plausibility := get (sd_plausibility data) (5 # 10)%Q;
           spell_discovery_context := get (sd_discovery_context data) "";
           spell_uses := get (sd_uses data) 0 |}
  | _, _, _, _, _, _ => Raised "KeyError"
  end.

Record GrimoireDict := mkGrimoireDict {
  gd_spells : option (list SpellDict);
  gd_total_discoveries : option Z;
  gd_current_run_discoveries : option Z
}.

Definition grimoire_to_dict (g : Grimoire) : GrimoireDict :=
  {| gd_spells := Some (map spell_to_dict (spells g));
     gd_total_discoveries := Some (total_discoveries g);
     gd_current_run_discoveries := Some (current_run_discoveries g) |}.

(** The list comprehension of [Grimoire.from_dict] stops at the first
    spell that raises. *)
Fixpoint spells_from_dicts (l : list SpellDict) : Outcome (list Spell) :=
  match l with
  | [] => Returned []
  | d :: rest =>
      match spell_from_dict d with
      | Raised e => Raised e
      | Returned s =>
          match spells_from_dicts rest with
          | Raised e => Raised e
          | Returned ss => Returned (s :: ss)
          end
      end
  end.

Definition grimoire_from_dict (data : GrimoireDict) : Outcome Grimoire :=
  match spells_from_dicts (get (gd_spells data) []) with
  | Raised e => Raised e
  | Returned ss =>
      Returned {| spells := ss;
                  total_discoveries := get (gd_total_discoveries data) 0;
                  current_run_discoveries :=
                    get (gd_current_run_discoveries data) 0 |}
  end.

(** [Grimoire.reset_current_run]. *)
Definition reset_current_run (g : Grimoire) : Grimoire :=
  {| spells := spells g; total_discoveries := total_discoveries g;
     current_run_discoveries := 0 |}.

End GrimoireStore.

(** ** Views used in the statements of the second part *)

Module Views.

Import PyStr GrimoireOps ActionResolver.

Section Statements.

Context {L : Lowering}.

(** The forbidden abilities for which [has_ability] lists no item. *)
Definition unobtainable : list string :=
  ["time_travel"; "summon"; "resurrect"; "omniscience"; "invincibility"].

(** The test [add_spell] applies to every spell already in the book. *)
Definition clash (existing s : Spell) : bool :=
  String.eqb (spell_name existing) (spell_name s)
  || (same_set (spell_components existing) (spell_components s)
      && String.eqb (lower (spell_words existing)) (lower (spell_words s))).

(** No spell of the list clashes with a later one. *)
Fixpoint distinct (l : list Spell) : Prop :=
  match l with
  | [] => True
  | s :: rest =>
      distinct rest /\ Forall (fun later => clash s later = false) rest
  end.

(** The grimoire after trying to add the spells of [l] one by one. *)
Definition learn_all (g : Grimoire) (l : list Spell) : Grimoire :=
  fold_left (fun g s => snd (add_spell g s)) l g.

(** An optional value as a list of at most one element. *)
Definition as_list {A : Type} (o : option A) : list A :=
  match o with Some a => [a] | None => [] end.

(** Hit points within their bounds, experience not negative. *)
Definition sound_vitals (p : Player) : Prop :=
  0 <= hp p <= max_hp p /\ 0 <= xp p.

(** What settling an action may do to a player: gold, maximal hit points
    and level only grow, the level by at most one; attributes, equipment,
    grimoire, gift, morality and buffs stay. *)
Definition advanced (p p' : Player) : Prop :=
  gold p <= gold p' /\ max_hp p <= max_hp p'
  /\ level p <= level p' <= level p + 1
  /\ attributes p' = attributes p /\ equipment p' = equipment p
  /\ grimoire p' = grimoire p /\ gift p' = gift p
  /\ morality p' = morality p /\ buffs p' = buffs p.

(** What settling an action may do to the room: objects and loot are only
    appended (at most one destroyed object), a looted room stays looted,
    discovered objects stay free of duplicates, the rest stays as it is. *)
Definition room_grows (r r' : Room) : Prop :=
  room_type r' = room_type r
  /\ room_description r' = room_description r
  /\ room_monster r' = room_monster r
  /\ room_npc r' = room_npc r
  /\ room_hidden_key r' = room_hidden_key r
  /\ room_assigned_object r' = room_assigned_object r
  /\ (room_looted r = true -> room_looted r' = true)
  /\ (exists l, room_loot r' = (room_loot r ++ l)%list)
  /\ (exists d, room_destroyed_objects r'
                = (room_destroyed_objects r ++ d)%list
                /\ (List.length d <= 1)%nat)
  /\ (exists o, room_discovered_objects r'
                = (room_discovered_objects r ++ o)%list)
  /\ (NoDup (room_discovered_objects r) ->
      NoDup (room_discovered_objects r')).

(** No character of the text is a quote. *)
Definition quote_free (s : string) : bool :=
  forallb (fun c => negb (is_quote c)) (list_ascii_of_string s).

(** [w] stands in [s] between two quotes, is not empty and holds no
    quote. *)
Definition quoted_in (s w : string) : Prop :=
  w <> "" /\ quote_free w = true
  /\ exists pre q1 q2 post,
      s = pre ++ String q1 (w ++ String q2 post)
      /\ is_quote q1 = true /\ is_quote q2 = true.

(** What a spell effect may do: no gold, no item; of the player only hit
    points and buffs change, of the room only the monster, which keeps
    its name and never gains hit points. *)
Definition spell_frame (player : Player) (room : Room)
           (r : Impact * Player * Room) : Prop :=
  let '(impact, player', room') := r in
  imp_gold impact = 0 /\ imp_item impact = None
  /\ gold player' = gold player /\ inventory player' = inventory player
  /\ max_hp player' = max_hp player /\ xp player' = xp player
  /\ level player' = level player /\ equipment player' = equipment player
  /\ room' = set_monster room (room_monster room')
  /\ match room_monster room, room_monster room' with
     | Some m, Some m' =>
         monster_hp m' <= monster_hp m
         /\ monster_name m' = monster_name m
         /\ monster_max_hp m' = monster_max_hp m
     | None, None => True
     | _, _ => False
     end.

End Statements.

End Views.

(** ** More concrete game states *)

Module Scenes.

Import Doors DoorHandler.

(** Pushing a crate by force: a strength check. *)
Definition push_intent : Intent :=
  Samples.intent_of "environment_action" None "push" (5 # 10)%Q [].

(** What the resolver returns for it when the d20 shows 12. *)
Definition pushed : Result :=
  {| res_success := true; res_rejected := false; res_rejection_reason := "";
     res_attribute := Some "strength"; res_attribute_value := 15;
     res_difficulty := 12; res_plausibility := (5 # 10)%Q;
     res_roll := 12; res_total := 14;
     res_intent := push_intent;
     res_impact := mkImpact 0 0 21 None;
     res_equipped_item := None; res_magic_data := None;
     res_spell_discovered := false; res_known_spell_cast := false;
     res_gift_discovered := false; res_gift_bonus := 0 |}.

Definition dragon_attack : Intent :=
  Samples.intent_of "physical_attack" (Some "dragon") "hit" (8 # 10)%Q [].

(** An interpreter answer without the ['method'] key. *)
Definition no_method : Intent :=
  {| action_type := Some "environment_action"; target := None;
     method := None; plausibility := Some (5 # 10)%Q; valid := Some true;
     reason_if_invalid := None; components_used := Some [] |}.

Definition rusty_key : Item :=
  mkItem "key_rusty_key" "Rostiger Schlüssel" "" KEY false (Some "rusty_key").

Definition sword : Item := mkItem "sword_1" "Schwert" "" WEAPON false None.

Definition locked_north : Door := mkDoor NORTH LOCKED (Some "rusty_key").

(** A hall whose north door is locked, as is its mirror in the room
    behind it. *)
Definition hall : Scene :=
  {| sc_inventory := [sword; rusty_key];
     sc_doors := [(SOUTH, mkDoor SOUTH OPEN None); (NORTH, locked_north)];
     sc_neighbours :=
       [(NORTH, [(SOUTH, mkDoor SOUTH LOCKED (Some "rusty_key"))])] |}.

(** A locked door that was stored without a key id. *)
Definition keyless_door : Door := mkDoor EAST LOCKED None.

Definition vault : Scene :=
  {| sc_inventory := [sword];
     sc_doors := [(EAST, keyless_door)];
     sc_neighbours := [] |}.

End Scenes.

(** * Properties *)

(** ** Strings *)

Module PyStrFacts.

Import PyStr.

Lemma prefix_refl (s : string) : String.prefix s s = true.
Proof.
  induction s as [|c s IH]; simpl; [reflexivity|].
  destruct (ascii_dec c c) as [_|n]; [exact IH | now elim n].
Qed.

Lemma str_in_refl (s : string) : str_in s s = true.
Proof.
  destruct s as [|c s]; [reflexivity|].
  unfold str_in. now rewrite prefix_refl.
Qed.

Lemma lower_ascii_idem (c : ascii) : lower_ascii (lower_ascii c) = lower_ascii c.
Proof. destruct c as [[] [] [] [] [] [] [] []]; reflexivity. Qed.

Lemma lower_latin1_idem (c : ascii) :
  lower_latin1 (lower_latin1 c) = lower_latin1 c.
Proof. destruct c as [[] [] [] [] [] [] [] []]; reflexivity. Qed.

Lemma lower_ascii_not_lead (c : ascii) :
  is_lead_c3 c = false -> is_lead_c3 (lower_ascii c) = false.
Proof. destruct c as [[] [] [] [] [] [] [] []]; intro H; try reflexivity; exact H. Qed.

(** Induction two characters at a time, the way [lower_western]
    recurses. *)
Lemma string_pair_ind (P : string -> Prop) :
  P EmptyString ->
  (forall c, P (String c EmptyString)) ->
  (forall c d s, P s -> P (String d s) -> P (String c (String d s))) ->
  forall s, P s.
Proof.
  intros H0 H1 H2.
  assert (both : forall s, P s /\ forall c, P (String c s)).
  { induction s as [|d s [IHs IHc]]; split; auto. }
  intro s. apply both.
Qed.

Lemma lower_idem (s : string) : lower_western (lower_western s) = lower_western s.
Proof.
  induction s as [|c|c d s IH1 IH2] using string_pair_ind.
  - reflexivity.
  - simpl. destruct (is_lead_c3 c) eqn:E.
    + simpl. now rewrite E.
    + simpl. rewrite (lower_ascii_not_lead c E), lower_ascii_idem. reflexivity.
  - change (lower_western (String c (String d s)))
      with (if is_lead_c3 c
            then String c (String (lower_latin1 d) (lower_western s))
            else String (lower_ascii c) (lower_western (String d s))).
    destruct (is_lead_c3 c) eqn:E.
    + simpl. rewrite E, lower_latin1_idem, IH1. reflexivity.
    + remember (lower_western (String d s)) as t eqn:Et.
      destruct t as [|e t'].
      * simpl. rewrite (lower_ascii_not_lead c E), lower_ascii_idem.
        reflexivity.
      * assert (Hl : lower_western (String (lower_ascii c) (String e t'))
                     = String (lower_ascii (lower_ascii c))
                              (lower_western (String e t'))).
        { simpl. now rewrite (lower_ascii_not_lead c E). }
        rewrite Hl, lower_ascii_idem. f_equal. exact IH2.
Qed.

Example lower_german : lower_western "WÄNDE und Tür" = "wände und tür".
Proof. reflexivity. Qed.

Example split_on_hyphen :
  re_split sep_space_hyphen " Goblin-Sklave  x" = [""; "Goblin"; "Sklave"; "x"].
Proof. reflexivity. Qed.

Example len_counts_code_points : len "tür" = 3%nat.
Proof. reflexivity. Qed.

Example strip_both_ends : strip "  hit the wall " = "hit the wall".
Proof. reflexivity. Qed.

(** A no-break space (U+00A0) in front and an em space (U+2003) behind
    are stripped like ASCII blanks; a no-break space inside stays. *)
Example strip_unicode_space :
  strip (utf8 [194; 160]%N ++ "zur" ++ utf8 [194; 160]%N ++ "tür"
         ++ utf8 [226; 128; 131]%N)
  = "zur" ++ utf8 [194; 160]%N ++ "tür".
Proof. vm_compute. reflexivity. Qed.

Lemma lower_truthy (s : string) :
  truthy s = true -> truthy (lower_western s) = true.
Proof.
  destruct s as [|c s]; [discriminate|]. intros _. simpl.
  destruct (is_lead_c3 c); [destruct s|]; reflexivity.
Qed.

Lemma lower_nonempty (s : string) : s <> "" -> lower_western s <> "".
Proof.
  destruct s as [|c s]; [congruence|]. intros _. simpl.
  destruct (is_lead_c3 c); [destruct s|]; discriminate.
Qed.

End PyStrFacts.

(** ** The dice engine *)

Module DiceFacts.

Import DiceRoller.

(** C9.  [attribute_check] without advantage or disadvantage consumes one
    d20 roll [r] and returns roll [r], total [r + floor((a-10)/2) + b] and
    success exactly when the total reaches the difficulty; attribute 14
    against difficulty 10 with a roll of 10 gives total 12 and success,
    and attribute 9 contributes a modifier of -1. *)
Theorem attribute_check_plain :
  (forall a d b rng,
      let r := fst (d20 rng) in
      let total := r + (a - 10) / 2 + b in
      attribute_check a d false false b rng
      = ((total >=? d, r, total), snd (d20 rng))
      /\ ((total >=? d) = true <-> d <= total))
  /\ attribute_check 14 10 false false 0 [9] = ((true, 10, 12), [])
  /\ attribute_check 9 10 false false 0 [9] = ((false, 10, 9), []).
Proof.
  split; [|split; reflexivity].
  intros a d b rng. cbv zeta. split.
  - unfold attribute_check, Rand.bind, Rand.ret. simpl.
    destruct (d20 rng) as [r rng']. reflexivity.
  - rewrite Z.geb_le. reflexivity.
Qed.

End DiceFacts.

(** ** Rewards *)

Module RewardFacts.

Import ActionResolver.

Section Laws.

Context {L : PyStr.Lowering}.

Lemma py_int_floor (q : Q) : (0 <= q)%Q -> py_int q = Qfloor q.
Proof.
  destruct q as [n d]. unfold py_int, Qfloor, Qle. simpl. intro H.
  apply Z.quot_div_nonneg; lia.
Qed.

Lemma creativity_bonus_antitone (p1 p2 : Q) :
  (p1 <= p2)%Q -> (p2 <= 1)%Q ->
  py_int ((1 - p2) * 10)%Q <= py_int ((1 - p1) * 10)%Q.
Proof.
  intros H12 H2.
  rewrite !py_int_floor by lra.
  apply Qfloor_resp_le. lra.
Qed.

Lemma creativity_bonus_creative (p : Q) :
  (p < 6 # 10)%Q -> 4 <= py_int ((1 - p) * 10)%Q.
Proof.
  intro H. rewrite py_int_floor by lra.
  change 4 with (Qfloor (inject_Z 4)).
  apply Qfloor_resp_le. unfold inject_Z. lra.
Qed.

Lemma Qle_bool_false (a b : Q) : Qle_bool a b = false -> (b < a)%Q.
Proof.
  intro H. apply Qnot_le_lt. intro Hle.
  apply Qle_bool_iff in Hle. congruence.
Qed.

(** The XP of a success does not depend on the draws, the action type or
    the action text. *)
Lemma determine_rewards_xp (total d : Z) (p : Q) (ty txt : option string)
      (rng : Rand.Rng) :
  imp_xp (fst (determine_rewards true total d p ty txt rng))
  = success_xp (total - d) d p.
Proof.
  unfold determine_rewards.
  destruct ((total - d >=? 10) && _); [|reflexivity].
  destruct (match txt with Some _ => _ | None => _ end); [|reflexivity].
  unfold Rand.bind, Rand.ret, Rand.randint, Rand.random_unit.
  destruct rng as [|x [|y rng]]; reflexivity.
Qed.

Lemma success_xp_antitone (m d : Z) (p1 p2 : Q) :
  0 <= m -> 0 <= d -> (p1 <= p2)%Q ->
  success_xp m d p2 <= success_xp m d p1.
Proof.
  intros Hm Hd H12. unfold success_xp.
  destruct (Qle_bool (8 # 10) p2) eqn:E2a.
  - destruct (Qle_bool (8 # 10) p1); [lia|].
    destruct (Qle_bool (6 # 10) p1) eqn:E1b; [lia|].
    apply Qle_bool_false in E1b.
    pose proof (creativity_bonus_creative p1 E1b). lia.
  - apply Qle_bool_false in E2a.
    assert (E1a : Qle_bool (8 # 10) p1 = false).
    { destruct (Qle_bool (8 # 10) p1) eqn:E; [|reflexivity].
      apply Qle_bool_iff in E. lra. }
    rewrite E1a.
    destruct (Qle_bool (6 # 10) p2) eqn:E2b.
    + destruct (Qle_bool (6 # 10) p1) eqn:E1b; [lia|].
      apply Qle_bool_false in E1b.
      pose proof (creativity_bonus_creative p1 E1b).
      assert (d / 2 <= d) by (apply Z.div_le_upper_bound; lia).
      lia.
    + apply Qle_bool_false in E2b.
      assert (E1b : Qle_bool (6 # 10) p1 = false).
      { destruct (Qle_bool (6 # 10) p1) eqn:E; [|reflexivity].
        apply Qle_bool_iff in E. lra. }
      rewrite E1b.
      assert (py_int ((1 - p2) * 10)%Q <= py_int ((1 - p1) * 10)%Q)
        by (apply creativity_bonus_antitone; lra).
      lia.
Qed.

(** C7.  For two successful checks with the same roll total and the same
    difficulty (hence the same margin), the less plausible action earns
    at least as much XP as the more plausible one, across the 0.8 and 0.6
    thresholds. *)
Theorem xp_inverse_plausibility
        (total d : Z) (p1 p2 : Q) (ty1 ty2 txt1 txt2 : option string)
        (rng1 rng2 : Rand.Rng) :
  d <= total -> 0 <= d -> (p1 <= p2)%Q ->
  imp_xp (fst (determine_rewards true total d p2 ty2 txt2 rng2))
  <= imp_xp (fst (determine_rewards true total d p1 ty1 txt1 rng1)).
Proof.
  intros Hs Hd H12. rewrite !determine_rewards_xp.
  apply success_xp_antitone; lia || assumption.
Qed.

End Laws.

Section Examples.

Existing Instance PyStr.western.

Lemma xp_inverse_plausibility_witness :
  imp_xp (fst (determine_rewards true 15 12 (7 # 10)
                                 (Some "interact_object") (Some "push") [3]))
  <= imp_xp (fst (determine_rewards true 15 12 (3 # 10)
                                    (Some "social") None [])).
Proof.
  apply (xp_inverse_plausibility (L := PyStr.western) 15 12 (3 # 10) (7 # 10)).
  - lia.
  - lia.
  - unfold Qle; simpl; lia.
Defined.

End Examples.
End RewardFacts.

(** ** The validator *)

Module ValidatorFacts.

Import PyStr PyStrFacts ActionValidator.

Section Laws.

Context {L : PyStr.Lowering}.

Lemma mem_In (x : string) (l : list string) : mem x l = true <-> In x l.
Proof.
  unfold mem. rewrite existsb_exists. split.
  - intros [y [Hy E]]. apply String.eqb_eq in E. now subst.
  - intro H. exists x. split; [assumption | apply String.eqb_refl].
Qed.

Lemma mem_false (x : string) (l : list string) : mem x l = false <-> ~ In x l.
Proof.
  rewrite <- mem_In. destruct (mem x l); split; congruence.
Qed.

Lemma truthy_nonempty (s : string) : truthy s = true <-> s <> "".
Proof. destruct s; simpl; split; congruence. Qed.

Lemma fuzzy_match_spec (t : string) (names : list string) :
  fuzzy_match t names = true
  <-> exists o, In o names
                /\ (str_in (lower o) (lower t) = true
                    \/ str_in (lower t) (lower o) = true).
Proof.
  unfold fuzzy_match. rewrite existsb_exists.
  split; intros [o [Ho H]]; exists o; split; try assumption.
  - now apply orb_true_iff in H.
  - now apply orb_true_iff.
Qed.

Lemma check_valid_pass (intent : Intent) :
  valid intent <> Some false -> check_valid intent = None.
Proof.
  unfold check_valid. destruct (valid intent) as [[|]|]; simpl; congruence.
Qed.

Lemma check_plausibility_pass (intent : Intent) (p : Q) :
  plausibility intent = Some p -> (1 # 10 <= p)%Q ->
  check_plausibility intent = None.
Proof.
  intros E H. unfold check_plausibility, Qltb. rewrite E. simpl.
  apply Qle_bool_iff in H. now rewrite H.
Qed.

Lemma validate_from_target (intent : Intent) (player : Player) (room : Room) :
  check_valid intent = None -> check_plausibility intent = None ->
  validate intent player room
  = first_verdict [check_target intent player room;
                   check_physics intent player;
                   check_components intent player].
Proof. intros H1 H2. unfold validate. simpl. now rewrite H1, H2. Qed.

(** C3 (as amended).  In a room that has a description, a valid,
    plausible intent of type physical_attack, social or interact_object
    whose target is not a generic exploration word and matches a
    destroyed object is denied with OBJECT_DESTROYED, whatever the
    monster, loot, inventory, equipment, NPC, palette object and
    discovered objects are. *)
Theorem destroyed_target_denied
        (intent : Intent) (player : Player) (room : Room)
        (t ty desc d : string) (p : Q) :
  valid intent <> Some false ->
  plausibility intent = Some p -> (1 # 10 <= p)%Q ->
  target intent = Some t -> t <> "" ->
  action_type intent = Some ty -> In ty target_action_types ->
  ~ In (lower t) exploration_targets ->
  room_description room = Some desc -> desc <> "" ->
  In d (room_destroyed_objects room) ->
  (str_in (lower d) (lower t) = true \/ str_in (lower t) (lower d) = true) ->
  validate intent player room = Denied (destroyed_reason t).
Proof.
  intros Hv Hp Hp1 Ht Hne Hty Hin Hex Hd Hdne Hdes Hm.
  rewrite validate_from_target
    by (eauto using check_valid_pass, check_plausibility_pass).
  unfold check_target. rewrite Ht.
  apply truthy_nonempty in Hne. rewrite Hne, Hty. simpl get.
  apply mem_In in Hin. rewrite Hin. simpl andb.
  apply mem_false in Hex. rewrite Hex.
  unfold description_block. rewrite Hd.
  apply truthy_nonempty in Hdne. rewrite Hdne.
  assert (F : fuzzy_match t (room_destroyed_objects room) = true)
    by (apply fuzzy_match_spec; eauto).
  rewrite F. reflexivity.
Qed.

Lemma find_conj_none {A} (f g : A -> bool) (l : list A) :
  existsb f l = false -> find (fun x => f x && g x) l = None.
Proof.
  induction l as [|x l IH]; simpl; [reflexivity|].
  intro H. apply orb_false_iff in H. destruct H as [Hx Hl].
  rewrite Hx. simpl. auto.
Qed.

Lemma check_physics_pass (intent : Intent) (player : Player) :
  any_in FORBIDDEN_METHODS (lower (get (method intent) "")) = false ->
  check_physics intent player = None.
Proof.
  intro H. unfold check_physics.
  rewrite (find_conj_none
             (fun forbidden => str_in forbidden (lower (get (method intent) "")))
             (fun forbidden => negb (has_ability player forbidden))
             FORBIDDEN_METHODS H).
  reflexivity.
Qed.

Section NamedTargets.

(** Two laws of [str.lower]: lowercasing a lowercased text changes
    nothing, and it leaves a non-empty text non-empty. *)
Hypothesis lower_fixed : forall s, lower (lower s) = lower s.
Hypothesis lower_nonempty : forall s, s <> "" -> lower s <> "".

Lemma name_match_exact (N : string) (item : Item) (items : list Item) :
  In item items -> item_name item = N -> name_match (lower N) items = true.
Proof.
  intros Hin HN. unfold name_match. apply existsb_exists.
  exists item. split; [assumption|].
  rewrite HN, lower_fixed. apply str_in_refl.
Qed.

Lemma equipped_match_exact (N slot : string) (item : Item)
      (eq : list (string * option Item)) :
  In (slot, Some item) eq -> item_name item = N ->
  equipped_match (lower N) eq = true.
Proof.
  intros Hin HN. unfold equipped_match. apply existsb_exists.
  exists (slot, Some item). split; [assumption|]. simpl.
  rewrite HN, lower_fixed. apply str_in_refl.
Qed.

(** C5 (as amended), for every lowercasing with the two laws above.
    When the lowercased name of an item of the inventory, the equipment
    or the room loot is the target of a valid, plausible interact_object
    intent without forbidden method and without components, the
    validator allows it, with two exceptions that need a room
    description: a matching destroyed object (OBJECT_DESTROYED) and
    a taking attempt on a description-anchored, immovably named target
    that is not room loot (OBJECT_FIXED).  It never answers
    TARGET_NOT_PRESENT. *)
Theorem exact_name_target_found
        (intent : Intent) (player : Player) (room : Room)
        (item : Item) (N : string) (p : Q) :
  (In item (inventory player) \/ In item (room_loot room)
   \/ exists slot, In (slot, Some item) (equipment player)) ->
  item_name item = N -> N <> "" ->
  action_type intent = Some "interact_object" ->
  target intent = Some (lower N) ->
  valid intent = Some true ->
  plausibility intent = Some p -> (1 # 10 <= p)%Q ->
  any_in FORBIDDEN_METHODS (lower (get (method intent) "")) = false ->
  get (components_used intent) [] = [] ->
  let t := lower N in
  let v := validate intent player room in
  let taking := any_in taking_keywords (lower (get (method intent) "")) in
  (v = Allowed
   \/ (v = Denied (destroyed_reason t)
       /\ fuzzy_match t (room_destroyed_objects room) = true
       /\ exists desc, room_description room = Some desc /\ desc <> "")
   \/ (v = Denied (fixed_reason t)
       /\ taking = true
       /\ name_match t (room_loot room) = false
       /\ existsb (fun immov => str_in immov (lower t)) immovable_objects = true
       /\ exists desc, room_description room = Some desc
                       /\ anchor_match t desc = true))
  /\ (fuzzy_match t (room_destroyed_objects room) = false ->
      taking = false -> v = Allowed).
Proof.
  intros Hwhere HN Hne Hty Ht Hv Hp Hp1 Hphys Hcomp t v taking.
  assert (Ev : v = first_verdict [check_target intent player room]).
  { unfold v. rewrite validate_from_target.
    - simpl. rewrite (check_physics_pass _ _ Hphys).
      unfold check_components. rewrite Hcomp. simpl.
      destruct (check_target intent player room); reflexivity.
    - apply check_valid_pass. rewrite Hv. discriminate.
    - eapply check_plausibility_pass; eauto. }
  assert (Htr : truthy t = true).
  { apply truthy_nonempty. apply lower_nonempty. exact Hne. }
  assert (Hfound :
            name_match t (room_loot room)
            || name_match t (inventory player)
            || equipped_match t (equipment player) = true).
  { unfold t. destruct Hwhere as [H|[H|[slot H]]].
    - rewrite (name_match_exact N item _ H HN).
      rewrite orb_true_r. reflexivity.
    - now rewrite (name_match_exact N item _ H HN).
    - rewrite (equipped_match_exact N slot item _ H HN). apply orb_true_r. }
  assert (Ect : check_target intent player room
                = if mem (lower t) exploration_targets then None
                  else match description_block intent room t true with
                       | inl r => Some r
                       | inr true => None
                       | inr false => Some (Denied ("TARGET_NOT_PRESENT: " ++ t))
                       end).
  { unfold check_target. rewrite Ht. fold t. rewrite Htr, Hty. simpl get.
    change (mem "interact_object" target_action_types) with true. simpl andb.
    destruct (mem (lower t) exploration_targets); [reflexivity|].
    replace (_ || name_match t (room_loot room) || _ || _ || _ || _ || _)
      with true; [reflexivity|].
    symmetry.
    destruct (match room_monster room with
              | Some m => str_in (lower t) (lower (monster_name m))
              | None => false end); simpl; [reflexivity|].
    rewrite Hfound. reflexivity. }
  rewrite Ev, Ect. clear Ev Ect.
  destruct (mem (lower t) exploration_targets); [simpl; auto|].
  unfold description_block. fold taking.
  destruct (room_description room) as [desc|] eqn:Ed; [|simpl; auto].
  destruct (truthy desc) eqn:Etd; [|simpl; auto].
  destruct (fuzzy_match t (room_destroyed_objects room)) eqn:Ef.
  { simpl. split; [|discriminate].
    right; left. repeat split. exists desc. split; [reflexivity|].
    now apply truthy_nonempty. }
  destruct (anchor_match t desc) eqn:Ea; [|simpl; auto].
  destruct taking eqn:Etk; [|simpl; auto].
  destruct (name_match t (room_loot room)) eqn:El; [simpl; auto|].
  destruct (existsb (fun immov => str_in immov (lower t)) immovable_objects)
           eqn:Ei; [|simpl; auto].
  simpl. split; [|discriminate].
  right; right. repeat split. exists desc. auto.
Qed.

End NamedTargets.

Lemma check_components_spec (intent : Intent) (player : Player) :
  let comps := get (components_used intent) [] in
  let names := map item_name (inventory player) in
  ((exists c, In c comps /\ ~ In c names) ->
   exists c, In c comps /\ ~ In c names
             /\ check_components intent player
                = Some (Denied ("MISSING_COMPONENT: " ++ c)))
  /\ ((forall c, In c comps -> In c names) ->
      check_components intent player = None).
Proof.
  intros comps names. unfold check_components. fold comps names.
  destruct (find (fun component => negb (mem component names)) comps)
    as [c|] eqn:F.
  - apply find_some in F. destruct F as [Hin Hm].
    apply negb_true_iff, mem_false in Hm. split.
    + intros _. exists c. auto.
    + intro Hall. elim Hm. auto.
  - split; [|reflexivity].
    intros [c [Hin Hm]].
    pose proof (find_none _ _ F c Hin) as Hc. simpl in Hc.
    apply negb_false_iff, mem_In in Hc. contradiction.
Qed.

(** C6 (as amended).  Once the earlier checks pass, the validator denies
    with MISSING_COMPONENT: <name> exactly when some entry of
    components_used equals the name of no inventory item (list
    membership: exact and case-sensitive), and allows otherwise. *)
Theorem missing_component_exact
        (intent : Intent) (player : Player) (room : Room) :
  check_valid intent = None ->
  check_plausibility intent = None ->
  check_target intent player room = None ->
  check_physics intent player = None ->
  let comps := get (components_used intent) [] in
  let names := map item_name (inventory player) in
  ((exists c, In c comps /\ ~ In c names) ->
   exists c, In c comps /\ ~ In c names
             /\ validate intent player room
                = Denied ("MISSING_COMPONENT: " ++ c))
  /\ ((forall c, In c comps -> In c names) ->
      validate intent player room = Allowed).
Proof.
  intros H1 H2 H3 H4 comps names.
  unfold validate. simpl. rewrite H1, H2, H3, H4.
  destruct (check_components_spec intent player) as [Hmiss Hall].
  fold comps names in Hmiss, Hall. split.
  - intro Hex. destruct (Hmiss Hex) as [c [Hin [Hn E]]].
    exists c. rewrite E. auto.
  - intro Hevery. now rewrite (Hall Hevery).
Qed.

End Laws.

Section Examples.

Existing Instance PyStr.western.

Lemma destroyed_target_denied_witness :
  validate (Samples.intent_of "interact_object" (Some "Kiste") "open"
                              (5 # 10)%Q [])
           (Samples.hero [] [])
           (Samples.chamber (Some "Eine alte Kiste steht hier.")
                            (Some Samples.goblin) ["alte kiste"])
  = Denied (destroyed_reason "Kiste").
Proof.
  apply (destroyed_target_denied (L := PyStr.western) _ _ _ "Kiste" "interact_object"
           "Eine alte Kiste steht hier." "alte kiste" (5 # 10)%Q).
  - discriminate.
  - reflexivity.
  - unfold Qle; simpl; lia.
  - reflexivity.
  - discriminate.
  - reflexivity.
  - simpl; tauto.
  - intro H; apply mem_In in H; vm_compute in H; discriminate.
  - reflexivity.
  - discriminate.
  - simpl; tauto.
  - right; reflexivity.
Defined.

(** C3 as stated fails: a destroyed object whose name is a generic
    exploration word stays a valid target. *)
Lemma destroyed_exploration_word_allowed :
  ~ (forall (intent : Intent) (player : Player) (room : Room) (t ty : string),
        target intent = Some t ->
        action_type intent = Some ty -> In ty target_action_types ->
        fuzzy_match t (room_destroyed_objects room) = true ->
        exists reason,
          validate intent player room = Denied reason
          /\ String.prefix "OBJECT_DESTROYED" reason = true).
Proof.
  intro H.
  destruct (H (Samples.intent_of "interact_object" (Some "wand") "push"
                                 (5 # 10)%Q [])
              (Samples.hero [] [])
              (Samples.chamber (Some "Eine feuchte Wand aus Stein.") None
                               ["wand"])
              "wand" "interact_object" eq_refl eq_refl
              (or_intror (or_intror (or_introl eq_refl))) eq_refl)
    as [reason [E _]].
  vm_compute in E. discriminate.
Qed.

Lemma exact_name_target_found_witness :
  validate (Samples.intent_of "interact_object" (Some "amulett") "examine"
                              (5 # 10)%Q [])
           (Samples.hero [Samples.amulett] [])
           (Samples.chamber (Some "Ein dunkler Raum.") None ["kiste"])
  = Allowed.
Proof.
  apply (proj2 (exact_name_target_found
                  (L := western) lower_idem lower_nonempty
                  (Samples.intent_of "interact_object" (Some "amulett")
                                     "examine" (5 # 10)%Q [])
                  (Samples.hero [Samples.amulett] [])
                  (Samples.chamber (Some "Ein dunkler Raum.") None ["kiste"])
                  Samples.amulett "Amulett" (5 # 10)%Q
                  (or_introl (or_introl eq_refl)) eq_refl
                  ltac:(discriminate) eq_refl eq_refl eq_refl eq_refl
                  ltac:(unfold Qle; simpl; lia) eq_refl eq_refl)).
  - reflexivity.
  - reflexivity.
Defined.

(** C5 as stated fails: an item the player carries stops being a valid
    target once its name is among the destroyed objects. *)
Lemma carried_item_destroyed_denied :
  ~ (forall (intent : Intent) (player : Player) (room : Room)
            (item : Item) (N : string) (p : Q),
        (In item (inventory player) \/ In item (room_loot room)
         \/ exists slot, In (slot, Some item) (equipment player)) ->
        item_name item = N -> N <> "" ->
        action_type intent = Some "interact_object" ->
        target intent = Some (lower N) ->
        valid intent = Some true ->
        plausibility intent = Some p -> (1 # 10 <= p)%Q ->
        any_in FORBIDDEN_METHODS (lower (get (method intent) "")) = false ->
        get (components_used intent) [] = [] ->
        validate intent player room = Allowed).
Proof.
  intro H.
  specialize (H (Samples.intent_of "interact_object" (Some "amulett")
                                   "examine" (5 # 10)%Q [])
                (Samples.hero [Samples.amulett] [])
                (Samples.chamber (Some "Ein dunkler Raum.") None ["amulett"])
                Samples.amulett "Amulett" (5 # 10)%Q
                (or_introl (or_introl eq_refl)) eq_refl
                ltac:(discriminate) eq_refl eq_refl eq_refl eq_refl
                ltac:(unfold Qle; simpl; lia) eq_refl eq_refl).
  vm_compute in H. discriminate.
Qed.

Lemma missing_component_exact_witness :
  exists c,
    In c ["Rubinstaub"; "rubin"]
    /\ ~ In c (map item_name (inventory (Samples.hero [Samples.rubinstaub] [])))
    /\ validate (Samples.intent_of "environment_action" None "grind"
                                   (5 # 10)%Q ["Rubinstaub"; "rubin"])
                (Samples.hero [Samples.rubinstaub] [])
                (Samples.chamber None None [])
       = Denied ("MISSING_COMPONENT: " ++ c).
Proof.
  apply (proj1 (missing_component_exact (L := PyStr.western)
                  (Samples.intent_of "environment_action" None "grind"
                                     (5 # 10)%Q ["Rubinstaub"; "rubin"])
                  (Samples.hero [Samples.rubinstaub] [])
                  (Samples.chamber None None [])
                  eq_refl eq_refl eq_refl eq_refl)).
  exists "rubin". split.
  - simpl; tauto.
  - simpl. intros [E|[]]. discriminate E.
Defined.

(** C6 as stated fails: a component that is only a substring of an item
    name is reported missing. *)
Lemma substring_component_rejected :
  ~ (forall (intent : Intent) (player : Player) (room : Room),
        check_valid intent = None ->
        check_plausibility intent = None ->
        check_target intent player room = None ->
        check_physics intent player = None ->
        (forall c, In c (get (components_used intent) []) ->
                   exists it, In it (inventory player)
                              /\ str_in c (item_name it) = true) ->
        validate intent player room = Allowed).
Proof.
  intro H.
  specialize (H (Samples.intent_of "environment_action" None "grind"
                                   (5 # 10)%Q ["Rubin"])
                (Samples.hero [Samples.rubinstaub] [])
                (Samples.chamber None None [])
                eq_refl eq_refl eq_refl eq_refl).
  assert (Hsub : forall c, In c ["Rubin"] ->
                           exists it, In it [Samples.rubinstaub]
                                      /\ str_in c (item_name it) = true).
  { intros c [E|[]]. subst c. exists Samples.rubinstaub.
    split; [left; reflexivity | reflexivity]. }
  specialize (H Hsub). vm_compute in H. discriminate.
Qed.

(** The four cases of the repository's validator test. *)
Example test_valid_attack :
  validate (Samples.intent_of "physical_attack" (Some "goblin") "swing sword"
                              (9 # 10)%Q [])
           Samples.test_player Samples.test_room = Allowed.
Proof. reflexivity. Qed.

Example test_physics_violation :
  validate (Samples.intent_of "environment_action" None "fly to ceiling"
                              (8 # 10)%Q [])
           Samples.test_player Samples.test_room = Denied "PHYSICS_VIOLATION: fly".
Proof. reflexivity. Qed.

Example test_target_not_present :
  validate (Samples.intent_of "physical_attack" (Some "dragon") "attack"
                              (9 # 10)%Q [])
           Samples.test_player Samples.test_room = Denied "TARGET_NOT_PRESENT: dragon".
Proof. reflexivity. Qed.

Example test_too_implausible :
  validate (Samples.intent_of "attempt_magic" None "wave hands"
                              (5 # 100)%Q [])
           Samples.test_player Samples.test_room = Denied "IMPLAUSIBLE".
Proof. reflexivity. Qed.

(** An item the player carries is refused as fixed furniture when its
    name contains an immovable word that the description anchors. *)
Example carried_item_fixed :
  validate (Samples.intent_of "interact_object" (Some "tischbein") "nimm es"
                              (5 # 10)%Q [])
           (Samples.hero [Samples.material "leg_1" "Tischbein"] [])
           (Samples.chamber (Some "Ein Tisch steht hier.") None [])
  = Denied (fixed_reason "tischbein").
Proof. reflexivity. Qed.

End Examples.
End ValidatorFacts.

(** ** The interpreter gateway and the fallback intent *)

Module InterpreterFacts.

Import PyStr ActionValidator ActionResolver ValidatorFacts.

Section Laws.

Context {L : PyStr.Lowering}.

Lemma safe_default_allowed (action : string) (player : Player) (room : Room) :
  any_in FORBIDDEN_METHODS (lower action) = false ->
  validate (safe_default_intent action) player room = Allowed.
Proof.
  intro H. unfold validate. simpl.
  rewrite (check_physics_pass (safe_default_intent action) player H).
  reflexivity.
Qed.

Lemma interact_attribute (method_ : string) :
  exists name value_of,
    map_action_to_attribute "interact_object" method_ = Some name
    /\ forall a, getattr_attribute a name = Some (value_of a).
Proof.
  unfold map_action_to_attribute.
  destruct (any_in _ (lower method_));
    [exists "strength", strength; split; reflexivity|].
  destruct (any_in _ (lower method_));
    [exists "dexterity", dexterity; split; reflexivity|].
  destruct (any_in _ (lower method_));
    [exists "wisdom", wisdom; split; reflexivity|].
  destruct (any_in _ (lower method_));
    [exists "intelligence", intelligence; split; reflexivity|].
  exists "wisdom", wisdom; split; reflexivity.
Qed.

(** With the fallback intent the resolver reaches the dice check and
    returns a result that is not a rejection; only a call without a game
    can raise instead, at [game.theme], when a crafting-worded action
    succeeded. *)
Lemma safe_default_resolves (action : string) (player : Player) (room : Room)
      (game : GameArg) (orc : Oracle) (rng : Rand.Rng) :
  match fst (fst (fst (resolve_check action (safe_default_intent action)
                                     player room game orc rng))) with
  | Returned result =>
      res_rejected result = false
      /\ res_intent result = safe_default_intent action
  | Raised e =>
      game = NoGame /\ e = "AttributeError"
      /\ _is_crafting_action action action = true
  end.
Proof.
  unfold resolve_check.
  change (action_type (safe_default_intent action))
    with (Some "interact_object").
  change (method (safe_default_intent action)) with (Some action).
  change (plausibility (safe_default_intent action)) with (Some (5 # 10)%Q).
  change (target (safe_default_intent action)) with (@None string).
  cbv iota beta.
  destruct (interact_attribute action) as [name [value_of [Em Eg]]].
  rewrite Em, Eg. unfold Rand.bind.
  destruct (DiceRoller.attribute_check _ _ _ _ _ rng) as [[[s r] tot] rng1].
  destruct (determine_rewards _ _ _ _ _ _ rng1) as [imp rng2].
  cbv zeta. rewrite !andb_false_r. cbn [andb].
  destruct (s && _is_crafting_action action action) eqn:Ec.
  - destruct game; cbn [theme_missing andb]; unfold Rand.ret; cbn [fst].
    + apply andb_true_iff in Ec. destruct Ec as [_ Ec]. auto.
    + split; reflexivity.
  - cbn [andb]. unfold Rand.ret. cbn [fst]. split; reflexivity.
Qed.

(** C1 (as amended).  When the backend is unavailable the resolver works
    with the safe default intent, which the validator allows unless the
    action text itself names a forbidden ability, and the resolution
    returns a result that is not a rejection; called without a game (the
    default of the [game] argument, not the way the orchestrator calls
    it) it can only raise AttributeError instead, on a crafting-worded
    action.  When the backend is available but answers with nothing,
    with text that is not JSON, or with an object that lacks
    action_type, valid or plausibility, the interpreter returns an
    intent marked invalid (plausibility 0.0, a diagnostic reason) and
    the resolver rejects the action with that reason. *)
Theorem interpreter_failure_modes
        (action : string) (player : Player) (room : Room) (game : GameArg)
        (orc : Oracle) (rng : Rand.Rng) :
  (ai_available orc = false ->
   obtain_intent action orc = safe_default_intent action
   /\ (any_in FORBIDDEN_METHODS (lower action) = false ->
       validate (obtain_intent action orc) player room = Allowed
       /\ match fst (fst (fst (resolve_free_action action player room game
                                                   orc rng))) with
          | Returned result =>
              res_rejected result = false
              /\ res_intent result = safe_default_intent action
          | Raised e =>
              game = NoGame /\ e = "AttributeError"
              /\ _is_crafting_action action action = true
          end))
  /\ (ai_available orc = true ->
      forall reason,
        (interpreter_reply orc = ReplyEmpty
         /\ reason = "LLM returned empty response")
        \/ (interpreter_reply orc = ReplyInvalidJson
            /\ reason = "LLM returned invalid JSON")
        \/ (exists i field,
               interpreter_reply orc = ReplyObject i
               /\ AIService.missing_field i = Some field
               /\ reason = "LLM response missing '" ++ field ++ "'") ->
        obtain_intent action orc = AIService.invalid_intent reason
        /\ resolve_free_action action player room game orc rng
           = ((Returned (rejected_result (AIService.invalid_intent reason)
                                         reason), player, room), rng)).
Proof.
  split.
  - intro Hoff.
    assert (E : obtain_intent action orc = safe_default_intent action)
      by (unfold obtain_intent; now rewrite Hoff).
    split; [exact E|]. intro Hphys.
    pose proof (safe_default_allowed action player room Hphys) as Hal.
    rewrite E. split; [exact Hal|].
    unfold resolve_free_action. rewrite E, Hal. simpl option_string_eqb.
    cbv iota. apply safe_default_resolves.
  - intros Hon reason Hmode.
    assert (E : obtain_intent action orc = AIService.invalid_intent reason).
    { unfold obtain_intent, AIService.interpret_action. rewrite Hon. simpl.
      destruct Hmode as [[Hr ->]|[[Hr ->]|[i [field [Hr [Hm ->]]]]]];
        rewrite Hr; [reflexivity|reflexivity|].
      rewrite Hm. reflexivity. }
    split; [exact E|].
    unfold resolve_free_action. rewrite E. reflexivity.
Qed.

End Laws.

Section Examples.

Existing Instance PyStr.western.

Lemma interpreter_failure_modes_witness :
  obtain_intent "hit the wall" (Samples.oracle false ReplyEmpty)
  = safe_default_intent "hit the wall"
  /\ resolve_free_action "hit the wall" (Samples.hero [] [])
                         (Samples.chamber None None []) TheGame
                         (Samples.oracle true ReplyEmpty) [9]
     = ((Returned (rejected_result
                     (AIService.invalid_intent "LLM returned empty response")
                     "LLM returned empty response"),
         Samples.hero [] [], Samples.chamber None None []), [9]).
Proof.
  split.
  - exact (proj1 (proj1 (interpreter_failure_modes (L := PyStr.western)
                           "hit the wall" (Samples.hero [] [])
                           (Samples.chamber None None []) TheGame
                           (Samples.oracle false ReplyEmpty) [9])
                        eq_refl)).
  - exact (proj2 (proj2 (interpreter_failure_modes (L := PyStr.western)
                           "hit the wall" (Samples.hero [] [])
                           (Samples.chamber None None []) TheGame
                           (Samples.oracle true ReplyEmpty) [9])
                        eq_refl "LLM returned empty response"
                        (or_introl (conj eq_refl eq_refl)))).
Defined.

(** The fallback intent without a game: forging succeeds on a roll of 20
    and the resolver raises at [game.theme]; with the game it returns. *)
Example crafting_without_game_raises :
  fst (fst (fst (resolve_free_action "schmiede ein Schwert"
                                     (Samples.hero [] [])
                                     (Samples.chamber None None []) NoGame
                                     Samples.offline [19])))
  = Raised "AttributeError"
  /\ exists result,
      fst (fst (fst (resolve_free_action "schmiede ein Schwert"
                                         (Samples.hero [] [])
                                         (Samples.chamber None None [])
                                         TheGame Samples.offline [19])))
      = Returned result.
Proof. split; [vm_compute; reflexivity|eexists; vm_compute; reflexivity]. Qed.

(** C1 as stated fails: an empty reply of an available backend does not
    lead to the safe default intent but to a rejection. *)
Lemma empty_reply_is_rejected :
  ~ (forall (action : string) (orc : Oracle),
        ai_available orc = false
        \/ interpreter_reply orc = ReplyEmpty
        \/ interpreter_reply orc = ReplyInvalidJson
        \/ (exists i, interpreter_reply orc = ReplyObject i
                      /\ AIService.missing_field i <> None) ->
        obtain_intent action orc = safe_default_intent action).
Proof.
  intro H.
  specialize (H "hit the wall" (Samples.oracle true ReplyEmpty)
                (or_intror (or_introl eq_refl))).
  vm_compute in H. discriminate.
Qed.

End Examples.
End InterpreterFacts.

(** ** The orchestrator *)

Module OrchestratorFacts.

Import PyStr Orchestrator.

Ltac player_fields :=
  cbn [attributes hp max_hp attack defense gold xp level buffs inventory
       equipment grimoire gift morality].

(** Gold that arrived before the impact does not change what the impact
    does to the player: it stays on top. *)
Ltac player_updates :=
  unfold set_hp, set_gold, set_xp, set_inventory;
  cbn [attributes hp max_hp attack defense gold xp level buffs inventory
       equipment grimoire gift morality].

Section Laws.

Context {L : PyStr.Lowering}.

Lemma richer_by_zero (p : Player) : richer_by 0 p p.
Proof. unfold richer_by. destruct p; unfold set_gold; simpl. f_equal. lia. Qed.

Lemma richer_by_trans (d1 d2 : Z) (p q r : Player) :
  richer_by d1 p q -> richer_by d2 q r -> richer_by (d1 + d2) p r.
Proof.
  unfold richer_by. intros -> ->. destruct p; unfold set_gold; simpl.
  f_equal. lia.
Qed.

Lemma randint_range (lo hi : Z) (rng : Rand.Rng) :
  lo <= hi -> lo <= fst (Rand.randint lo hi rng) <= hi.
Proof.
  intro H. unfold Rand.randint. destruct rng as [|x rng]; simpl; [lia|].
  pose proof (Z.mod_pos_bound x (hi - lo + 1)). lia.
Qed.

Lemma discover_items_frame (elements : list Json) :
  forall (game : Game) (rng : Rand.Rng),
    let g' := snd (fst (discover_items elements game rng)) in
    tracker g' = tracker game
    /\ exists delta, 0 <= delta /\ richer_by delta (g_player game) (g_player g').
Proof.
  induction elements as [|e rest IH]; intros game rng.
  - simpl. split; [reflexivity|]. exists 0. split; [lia | apply richer_by_zero].
  - cbv zeta. destruct e as [| b | n | name | l | kv];
      try (simpl; split; [reflexivity|];
           exists 0; split; [lia | apply richer_by_zero]).
    change (discover_items (JStr name :: rest) game rng)
      with ((if any_in currency_keywords (lower name) then
               gold_amount <- Rand.randint 5 20 ;;
               discover_items rest (add_gold game gold_amount)
             else
               discover_items
                 rest
                 (with_room game
                    (set_loot (g_room game)
                              (room_loot (g_room game)
                               ++ [discovered_item (g_room game) name]))))
              rng).
    destruct (any_in currency_keywords (lower name)).
    + unfold Rand.bind.
      pose proof (randint_range 5 20 rng ltac:(lia)) as Hr.
      destruct (Rand.randint 5 20 rng) as [amount rng1]. simpl in Hr.
      cbv beta iota.
      destruct (IH (add_gold game amount) rng1) as [Ht [delta [Hd Hp]]].
      split.
      * rewrite Ht. reflexivity.
      * exists (amount + delta). split; [lia|].
        eapply richer_by_trans; [|exact Hp].
        reflexivity.
    + match goal with
      | |- context [discover_items rest ?g rng] =>
          destruct (IH g rng) as [Ht [delta [Hd Hp]]]
      end.
      split.
      * rewrite Ht. reflexivity.
      * exists delta. split; [lia | exact Hp].
Qed.

Lemma discover_objects_frame (names : list string) :
  forall game : Game,
    tracker (discover_objects names game) = tracker game
    /\ g_player (discover_objects names game) = g_player game.
Proof.
  unfold discover_objects.
  induction names as [|n names IH]; intro game; simpl; [auto|].
  match goal with
  | |- context [fold_left ?f names ?g] => destruct (IH g) as [Ht Hp]
  end.
  rewrite Ht, Hp.
  destruct (mem n (room_discovered_objects (g_room game))); auto.
Qed.

Lemma finish_discoveries_frame (nr : NarrationResult)
      (r : Outcome unit * Game) :
  tracker (snd (finish_discoveries nr r)) = tracker (snd r)
  /\ g_player (snd (finish_discoveries nr r)) = g_player (snd r).
Proof.
  destruct r as [[u|e] game2]; simpl; [|auto].
  apply discover_objects_frame.
Qed.

Lemma process_discoveries_frame (nr : NarrationResult) (game : Game)
      (rng : Rand.Rng) :
  let g' := snd (fst (process_discoveries nr game rng)) in
  tracker g' = tracker game
  /\ exists delta, 0 <= delta /\ richer_by delta (g_player game) (g_player g').
Proof.
  cbv zeta. unfold process_discoveries, Rand.bind.
  set (game1 := if nr_discovered_gold nr >? 0
                then add_gold game (nr_discovered_gold nr) else game).
  assert (H1 : tracker game1 = tracker game
               /\ exists d, 0 <= d /\ richer_by d (g_player game) (g_player game1)).
  { unfold game1. destruct (nr_discovered_gold nr >? 0) eqn:E.
    - split; [reflexivity|]. exists (nr_discovered_gold nr).
      split; [lia | reflexivity].
    - split; [reflexivity|]. exists 0. split; [lia | apply richer_by_zero]. }
  destruct H1 as [Ht1 [d1 [Hd1 Hp1]]].
  assert (H2 : forall r : Outcome unit * Game * Rand.Rng,
             tracker (snd (fst r)) = tracker game1 ->
             (exists d, 0 <= d /\ richer_by d (g_player game1)
                                            (g_player (snd (fst r)))) ->
             let g' := snd (finish_discoveries nr (fst r)) in
             tracker g' = tracker game
             /\ exists delta, 0 <= delta
                              /\ richer_by delta (g_player game) (g_player g')).
  { intros r Ht [d2 [Hd2 Hp2]]. cbv zeta.
    destruct (finish_discoveries_frame nr (fst r)) as [Hf1 Hf2].
    rewrite Hf1, Hf2, Ht, Ht1. split; [reflexivity|].
    exists (d1 + d2). split; [lia | eapply richer_by_trans; eauto]. }
  match goal with
  | |- context [let (a, g') := ?m rng in _] =>
      specialize (H2 (m rng)); destruct (m rng) as [r rng'] eqn:Em
  end.
  unfold Rand.ret.
  change (fst (finish_discoveries nr r, rng')) with (finish_discoveries nr r).
  change (fst (r, rng')) with r in H2.
  apply H2.
  - destruct (json_truthy (nr_discovered_items nr));
      [destruct (json_iterate (nr_discovered_items nr)) as [elements|]|].
    + pose proof (discover_items_frame elements game1 rng) as Hd.
      cbv zeta in Hd. rewrite Em in Hd. apply Hd.
    + inversion Em. reflexivity.
    + inversion Em. reflexivity.
  - destruct (json_truthy (nr_discovered_items nr));
      [destruct (json_iterate (nr_discovered_items nr)) as [elements|]|].
    + pose proof (discover_items_frame elements game1 rng) as Hd.
      cbv zeta in Hd. rewrite Em in Hd. apply Hd.
    + inversion Em. exists 0. split; [lia | apply richer_by_zero].
    + inversion Em. exists 0. split; [lia | apply richer_by_zero].
Qed.

Lemma loot_treasure_frame (game : Game) (action : string) (result : Result)
      (col : Collaborators) (rng : Rand.Rng) :
  let g' := snd (fst (loot_treasure game action result col rng)) in
  tracker g' = tracker game /\ g_player g' = g_player game.
Proof.
  cbv zeta. unfold loot_treasure.
  destruct (_ && is_looting action); [|simpl; auto].
  unfold Rand.bind. destruct (roll_treasure col rng) as [t rng']. simpl. auto.
Qed.

Lemma track_failures_player (game : Game) (action : string) (result : Result) :
  g_player (track_failures game action result) = g_player game.
Proof.
  unfold track_failures. cbv zeta.
  repeat (match goal with
          | |- context [if ?c then _ else _] => destruct c
          | |- context [match ?o with Some _ => _ | None => _ end] =>
              destruct o
          end; try reflexivity).
Qed.

(** What one settled result does to the game: the tracker is the one
    [track_failures] computed; the player is the one the impact and the
    components produce, up to gold the narration discovered, unless
    the narration block raised, in which case only that gold arrived. *)
Lemma settle_result_spec (game : Game) (action : string) (result : Result)
      (orc : Oracle) (col : Collaborators) (rng : Rand.Rng) :
  res_attribute result <> None ->
  let r := settle_result game action result orc col rng in
  let g' := snd (fst r) in
  tracker g' = tracker (track_failures game action result)
  /\ exists delta,
      0 <= delta
      /\ match fst (fst r) with
         | Returned _ =>
             g_player g'
             = settled_player result
                 (set_gold (g_player game) (gold (g_player game) + delta))
         | Raised _ =>
             g_player g'
             = set_gold (g_player game) (gold (g_player game) + delta)
         end.
Proof.
  intro Hattr. cbv zeta. unfold settle_result.
  destruct (res_attribute result) as [a|]; [|congruence].
  unfold Rand.bind.
  pose proof (loot_treasure_frame (track_failures game action result)
                                  action result col rng) as Hl.
  cbv zeta in Hl.
  destruct (loot_treasure (track_failures game action result)
                          action result col rng) as [t rng1].
  simpl fst in Hl. destruct Hl as [Hlt Hlp].
  rewrite track_failures_player in Hlp.
  set (game2 := snd t) in *.
  assert (Hn : forall n : Outcome unit * Game * Rand.Rng,
             tracker (snd (fst n)) = tracker game2 ->
             (exists d, 0 <= d /\ richer_by d (g_player game2)
                                            (g_player (snd (fst n)))) ->
             let r := Rand.ret (apply_result result (fst n)) (snd n) in
             tracker (snd (fst r))
             = tracker (track_failures game action result)
             /\ exists delta,
                 0 <= delta
                 /\ match fst (fst r) with
                    | Returned _ =>
                        g_player (snd (fst r))
                        = settled_player result
                            (set_gold (g_player game)
                                      (gold (g_player game) + delta))
                    | Raised _ =>
                        g_player (snd (fst r))
                        = set_gold (g_player game)
                                   (gold (g_player game) + delta)
                    end).
  { intros [[out game3] rng2] Ht [d [Hd Hp]]. simpl in Ht, Hp.
    unfold richer_by in Hp. rewrite Hlp in Hp.
    cbv zeta. unfold Rand.ret. simpl.
    destruct out as [u|e]; simpl.
    - split; [now rewrite <- Hlt, <- Ht|].
      exists d. split; [assumption|]. now rewrite Hp.
    - split; [now rewrite <- Hlt, <- Ht|].
      exists d. split; assumption. }
  match goal with
  | |- context [let (a0, g'0) := ?m rng1 in _] =>
      specialize (Hn (m rng1)); destruct (m rng1) as [n rng2] eqn:Em
  end.
  cbv zeta in Hn. simpl fst in Hn. simpl snd in Hn.
  apply Hn.
  - destruct (negb (is_npc_conversation game2 action) && ai_available orc).
    + pose proof (process_discoveries_frame (narration col) game2 rng1) as Hd.
      cbv zeta in Hd. rewrite Em in Hd. apply Hd.
    + inversion Em. reflexivity.
  - destruct (negb (is_npc_conversation game2 action) && ai_available orc).
    + pose proof (process_discoveries_frame (narration col) game2 rng1) as Hd.
      cbv zeta in Hd. rewrite Em in Hd. apply Hd.
    + inversion Em. exists 0. split; [lia | apply richer_by_zero].
Qed.




(** Python tests the target for truth: with a null or empty target the
    third failure destroys nothing and the counter keeps counting. *)
Lemma track_failures_third_without_target (g : Game) (a : string) (r : Result) :
  res_success r = false ->
  last_failed_action g = strip (lower a) -> fail_count g = 2 ->
  target (res_intent r) = None \/ target (res_intent r) = Some "" ->
  tracker (track_failures g a r)
  = (strip (lower a), 3, room_destroyed_objects (g_room g)).
Proof.
  intros Hs Hl Hc Ht. unfold track_failures, tracker. rewrite Hs, Hl.
  rewrite String.eqb_refl. simpl. rewrite Hc.
  destruct Ht as [Ht|Ht]; rewrite Ht; reflexivity.
Qed.

(** A result that is neither a rejection nor an equip nor a surprise
    attack is settled. *)
Lemma handle_result_settles (game : Game) (action : string) (result : Result)
      (orc : Oracle) (col : Collaborators) (rng : Rand.Rng) :
  res_rejected result = false ->
  action_type (res_intent result) <> Some "equip" ->
  is_backstab game (res_intent result) = Some false ->
  handle_result game action result orc col rng
  = settle_result game action result orc col rng.
Proof.
  intros Hr He Hb. unfold handle_result. rewrite Hr, Hb.
  destruct (action_type (res_intent result)) as [ty|]; simpl; [|reflexivity].
  destruct (String.eqb ty "equip") eqn:E; [|reflexivity].
  apply String.eqb_eq in E. congruence.
Qed.



Lemma Item_eqb_eq (a b : Item) : Item_eqb a b = true <-> a = b.
Proof.
  destruct a as [i1 n1 d1 t1 c1 k1], b as [i2 n2 d2 t2 c2 k2].
  unfold Item_eqb. simpl. rewrite !andb_true_iff, !String.eqb_eq.
  split.
  - intros [[[[[-> ->] ->] Ht] Hc] Hk].
    apply Bool.eqb_prop in Hc. subst c2.
    assert (t1 = t2) by (destruct t1, t2; simpl in Ht; congruence).
    assert (k1 = k2).
    { destruct k1 as [x|], k2 as [y|]; simpl in Hk; try congruence.
      apply String.eqb_eq in Hk. congruence. }
    congruence.
  - intro E. inversion E. subst. repeat split.
    + destruct t2; reflexivity.
    + apply Bool.eqb_reflx.
    + destruct k2 as [x|]; simpl; [apply String.eqb_refl | reflexivity].
Qed.

(** The code finds the first matching item in a copy of the inventory
    and removes the first element equal to it; that is the removal of
    the first matching item. *)
Lemma consume_component_refines (c : string) (inv : list Item) :
  consume_component c inv = ComponentSpec.remove_first_containing c inv.
Proof.
  unfold consume_component.
  induction inv as [|x rest IH]; [reflexivity|]. simpl.
  destruct (str_in (lower c) (lower (item_name x))) eqn:Ex.
  - assert (E : Item_eqb x x = true) by now apply Item_eqb_eq.
    now rewrite E.
  - destruct (find (fun item => str_in (lower c) (lower (item_name item)))
                   rest) as [y|] eqn:F.
    + assert (Hy : str_in (lower c) (lower (item_name y)) = true)
        by (apply find_some in F; tauto).
      destruct (Item_eqb y x) eqn:Eyx.
      * apply Item_eqb_eq in Eyx. subst y. congruence.
      * now rewrite IH.
    + now rewrite <- IH.
Qed.

Lemma consume_components_refines (comps : list string) (p : Player) :
  inventory (consume_components comps p)
  = ComponentSpec.remove_each comps (inventory p).
Proof.
  unfold consume_components, ComponentSpec.remove_each. simpl.
  generalize (inventory p).
  induction comps as [|c comps IH]; intro inv; [reflexivity|].
  simpl. rewrite consume_component_refines. apply IH.
Qed.

Lemma apply_impact_inventory (impact : Impact) (p : Player) :
  inventory (apply_impact impact p) = (inventory p ++ gained impact)%list.
Proof.
  unfold apply_impact, gained, check_level_up. cbv zeta.
  destruct (imp_item impact); simpl;
    repeat (match goal with
            | |- context [if ?c then _ else _] => destruct c
            end; simpl);
    rewrite ?app_nil_r; reflexivity.
Qed.

Lemma settled_player_inventory (result : Result) (p : Player) :
  inventory (settled_player result p)
  = if res_success result
    then ComponentSpec.remove_each
           (get (components_used (res_intent result)) [])
           (inventory p ++ gained (res_impact result))
    else (inventory p ++ gained (res_impact result))%list.
Proof.
  unfold settled_player. destruct (res_success result).
  - rewrite consume_components_refines. now rewrite apply_impact_inventory.
  - apply apply_impact_inventory.
Qed.

Lemma remove_first_containing_length (c : string) (inv : list Item) :
  (existsb (fun it => str_in (lower c) (lower (item_name it))) inv = true ->
   S (List.length (ComponentSpec.remove_first_containing c inv))
   = List.length inv)
  /\ (existsb (fun it => str_in (lower c) (lower (item_name it))) inv = false ->
      ComponentSpec.remove_first_containing c inv = inv).
Proof.
  induction inv as [|x rest [IH1 IH2]]; simpl.
  - split; [discriminate | reflexivity].
  - destruct (str_in (lower c) (lower (item_name x))); simpl.
    + split; [reflexivity | discriminate].
    + split; intro H; [now rewrite IH1 | now rewrite IH2].
Qed.

(** C10 (as amended).  When a settled result is a success and the
    narration block returns, the player's inventory is the inventory
    before the action plus the impact's item, from which, for each entry
    of components_used in order, the first item whose name contains the
    entry case-insensitively has been removed when there is one (an
    entry without a match removes nothing, so at most one item goes per
    entry).  On a failure every item owned before is still there, and a
    rejected result leaves the game untouched. *)
Theorem components_consumed_on_success
        (game : Game) (action : string) (result : Result)
        (orc : Oracle) (col : Collaborators) (rng : Rand.Rng) :
  res_attribute result <> None ->
  let r := settle_result game action result orc col rng in
  let inv0 := inventory (g_player game) in
  let comps := get (components_used (res_intent result)) [] in
  (res_success result = true ->
   (exists u, fst (fst r) = Returned u) ->
   inventory (g_player (snd (fst r)))
   = ComponentSpec.remove_each comps (inv0 ++ gained (res_impact result)))
  /\ (res_success result = false ->
      exists extra,
        inventory (g_player (snd (fst r))) = (inv0 ++ extra)%list)
  /\ (res_rejected result = true ->
      handle_result game action result orc col rng
      = ((Returned tt, game), rng))
  /\ (forall c inv,
        (existsb (fun it => str_in (lower c) (lower (item_name it))) inv
         = true ->
         S (List.length (ComponentSpec.remove_first_containing c inv))
         = List.length inv)
        /\ (existsb (fun it => str_in (lower c) (lower (item_name it))) inv
            = false ->
            ComponentSpec.remove_first_containing c inv = inv)).
Proof.
  intros Hattr r inv0 comps.
  destruct (settle_result_spec game action result orc col rng Hattr)
    as [_ [delta [_ Hp]]].
  fold r in Hp.
  split; [|split; [|split]].
  - intros Hs [u Hu]. rewrite Hu in Hp. rewrite Hp.
    rewrite settled_player_inventory, Hs. reflexivity.
  - intro Hs. destruct (fst (fst r)) as [u|e].
    + rewrite Hp, settled_player_inventory, Hs.
      exists (gained (res_impact result)). reflexivity.
    + rewrite Hp. exists []. simpl. now rewrite app_nil_r.
  - intro Hr. unfold handle_result. now rewrite Hr.
  - apply remove_first_containing_length.
Qed.

Lemma apply_impact_gold (impact : Impact) (p : Player) (x : Z) :
  apply_impact impact (set_gold p x)
  = set_gold (apply_impact impact p)
             (gold (apply_impact impact p) - gold p + x).
Proof.
  destruct p as [at_ hp_ mhp atk def gd xp_ lv bf inv eq gr gf mo].
  unfold apply_impact.
  destruct (imp_hp impact =? 0), (imp_gold impact >? 0),
    (imp_xp impact >? 0), (imp_item impact);
    cbv zeta; player_updates;
    unfold check_level_up; player_updates;
    try match goal with
        | |- context [if ?c then _ else _] => destruct c
        end;
    player_updates; f_equal; lia.
Qed.

Lemma consume_components_gold (comps : list string) (p : Player) (x : Z) :
  consume_components comps (set_gold p x)
  = set_gold (consume_components comps p) x
  /\ gold (consume_components comps p) = gold p.
Proof. split; reflexivity. Qed.

Lemma settled_player_gold (result : Result) (p : Player) (x : Z) :
  settled_player result (set_gold p x)
  = set_gold (settled_player result p)
             (gold (settled_player result p) - gold p + x).
Proof.
  unfold settled_player. cbv zeta. rewrite apply_impact_gold.
  destruct (res_success result); [|reflexivity].
  destruct (consume_components_gold
              (get (components_used (res_intent result)) [])
              (apply_impact (res_impact result) p) 0) as [_ Hg].
  rewrite Hg. reflexivity.
Qed.

(** For every narration answer on which the narration block returns, the
    player after the orchestrator's segment is the player the precomputed
    impact and the components produce, plus the gold of the discoveries:
    hit points, experience, level and inventory do not depend on the
    answer. *)
Lemma impact_independent_of_returned_narration
      (game : Game) (action : string) (result : Result)
      (orc : Oracle) (col : Collaborators) (rng : Rand.Rng) :
  res_attribute result <> None ->
  let r := settle_result game action result orc col rng in
  (exists u, fst (fst r) = Returned u) ->
  exists delta,
    0 <= delta
    /\ g_player (snd (fst r))
       = set_gold (settled_player result (g_player game))
                  (gold (settled_player result (g_player game)) + delta).
Proof.
  intros Hattr r [u Hu].
  destruct (settle_result_spec game action result orc col rng Hattr)
    as [_ [delta [Hd Hp]]].
  fold r in Hp. rewrite Hu in Hp.
  exists delta. split; [assumption|].
  rewrite Hp, settled_player_gold. f_equal. lia.
Qed.

End Laws.

Section Examples.

Existing Instance PyStr.western.


Lemma components_consumed_on_success_witness :
  inventory
    (g_player
       (snd (fst (settle_result
                    (mkGame (Samples.hero [Samples.amulett; Samples.rubinstaub] [])
                            (Samples.chamber None None []) "" 0)
                    "zermahle den Staub"
                    (Samples.successful_check ["rubin"])
                    Samples.offline
                    (Samples.collaborators Samples.silent) []))))
  = ComponentSpec.remove_each
      ["rubin"]
      ([Samples.amulett; Samples.rubinstaub]
       ++ gained (res_impact (Samples.successful_check ["rubin"]))).
Proof.
  apply (proj1 (components_consumed_on_success (L := PyStr.western)
                  (mkGame (Samples.hero [Samples.amulett; Samples.rubinstaub] [])
                          (Samples.chamber None None []) "" 0)
                  "zermahle den Staub"
                  (Samples.successful_check ["rubin"])
                  Samples.offline
                  (Samples.collaborators Samples.silent) []
                  ltac:(discriminate))).
  - reflexivity.
  - exists tt. reflexivity.
Defined.

(** C10 as stated fails: with a component named twice and one matching
    item, an intent the validator allows, only one item is removed for
    the two entries. *)
Lemma repeated_component_removes_once :
  ~ (forall (game : Game) (action : string) (result : Result)
            (orc : Oracle) (col : Collaborators) (rng : Rand.Rng),
        ActionValidator.validate (res_intent result) (g_player game)
                                 (g_room game) = Allowed ->
        res_attribute result <> None ->
        res_success result = true ->
        let r := settle_result game action result orc col rng in
        (exists u, fst (fst r) = Returned u) ->
        (List.length (inventory (g_player (snd (fst r))))
         + List.length (get (components_used (res_intent result)) [])
         = List.length (inventory (g_player game)
                        ++ gained (res_impact result)))%nat).
Proof.
  intro H.
  specialize (H (mkGame (Samples.hero [Samples.amulett; Samples.rubinstaub] [])
                        (Samples.chamber None None []) "" 0)
                "zermahle den Staub"
                (Samples.successful_check ["Rubinstaub"; "Rubinstaub"])
                Samples.offline
                (Samples.collaborators Samples.silent) []
                eq_refl ltac:(discriminate) eq_refl
                (ex_intro _ tt eq_refl)).
  vm_compute in H. discriminate.
Qed.

(** C2, at the input where it fails.  The same successful result (a
    precomputed impact of 10 XP) is settled twice from the same game; the
    runs differ only in the narration answer.  With an answer without
    discoveries the 10 XP are applied; with an answer whose
    discovered_items holds an object instead of a name the item loop
    raises and the impact is never applied. *)
Theorem narration_payload_blocks_impact :
  let run nr :=
    fst (settle_result Samples.crate_game "schiebe die Kiste"
                       (Samples.successful_check [])
                       (Samples.oracle true ReplyEmpty)
                       (Samples.collaborators nr) []) in
  imp_xp (res_impact (Samples.successful_check [])) = 10
  /\ fst (run Samples.silent) = Returned tt
  /\ xp (g_player (snd (run Samples.silent))) = 10
  /\ fst (run Samples.object_item_narration) = Raised "AttributeError"
  /\ xp (g_player (snd (run Samples.object_item_narration))) = 0
  /\ g_player (snd (run Samples.object_item_narration))
     = g_player Samples.crate_game.
Proof. vm_compute. repeat split; reflexivity. Qed.

End Examples.
End OrchestratorFacts.

(** ** Magic *)

Module MagicFacts.

Import PyStr ActionResolver.

Section Laws.

Context {L : PyStr.Lowering}.

Lemma attack_spell_grimoire (lo hi xp_base bf_lo bf_hi : Z) (stun : bool)
      (loss : Z) (mult : Q) (player : Player) (room : Room) (rng : Rand.Rng) :
  snd (fst (fst (attack_spell lo hi xp_base bf_lo bf_hi stun loss mult
                              player room rng))) = player.
Proof.
  unfold attack_spell, Rand.bind, Rand.randint, Rand.ret.
  destruct (living_monster room); destruct rng; reflexivity.
Qed.

Lemma apply_spell_effect_grimoire (spell : Spell) (player : Player)
      (room : Room) (rng : Rand.Rng) :
  grimoire (snd (fst (fst (apply_spell_effect spell player room rng))))
  = grimoire player.
Proof.
  unfold apply_spell_effect.
  repeat match goal with
         | |- context [if String.eqb ?a ?b then _ else _] =>
             destruct (String.eqb a b)
         end;
    try (rewrite attack_spell_grimoire; reflexivity);
    unfold heal_spell, Rand.bind, Rand.randint, Rand.ret;
    destruct rng; reflexivity.
Qed.

(** Whatever the roll, casting a known spell bumps the use counter of
    the spell at its position in the grimoire; a failed cast leaves the
    room and the caster's other fields alone and costs 1 to 3 HP. *)
Lemma cast_known_spell_counts_every_cast
      (i : nat) (known_spell : Spell) (player : Player) (room : Room)
      (rng : Rand.Rng) :
  let r := fst (cast_known_spell i known_spell player room rng) in
  let mr := fst (fst r) in
  grimoire (snd (fst r)) = GrimoireOps.bump_uses (grimoire player) i
  /\ mr_plausibility mr = Some (boosted (spell_plausibility known_spell))
  /\ mr_difficulty mr
     = Some (difficulty_of (boosted (spell_plausibility known_spell)))
  /\ (mr_success mr = false ->
      snd r = room
      /\ snd (fst r)
         = set_grimoire player (GrimoireOps.bump_uses (grimoire player) i)
      /\ exists b, 1 <= b <= 3 /\ mr_impact mr = mkImpact (- b) 0 0 None).
Proof.
  cbv zeta. unfold cast_known_spell, Rand.bind.
  destruct (DiceRoller.attribute_check _ _ _ _ _ rng)
    as [[[success roll] total] rng1].
  destruct success.
  - pose proof (apply_spell_effect_grimoire
                  (GrimoireOps.increment_uses known_spell)
                  (set_grimoire player
                                (GrimoireOps.bump_uses (grimoire player) i))
                  room rng1) as Hg.
    destruct (apply_spell_effect _ _ room rng1) as [[[imp p2] r2] rng2].
    simpl in Hg. simpl.
    split; [assumption | split; [reflexivity | split; [reflexivity|]]].
    discriminate.
  - pose proof (OrchestratorFacts.randint_range 1 3 rng1 ltac:(lia)) as Hb.
    destruct (Rand.randint 1 3 rng1) as [b rng2]. simpl in Hb. simpl.
    split; [reflexivity | split; [reflexivity | split; [reflexivity|]]].
    intros _. split; [reflexivity | split; [reflexivity|]].
    exists b. split; [lia | reflexivity].
Qed.

End Laws.

Section Examples.

Existing Instance PyStr.western.

(** C4, at the input where the code departs from it.  The player knows
    Flame Burst (components Rubinstaub, words ignis maxima, plausibility
    0.7) and casts it with a roll of 1 against the boosted difficulty 6:
    the cast fails, costs 2 HP as backfire, leaves the goblin alone, and
    the spell's use counter still goes from 0 to 1. *)
Theorem failed_known_cast_counts_use :
  let player := Samples.hero [Samples.rubinstaub] [Samples.flame_burst] in
  let room := Samples.chamber (Some "Ein Goblin lauert hier.")
                              (Some Samples.goblin) [] in
  let intent :=
    Samples.intent_of "attempt_magic" (Some "goblin")
                      "stosse nach oben und rufe 'Ignis Maxima'"
                      (7 # 10)%Q ["Rubinstaub"] in
  let r := fst (resolve_magic_attempt "wirke Flame Burst" intent player room
                                      Samples.offline [0; 1]) in
  let mr := fst (fst r) in
  map spell_uses (spells (grimoire player)) = [0]
  /\ mr_success mr = false
  /\ mr_known_spell_cast mr = Some false
  /\ mr_roll mr = Some 1
  /\ mr_difficulty mr = Some 6
  /\ mr_impact mr = mkImpact (-2) 0 0 None
  /\ snd r = room
  /\ map spell_uses (spells (grimoire (snd (fst r)))) = [1].
Proof. vm_compute. repeat split; reflexivity. Qed.

End Examples.
End MagicFacts.

(** * Properties of the rest of the pipeline *)

(** ** Dice, difficulty and rewards *)

Module CheckFacts.

Import PyStr DiceRoller ActionResolver Scenes.

Section Laws.

Context {L : PyStr.Lowering}.

Lemma d20_range (rng : Rand.Rng) : 1 <= fst (d20 rng) <= 20.
Proof.
  unfold d20, roll. apply OrchestratorFacts.randint_range. lia.
Qed.

Lemma attribute_check_spec (a d : Z) (adv dis : bool) (b : Z)
      (rng : Rand.Rng) :
  let '(success, roll, total) := fst (attribute_check a d adv dis b rng) in
  1 <= roll <= 20
  /\ total = roll + (a - 10) / 2 + b
  /\ success = (total >=? d).
Proof.
  unfold attribute_check, Rand.bind, Rand.ret.
  pose proof (d20_range rng) as H1.
  destruct (d20 rng) as [r1 rng1] eqn:E1. simpl in H1.
  pose proof (d20_range rng1) as H2.
  destruct adv, dis; simpl;
    try (destruct (d20 rng1) as [r2 rng2] eqn:E2; simpl in H2; simpl);
    repeat split; lia.
Qed.

(** X1.  Whatever the flags and the draws, the roll [attribute_check]
    reports lies in 1..20, the total is roll + floor((attribute-10)/2)
    + gift bonus, and success is exactly total >= difficulty. *)
Theorem attribute_check_sound (a d : Z) (adv dis : bool) (b : Z)
        (rng : Rand.Rng) :
  let '(success, roll, total) := fst (attribute_check a d adv dis b rng) in
  1 <= roll <= 20
  /\ total = roll + (a - 10) / 2 + b
  /\ success = (total >=? d).
Proof. exact (attribute_check_spec a d adv dis b rng). Qed.

(** X2.  On the same draws a roll with disadvantage is at most the
    plain roll, which is at most the roll with advantage; when both flags
    are set the advantage decides. *)
Theorem advantage_orders_rolls (a d b : Z) (rng : Rand.Rng) :
  let roll_of adv dis :=
    snd (fst (fst (attribute_check a d adv dis b rng))) in
  roll_of false true <= roll_of false false <= roll_of true false
  /\ roll_of true true = roll_of true false.
Proof.
  unfold attribute_check, Rand.bind, Rand.ret.
  destruct (d20 rng) as [r1 rng1] eqn:E1. simpl.
  destruct (d20 rng1) as [r2 rng2] eqn:E2. simpl.
  repeat split; lia.
Qed.

Lemma py_int_mono (q1 q2 : Q) : (q1 <= q2)%Q -> py_int q1 <= py_int q2.
Proof.
  unfold Qle, py_int. destruct q1 as [a b], q2 as [c e]. simpl. intro H.
  rewrite <- (Z.quot_mul_cancel_r a (Zpos b) (Zpos e)) by lia.
  rewrite <- (Z.quot_mul_cancel_r c (Zpos e) (Zpos b)) by lia.
  rewrite (Z.mul_comm (Zpos e) (Zpos b)).
  apply Z.quot_le_mono; lia.
Qed.

(** X3.  The difficulty int(20 - 15 * plausibility) stays within 5..20
    for plausibilities in [0, 1] and never rises with the
    plausibility. *)
Theorem difficulty_of_range (p1 p2 : Q) :
  (0 <= p1)%Q -> (p1 <= p2)%Q -> (p2 <= 1)%Q ->
  5 <= difficulty_of p2 /\ difficulty_of p2 <= difficulty_of p1
  /\ difficulty_of p1 <= 20.
Proof.
  intros H0 H12 H1. unfold difficulty_of.
  split; [|split].
  - apply Z.le_trans with (py_int (20 - 1 * 15)%Q);
      [now vm_compute | apply py_int_mono; lra].
  - apply py_int_mono. lra.
  - apply Z.le_trans with (py_int (20 - 0 * 15)%Q);
      [apply py_int_mono; lra | now vm_compute].
Qed.

Lemma determine_rewards_failure (total d : Z) (p : Q)
      (ty txt : option string) (rng : Rand.Rng) :
  total < d ->
  let impact := fst (determine_rewards false total d p ty txt rng) in
  imp_xp impact = 0 /\ imp_gold impact = 0 /\ imp_item impact = None
  /\ -5 <= imp_hp impact <= 0
  /\ (d - total < 5 -> d < 14 -> imp_hp impact = 0).
Proof.
  intro H. unfold determine_rewards, Rand.bind, Rand.ret.
  destruct (d - total >=? 8) eqn:E8.
  - pose proof (OrchestratorFacts.randint_range 2 5 rng ltac:(lia)) as R.
    destruct (Rand.randint 2 5 rng) as [x g]. simpl in *.
    repeat split; lia.
  - destruct (d - total >=? 5) eqn:E5.
    + pose proof (OrchestratorFacts.randint_range 1 3 rng ltac:(lia)) as R.
      destruct (Rand.randint 1 3 rng) as [x g]. simpl in *.
      repeat split; lia.
    + destruct (d >=? 14) eqn:E14.
      * assert (Hm : 1 <= (d - total) / 2 + 1 <= 3).
        { assert (0 <= (d - total) / 2 <= 2); [|lia].
          split; [apply Z.div_pos; lia|].
          apply Z.div_le_upper_bound; lia. }
        pose proof (OrchestratorFacts.randint_range
                      1 ((d - total) / 2 + 1) rng ltac:(lia)) as R.
        destruct (Rand.randint 1 ((d - total) / 2 + 1) rng) as [x g].
        simpl in *. repeat split; lia.
      * simpl. repeat split; lia.
Qed.

Lemma determine_rewards_success (total d : Z) (p : Q)
      (ty txt : option string) (rng : Rand.Rng) :
  let impact := fst (determine_rewards true total d p ty txt rng) in
  imp_hp impact = 0 /\ imp_item impact = None
  /\ imp_xp impact = success_xp (total - d) d p
  /\ (imp_gold impact = 0
      \/ (5 <= imp_gold impact <= 15
          /\ d + 10 <= total
          /\ ty <> Some "social"
          /\ exists text, txt = Some text
                          /\ any_in treasure_keywords (lower text) = true)).
Proof.
  assert (Hplain : forall x g,
             let impact := fst (Rand.ret (mkImpact 0 0 x None) g) in
             imp_hp impact = 0 /\ imp_item impact = None
             /\ imp_xp impact = x
             /\ (imp_gold impact = 0
                 \/ (5 <= imp_gold impact <= 15
                     /\ d + 10 <= total
                     /\ ty <> Some "social"
                     /\ exists text,
                         txt = Some text
                         /\ any_in treasure_keywords (lower text) = true))).
  { intros x g. simpl. repeat split. left. reflexivity. }
  unfold determine_rewards.
  destruct (total - d >=? 10) eqn:Em; cbn [andb]; [|apply Hplain].
  destruct (negb match ty with
                 | Some t => (t =? "social")%string
                 | None => false
                 end) eqn:Es; [|apply Hplain].
  destruct txt as [text|]; [|apply Hplain].
  destruct (truthy text && any_in treasure_keywords (lower text)) eqn:Et;
    [|apply Hplain].
  unfold Rand.bind, Rand.ret.
  pose proof (OrchestratorFacts.randint_range 5 15 rng ltac:(lia)) as R.
  destruct (Rand.randint 5 15 rng) as [x g]. simpl in R.
  destruct (Rand.random_unit g) as [u g']. cbn.
  split; [reflexivity|]. split; [reflexivity|]. split; [reflexivity|].
  right. split; [lia|]. split; [lia|]. split.
  - intro Hty. subst ty. simpl in Es. discriminate.
  - exists text. split; [reflexivity|].
    apply andb_true_iff in Et. apply Et.
Qed.

(** X5.  [determine_rewards] never hands out an item.  A failure
    (total < difficulty) earns no XP and no gold and costs at most 5 HP,
    nothing at all when the miss is below 5 and the difficulty below 14.
    A success costs no HP and finds gold only as 5..15 pieces, only with
    a margin of at least 10, an action type other than social and a
    treasure keyword in the action text. *)
Theorem determine_rewards_bounds (success : bool) (total d : Z) (p : Q)
        (ty txt : option string) (rng : Rand.Rng) :
  success = (total >=? d) ->
  let impact := fst (determine_rewards success total d p ty txt rng) in
  imp_item impact = None
  /\ (success = false ->
      imp_xp impact = 0 /\ imp_gold impact = 0 /\ -5 <= imp_hp impact <= 0
      /\ (d - total < 5 -> d < 14 -> imp_hp impact = 0))
  /\ (success = true ->
      imp_hp impact = 0
      /\ (imp_gold impact = 0
          \/ (5 <= imp_gold impact <= 15
              /\ d + 10 <= total
              /\ ty <> Some "social"
              /\ exists text,
                  txt = Some text
                  /\ any_in treasure_keywords (lower text) = true))).
Proof.
  intros Hs impact. destruct success.
  - destruct (determine_rewards_success total d p ty txt rng)
      as (Hh & Hi & _ & Hg).
    split; [exact Hi|]. split; [discriminate|]. intros _. split; assumption.
  - assert (Hlt : total < d) by lia.
    destruct (determine_rewards_failure total d p ty txt rng Hlt)
      as (Hx & Hg & Hi & Hh & Hz).
    split; [exact Hi|]. split; [|discriminate]. intros _.
    split; [exact Hx|]. split; [exact Hg|]. split; assumption.
Qed.

Lemma resolve_check_spec (action : string) (intent : Intent)
      (player : Player) (room : Room) (game : GameArg) (orc : Oracle)
      (rng : Rand.Rng)
      (res : Result) (p' : Player) (r' : Room) (rng' : Rand.Rng) :
  resolve_check action intent player room game orc rng
  = (Returned res, p', r', rng') ->
  p' = player /\ r' = room
  /\ res_rejected res = false /\ res_intent res = intent
  /\ plausibility intent = Some (res_plausibility res)
  /\ res_difficulty res
     = (if any_in search_keywords (lower action)
        then Z.max (difficulty_of (res_plausibility res)) 12
        else difficulty_of (res_plausibility res))
  /\ res_gift_bonus res
     = get_gift_bonus player (get (res_attribute res) "")
  /\ 1 <= res_roll res <= 20
  /\ res_total res
     = res_roll res + (res_attribute_value res - 10) / 2 + res_gift_bonus res
  /\ res_success res = (res_total res >=? res_difficulty res)
  /\ (res_success res = false ->
      imp_xp (res_impact res) = 0 /\ imp_gold (res_impact res) = 0
      /\ imp_item (res_impact res) = None
      /\ -5 <= imp_hp (res_impact res) <= 0)
  /\ (res_success res = true ->
      imp_hp (res_impact res) = 0 /\ 0 <= imp_gold (res_impact res) <= 15).
Proof.
  unfold resolve_check.
  destruct (action_type intent) as [ty|]; [|discriminate].
  destruct (method intent) as [m|]; [|discriminate].
  destruct (map_action_to_attribute ty m) as [name|]; [|discriminate].
  destruct (getattr_attribute (attributes player) name) as [av|];
    [|destruct (plausibility intent); discriminate].
  destruct (plausibility intent) as [pl|]; [|discriminate].
  cbv zeta. unfold Rand.bind at 1.
  set (diff := if any_in search_keywords (lower action)
               then Z.max (difficulty_of pl) 12 else difficulty_of pl).
  set (gb := get_gift_bonus player name).
  pose proof (attribute_check_spec av diff false false gb rng) as Hc.
  destruct (DiceRoller.attribute_check av diff false false gb rng)
    as [[[s r] t] rng1].
  cbn [fst] in Hc. destruct Hc as (Hr & Ht & Hs).
  unfold Rand.bind.
  pose proof (determine_rewards_success t diff pl (Some ty) (Some action) rng1)
    as Hok.
  pose proof (determine_rewards_failure t diff pl (Some ty) (Some action) rng1)
    as Hko.
  destruct s.
  - clear Hko.
    destruct (determine_rewards true t diff pl (Some ty) (Some action) rng1)
      as [impact0 rng2].
    cbn [fst] in Hok. destruct Hok as (Hh & Hi & _ & Hg).
    assert (Hgold : 0 <= imp_gold impact0 <= 15)
      by (destruct Hg as [Hg|Hg]; lia).
    unfold Rand.ret. cbn [andb]. intro H.
    repeat match type of H with
           | context [if ?c then _ else _] =>
               destruct c; try discriminate H
           end.
    all: injection H as Hres Hp Hr' Hrng; subst res p' r'; cbn.
    all: repeat match goal with
                | |- _ /\ _ => split
                end; try reflexivity; try lia; try discriminate.
    all: intros _.
    all: repeat match goal with
                | |- context [match ?c with Some _ => _ | None => _ end] =>
                    destruct c
                end; cbn; split; assumption.
  - clear Hok.
    assert (Hlt : t < diff) by lia. specialize (Hko Hlt).
    destruct (determine_rewards false t diff pl (Some ty) (Some action) rng1)
      as [impact0 rng2].
    cbn [fst] in Hko. destruct Hko as (Hx & Hg & Hi & Hh & _).
    unfold Rand.ret. cbn [andb]. intro H. injection H as Hres Hp Hr' Hrng.
    subst res p' r'. cbn.
    repeat match goal with
           | |- _ /\ _ => split
           end; try reflexivity; try lia; try discriminate; auto.
Qed.

(** X4.  A result returned by the attribute-check branch of
    [resolve_free_action] is consistent: player and room are untouched,
    the result is not a rejection and carries the intent, the difficulty
    is that of the intent's plausibility (at least 12 for a search), the
    roll lies in 1..20, the total is roll + modifier + gift bonus, success
    is total >= difficulty, a failure earns nothing and costs at most
    5 HP, a success costs no HP and finds at most 15 gold. *)
Theorem resolve_check_sound (action : string) (intent : Intent)
        (player : Player) (room : Room) (game : GameArg) (orc : Oracle)
        (rng : Rand.Rng)
        (res : Result) (p' : Player) (r' : Room) (rng' : Rand.Rng) :
  resolve_check action intent player room game orc rng
  = (Returned res, p', r', rng') ->
  p' = player /\ r' = room
  /\ res_rejected res = false /\ res_intent res = intent
  /\ plausibility intent = Some (res_plausibility res)
  /\ res_difficulty res
     = (if any_in search_keywords (lower action)
        then Z.max (difficulty_of (res_plausibility res)) 12
        else difficulty_of (res_plausibility res))
  /\ res_gift_bonus res
     = get_gift_bonus player (get (res_attribute res) "")
  /\ 1 <= res_roll res <= 20
  /\ res_total res
     = res_roll res + (res_attribute_value res - 10) / 2 + res_gift_bonus res
  /\ res_success res = (res_total res >=? res_difficulty res)
  /\ (res_success res = false ->
      imp_xp (res_impact res) = 0 /\ imp_gold (res_impact res) = 0
      /\ imp_item (res_impact res) = None
      /\ -5 <= imp_hp (res_impact res) <= 0)
  /\ (res_success res = true ->
      imp_hp (res_impact res) = 0 /\ 0 <= imp_gold (res_impact res) <= 15).
Proof.
  exact (resolve_check_spec action intent player room game orc rng
                            res p' r' rng').
Qed.

End Laws.

Section Examples.

Existing Instance PyStr.western.

Lemma difficulty_of_range_witness :
  5 <= difficulty_of (8 # 10) /\ difficulty_of (8 # 10) <= difficulty_of (3 # 10)
  /\ difficulty_of (3 # 10) <= 20.
Proof.
  apply (difficulty_of_range (3 # 10) (8 # 10)); unfold Qle; simpl; lia.
Defined.

Lemma determine_rewards_bounds_witness :
  let impact :=
    fst (determine_rewards true 25 12 (5 # 10) (Some "interact_object")
                           (Some "open the chest") [7; 0]) in
  imp_item impact = None
  /\ (true = false ->
      imp_xp impact = 0 /\ imp_gold impact = 0 /\ -5 <= imp_hp impact <= 0
      /\ (12 - 25 < 5 -> 12 < 14 -> imp_hp impact = 0))
  /\ (true = true ->
      imp_hp impact = 0
      /\ (imp_gold impact = 0
          \/ (5 <= imp_gold impact <= 15
              /\ 12 + 10 <= 25
              /\ Some "interact_object" <> Some "social"
              /\ exists text,
                  Some "open the chest" = Some text
                  /\ any_in treasure_keywords (lower text) = true))).
Proof.
  apply (determine_rewards_bounds (L := PyStr.western) true 25 12 (5 # 10)
           (Some "interact_object") (Some "open the chest") [7; 0]).
  vm_compute. reflexivity.
Defined.

Lemma resolve_check_sound_witness :
  resolve_check "push the crate" push_intent Samples.test_player
                Samples.test_room TheGame Samples.offline [11]
  = (Returned pushed, Samples.test_player, Samples.test_room, [])
  /\ 1 <= res_roll pushed <= 20
  /\ res_total pushed
     = res_roll pushed + (res_attribute_value pushed - 10) / 2
       + res_gift_bonus pushed
  /\ res_success pushed = (res_total pushed >=? res_difficulty pushed).
Proof.
  assert (E : resolve_check "push the crate" push_intent Samples.test_player
                            Samples.test_room TheGame Samples.offline [11]
              = (Returned pushed, Samples.test_player, Samples.test_room, []))
    by (vm_compute; reflexivity).
  split; [exact E|].
  destruct (resolve_check_sound (L := PyStr.western)
              "push the crate" push_intent Samples.test_player
              Samples.test_room TheGame Samples.offline [11] pushed
              Samples.test_player Samples.test_room [] E)
    as (_ & _ & _ & _ & _ & _ & _ & Hr & Ht & Hs & _).
  split; [exact Hr|]. split; [exact Ht|exact Hs].
Defined.

End Examples.
End CheckFacts.

(** ** More of the validator *)

Module ValidatorMore.

Import PyStr ActionValidator Views Scenes.

Section Laws.

Context {L : PyStr.Lowering}.

(** X7.  An intent the interpreter marked invalid, or whose
    plausibility is missing or below 0.1, is denied whatever the player
    and the room: with the interpreter's reason (INTERPRETER_REJECTION
    when it gave none), else with IMPLAUSIBLE. *)
Theorem unusable_intent_denied (intent : Intent) (player : Player)
        (room : Room) :
  get (valid intent) true = false
  \/ Qltb (get (plausibility intent) 0%Q) (1 # 10)%Q = true ->
  validate intent player room
  = if negb (get (valid intent) true)
    then Denied (get (reason_if_invalid intent) "INTERPRETER_REJECTION")
    else Denied "IMPLAUSIBLE".
Proof.
  intro H. unfold validate, check_valid, check_plausibility.
  destruct (get (valid intent) true); simpl; [|reflexivity].
  destruct H as [H|H]; [discriminate|]. rewrite H. reflexivity.
Qed.

(** X8.  When the action type is none of physical_attack, social,
    interact_object, or the target is null, empty or a generic
    exploration word, the verdict does not depend on the room. *)
Theorem validate_ignores_room_without_target (intent : Intent)
        (player : Player) (room1 room2 : Room) :
  mem (get (action_type intent) "") target_action_types = false
  \/ target intent = None
  \/ target intent = Some ""
  \/ (exists t, target intent = Some t
                /\ mem (lower t) exploration_targets = true) ->
  validate intent player room1 = validate intent player room2.
Proof.
  intro H.
  assert (Hc : forall room, check_target intent player room = None).
  { intro room. unfold check_target.
    destruct H as [H|[H|[H|(t & H & He)]]].
    - destruct (target intent) as [t|]; [|reflexivity].
      rewrite H, andb_false_r. reflexivity.
    - rewrite H. reflexivity.
    - rewrite H. reflexivity.
    - rewrite H, He.
      destruct (truthy t && _); reflexivity. }
  unfold validate. rewrite (Hc room1), (Hc room2). reflexivity.
Qed.

Lemma description_block_denies (intent : Intent) (room : Room) (t : string)
      (found : bool) (v : Validation) :
  description_block intent room t found = inl v ->
  v = Denied (destroyed_reason t) \/ v = Denied (fixed_reason t).
Proof.
  unfold description_block.
  destruct (room_description room) as [desc|]; [|discriminate].
  destruct (truthy desc); [|discriminate].
  destruct (fuzzy_match t (room_destroyed_objects room)).
  - intro H. injection H as <-. left. reflexivity.
  - destruct (anchor_match t desc); [|discriminate].
    cbv zeta. destruct (_ && _); [|discriminate].
    intro H. injection H as <-. right. reflexivity.
Qed.

Lemma check_target_denies (intent : Intent) (player : Player) (room : Room)
      (v : Validation) :
  check_target intent player room = Some v -> exists reason, v = Denied reason.
Proof.
  unfold check_target.
  destruct (target intent) as [t|]; [|discriminate].
  destruct (truthy t && _); [|discriminate].
  destruct (mem (lower t) exploration_targets); [discriminate|].
  cbv zeta.
  destruct (description_block _ _ _ _) as [w|[|]] eqn:Ed.
  - intro H. injection H as <-.
    apply description_block_denies in Ed.
    destruct Ed as [->| ->]; eexists; reflexivity.
  - discriminate.
  - intro H. injection H as <-. eexists. reflexivity.
Qed.

(** X9.  A method that names time_travel, summon, resurrect,
    omniscience or invincibility is never allowed: no inventory grants
    these abilities. *)
Theorem unobtainable_ability_denied (intent : Intent) (player : Player)
        (room : Room) (forbidden : string) :
  In forbidden unobtainable ->
  str_in forbidden (lower (get (method intent) "")) = true ->
  exists reason, validate intent player room = Denied reason.
Proof.
  intros Hin Hm. unfold validate, first_verdict.
  unfold check_valid. destruct (negb (get (valid intent) true));
    [eexists; reflexivity|].
  unfold check_plausibility. destruct (Qltb _ _); [eexists; reflexivity|].
  destruct (check_target intent player room) as [v|] eqn:Et.
  { apply check_target_denies in Et. exact Et. }
  unfold check_physics.
  destruct (find _ FORBIDDEN_METHODS) as [f|] eqn:Ef; [eexists; reflexivity|].
  exfalso.
  assert (HF : In forbidden FORBIDDEN_METHODS).
  { unfold unobtainable in Hin. unfold FORBIDDEN_METHODS. simpl in *.
    intuition. }
  pose proof (find_none _ _ Ef forbidden HF) as Hn.
  cbv beta in Hn. rewrite Hm in Hn.
  assert (Ha : has_ability player forbidden = false).
  { unfold has_ability.
    unfold unobtainable in Hin. simpl in Hin.
    destruct Hin as [<-|[<-|[<-|[<-|[<-|[]]]]]]; reflexivity. }
  rewrite Ha in Hn. discriminate.
Qed.

(** X10.  TARGET_NOT_PRESENT is only answered for the intent's own
    target and only when nothing matches it: no carried, worn or lying
    item, not the monster, the NPC, the palette object or a discovered
    object, and no word of the room description. *)
Theorem target_not_present_sound (intent : Intent) (player : Player)
        (room : Room) (t : string) :
  get (valid intent) true = true ->
  validate intent player room = Denied ("TARGET_NOT_PRESENT: " ++ t) ->
  target intent = Some t
  /\ name_match t (inventory player) = false
  /\ equipped_match t (equipment player) = false
  /\ name_match t (room_loot room) = false
  /\ match room_monster room with
     | Some m => str_in (lower t) (lower (monster_name m)) = false
     | None => True
     end
  /\ npc_match t (room_npc room) = false
  /\ assigned_match t (room_assigned_object room) = false
  /\ fuzzy_match t (room_discovered_objects room) = false
  /\ match room_description room with
     | Some desc => truthy desc = true -> anchor_match t desc = false
     | None => True
     end.
Proof.
  intros Hv. unfold validate, first_verdict.
  unfold check_valid. rewrite Hv. cbn [negb].
  unfold check_plausibility.
  destruct (Qltb _ _); [simpl; discriminate|].
  destruct (check_target intent player room) as [v|] eqn:Et.
  - intros ->. revert Et. unfold check_target.
    destruct (target intent) as [t0|]; [|discriminate].
    destruct (truthy t0 && _); [|discriminate].
    destruct (mem (lower t0) exploration_targets); [discriminate|].
    cbv zeta.
    destruct (description_block _ _ _ _) as [v|[|]] eqn:Ed;
      [|discriminate|].
    + intro H. injection H as ->. exfalso.
      apply description_block_denies in Ed.
      unfold destroyed_reason, fixed_reason in Ed.
      destruct Ed as [Ed|Ed]; simpl in Ed; discriminate.
    + intro H. assert (Ht : t0 = t) by (simpl in H; congruence).
      subst t0. clear H.
      revert Ed. unfold description_block.
      destruct (room_monster room) as [m|];
        destruct (name_match t (room_loot room));
        destruct (name_match t (inventory player));
        destruct (equipped_match t (equipment player));
        destruct (npc_match t (room_npc room));
        destruct (assigned_match t (room_assigned_object room));
        destruct (fuzzy_match t (room_discovered_objects room));
        try destruct (str_in (lower t) (lower (monster_name m)));
        cbn [orb];
        destruct (room_description room) as [desc|];
        try destruct (truthy desc);
        try destruct (fuzzy_match t (room_destroyed_objects room));
        try destruct (anchor_match t desc);
        repeat match goal with
               | |- context [if ?c then _ else _] => destruct c
               end;
        intro Ed; try discriminate;
        repeat split; auto; discriminate.
  - unfold check_physics. destruct (find _ FORBIDDEN_METHODS);
      [simpl; discriminate|].
    unfold check_components. destruct (find _ _); simpl; discriminate.
Qed.

End Laws.

Section Examples.

Existing Instance PyStr.western.

Lemma unusable_intent_denied_witness :
  validate (Samples.intent_of "physical_attack" (Some "goblin") "hit"
                              (5 # 100)%Q [])
           Samples.test_player Samples.test_room
  = Denied "IMPLAUSIBLE".
Proof.
  apply (unusable_intent_denied (L := PyStr.western)
           (Samples.intent_of "physical_attack" (Some "goblin") "hit"
                              (5 # 100)%Q [])
           Samples.test_player Samples.test_room).
  right. vm_compute. reflexivity.
Defined.

Lemma validate_ignores_room_without_target_witness :
  validate (Samples.intent_of "interact_object" (Some "Wand") "push"
                              (5 # 10)%Q [])
           Samples.test_player Samples.test_room
  = validate (Samples.intent_of "interact_object" (Some "Wand") "push"
                                (5 # 10)%Q [])
             Samples.test_player (Samples.chamber None None ["wand"]).
Proof.
  apply (validate_ignores_room_without_target (L := PyStr.western)
           (Samples.intent_of "interact_object" (Some "Wand") "push"
                              (5 # 10)%Q [])
           Samples.test_player Samples.test_room
           (Samples.chamber None None ["wand"])).
  right. right. right. exists "Wand". split; vm_compute; reflexivity.
Defined.

Lemma unobtainable_ability_denied_witness :
  exists reason,
    validate (Samples.intent_of "environment_action" None
                                "Summon a storm" (9 # 10)%Q [])
             Samples.test_player Samples.test_room
    = Denied reason.
Proof.
  apply (unobtainable_ability_denied (L := PyStr.western)
           (Samples.intent_of "environment_action" None
                              "Summon a storm" (9 # 10)%Q [])
           Samples.test_player Samples.test_room "summon").
  - vm_compute. right. left. reflexivity.
  - vm_compute. reflexivity.
Defined.

Lemma target_not_present_sound_witness :
  validate dragon_attack Samples.test_player Samples.test_room
  = Denied ("TARGET_NOT_PRESENT: " ++ "dragon")
  /\ target dragon_attack = Some "dragon"
  /\ name_match "dragon" (inventory Samples.test_player) = false
  /\ name_match "dragon" (room_loot Samples.test_room) = false.
Proof.
  assert (E : validate dragon_attack Samples.test_player Samples.test_room
              = Denied ("TARGET_NOT_PRESENT: " ++ "dragon"))
    by (vm_compute; reflexivity).
  split; [exact E|].
  destruct (target_not_present_sound (L := PyStr.western)
              dragon_attack Samples.test_player Samples.test_room "dragon"
              eq_refl E)
    as (Ht & Hi & _ & Hl & _).
  split; [exact Ht|]. split; [exact Hi|exact Hl].
Defined.

End Examples.
End ValidatorMore.

(** ** The grimoire *)

Module GrimoireFacts.

Import PyStr GrimoireOps GrimoireStore Views.

Section Laws.

Context {L : PyStr.Lowering}.

Lemma same_set_spec (a b : list string) :
  same_set a b = true <-> (forall x, In x a <-> In x b).
Proof.
  unfold same_set. rewrite andb_true_iff, !forallb_forall.
  split.
  - intros [H1 H2] x. split; intro H.
    + apply ValidatorFacts.mem_In. apply H1. exact H.
    + apply ValidatorFacts.mem_In. apply H2. exact H.
  - intro H. split; intros x Hx; apply ValidatorFacts.mem_In; apply H; exact Hx.
Qed.

Lemma same_set_refl (a : list string) : same_set a a = true.
Proof. apply same_set_spec. intro x. reflexivity. Qed.

Lemma spell_matches_self (s : Spell) :
  spell_matches (spell_components s) (spell_words s) s = true.
Proof.
  unfold spell_matches. rewrite same_set_refl, String.eqb_refl. reflexivity.
Qed.

Lemma spell_matches_ext (c c' : list string) (w w' : string) (s : Spell) :
  (forall x, In x c <-> In x c') -> lower w = lower w' ->
  spell_matches c w s = spell_matches c' w' s.
Proof.
  intros Hc Hw. unfold spell_matches. rewrite Hw. f_equal.
  apply eq_true_iff_eq. rewrite !same_set_spec.
  split; intros H x; rewrite (H x); [apply Hc | symmetry; apply Hc].
Qed.

Lemma find_index_ext (c c' : list string) (w w' : string) (l : list Spell) :
  (forall x, In x c <-> In x c') -> lower w = lower w' ->
  find_index c w l = find_index c' w' l.
Proof.
  intros Hc Hw. induction l as [|s l IH]; simpl; [reflexivity|].
  rewrite (spell_matches_ext c c' w w' s Hc Hw), IH. reflexivity.
Qed.

(** X12.  [find_spell] sees the components as a set and the words
    without their case: the order and repetition of components and the
    capitalisation of the words make no difference. *)
Theorem find_spell_ignores_order_and_case (g : Grimoire)
        (c c' : list string) (w w' : string) :
  (forall x, In x c <-> In x c') -> lower w = lower w' ->
  find_spell g c w = find_spell g c' w'.
Proof.
  intros Hc Hw. unfold find_spell.
  rewrite (find_index_ext c c' w w' (spells g) Hc Hw). reflexivity.
Qed.

Lemma find_index_last (s : Spell) (l : list Spell) :
  existsb (fun existing => clash existing s) l = false ->
  find_index (spell_components s) (spell_words s) (l ++ [s])
  = Some (List.length l).
Proof.
  induction l as [|a l IH]; simpl.
  - intros _. rewrite spell_matches_self. reflexivity.
  - intro H. apply orb_false_iff in H. destruct H as [Ha Hl].
    unfold clash in Ha. apply orb_false_iff in Ha. destruct Ha as [_ Ha].
    unfold spell_matches. rewrite Ha. rewrite (IH Hl). reflexivity.
Qed.

Lemma nth_error_last {A} (l : list A) (x : A) :
  nth_error (l ++ [x]) (List.length l) = Some x.
Proof. induction l; simpl; auto. Qed.

Lemma add_spell_new (g g' : Grimoire) (s : Spell) :
  add_spell g s = (true, g') ->
  existsb (fun existing => clash existing s) (spells g) = false
  /\ g' = {| spells := spells g ++ [s];
             total_discoveries := total_discoveries g + 1;
             current_run_discoveries := current_run_discoveries g + 1 |}.
Proof.
  unfold add_spell.
  change (fun existing : Spell =>
            ((spell_name existing =? spell_name s)%string
             || same_set (spell_components existing) (spell_components s)
                && (lower (spell_words existing) =? lower (spell_words s))%string))
    with (fun existing => clash existing s).
  destruct (existsb _ _); [discriminate|].
  intro H. injection H as <-. split; reflexivity.
Qed.

(** X11.  A spell that [add_spell] accepted is found again by its own
    components and words, at the end of the book; both discovery counters
    went up by one, and adding the same spell again is refused and
    changes nothing. *)
Theorem add_spell_then_find (g g' : Grimoire) (s : Spell) :
  add_spell g s = (true, g') ->
  find_spell g' (spell_components s) (spell_words s)
  = Some (List.length (spells g), s)
  /\ total_discoveries g' = total_discoveries g + 1
  /\ current_run_discoveries g' = current_run_discoveries g + 1
  /\ add_spell g' s = (false, g').
Proof.
  intro H. apply add_spell_new in H. destruct H as [Hn ->].
  split; [|split; [reflexivity|split; [reflexivity|]]].
  - unfold find_spell. cbn [spells].
    rewrite (find_index_last s (spells g) Hn), nth_error_last. reflexivity.
  - unfold add_spell. cbn [spells].
    rewrite existsb_app. cbn [existsb].
    rewrite String.eqb_refl. cbn [orb]. rewrite orb_true_r. reflexivity.
Qed.

Lemma distinct_snoc (l : list Spell) (s : Spell) :
  distinct l ->
  existsb (fun existing => clash existing s) l = false ->
  distinct (l ++ [s]).
Proof.
  induction l as [|a l IH]; simpl.
  - intros _ _. split; constructor.
  - intros [Hd Hf] H. apply orb_false_iff in H. destruct H as [Ha Hl].
    split; [apply IH; assumption|].
    apply Forall_app. split; [exact Hf|].
    constructor; [exact Ha|constructor].
Qed.

Lemma add_spell_invariant (g : Grimoire) (s : Spell) :
  distinct (spells g)
  /\ total_discoveries g - Z.of_nat (List.length (spells g))
     = 0 ->
  let g' := snd (add_spell g s) in
  distinct (spells g')
  /\ total_discoveries g' - Z.of_nat (List.length (spells g')) = 0.
Proof.
  intros [Hd Hc]. destruct (add_spell g s) as [[|] g'] eqn:E; cbn [snd].
  - apply add_spell_new in E. destruct E as [Hn ->]. cbn [spells total_discoveries].
    split; [apply distinct_snoc; assumption|].
    rewrite length_app. simpl. lia.
  - unfold add_spell in E. destruct (existsb _ _); [|discriminate].
    injection E as <-. split; assumption.
Qed.

(** X13.  A grimoire filled through [add_spell] alone never holds two
    spells with the same name or with the same components and words, and
    its discovery counter equals the number of its spells. *)
Theorem learned_spells_distinct (l : list Spell) :
  let g := learn_all (mkGrimoire [] 0 0) l in
  distinct (spells g)
  /\ total_discoveries g = Z.of_nat (List.length (spells g))
  /\ (List.length (spells g) <= List.length l)%nat.
Proof.
  cbv zeta.
  assert (H : forall l g,
             distinct (spells g)
             /\ total_discoveries g - Z.of_nat (List.length (spells g)) = 0 ->
             distinct (spells (learn_all g l))
             /\ total_discoveries (learn_all g l)
                - Z.of_nat (List.length (spells (learn_all g l))) = 0
             /\ (List.length (spells (learn_all g l))
                 <= List.length (spells g) + List.length l)%nat).
  { clear l. induction l as [|s l IH]; intros g Hg.
    - simpl. destruct Hg. repeat split; auto; lia.
    - unfold learn_all. cbn [fold_left].
      pose proof (add_spell_invariant g s Hg) as Hi. cbv zeta in Hi.
      destruct (IH _ Hi) as (H1 & H2 & H3).
      split; [exact H1|]. split; [exact H2|].
      unfold learn_all in H3.
      assert (Hl : (List.length (spells (snd (add_spell g s)))
                    <= S (List.length (spells g)))%nat).
      { unfold add_spell. destruct (existsb _ _); cbn [snd spells].
        - lia.
        - rewrite length_app. simpl. lia. }
      simpl. lia. }
  destruct (H l (mkGrimoire [] 0 0)) as (H1 & H2 & H3).
  { simpl. split; [exact I|reflexivity]. }
  split; [exact H1|]. split; [lia|]. simpl in H3. exact H3.
Qed.

Lemma spell_round_trip (s : Spell) :
  spell_from_dict (spell_to_dict s) = Returned s.
Proof. destruct s. reflexivity. Qed.

Lemma spells_round_trip (l : list Spell) :
  spells_from_dicts (map spell_to_dict l) = Returned l.
Proof.
  induction l as [|s l IH]; [reflexivity|].
  cbn [map spells_from_dicts]. rewrite spell_round_trip, IH. reflexivity.
Qed.

(** X14.  Saving and loading a grimoire gives it back:
    [Grimoire.from_dict(g.to_dict())] equals [g], spells included. *)
Theorem grimoire_round_trip (g : Grimoire) :
  grimoire_from_dict (grimoire_to_dict g) = Returned g.
Proof.
  destruct g as [l t c]. unfold grimoire_from_dict, grimoire_to_dict.
  cbn [gd_spells gd_total_discoveries gd_current_run_discoveries get spells
       total_discoveries current_run_discoveries].
  rewrite spells_round_trip. reflexivity.
Qed.

End Laws.

Section Examples.

Existing Instance PyStr.western.

Lemma find_spell_ignores_order_and_case_witness :
  find_spell (mkGrimoire [Samples.flame_burst] 1 1)
             ["Rubinstaub"; "Rubinstaub"] "IGNIS Maxima"
  = find_spell (mkGrimoire [Samples.flame_burst] 1 1)
               ["Rubinstaub"] "ignis maxima".
Proof.
  apply (find_spell_ignores_order_and_case (L := PyStr.western)
           (mkGrimoire [Samples.flame_burst] 1 1)
           ["Rubinstaub"; "Rubinstaub"] ["Rubinstaub"]
           "IGNIS Maxima" "ignis maxima").
  - intro x. simpl. tauto.
  - vm_compute. reflexivity.
Defined.

Lemma add_spell_then_find_witness :
  find_spell (mkGrimoire [Samples.flame_burst] 1 1)
             (spell_components Samples.flame_burst)
             (spell_words Samples.flame_burst)
  = Some (List.length (spells (mkGrimoire [] 0 0)), Samples.flame_burst)
  /\ total_discoveries (mkGrimoire [Samples.flame_burst] 1 1)
     = total_discoveries (mkGrimoire [] 0 0) + 1
  /\ current_run_discoveries (mkGrimoire [Samples.flame_burst] 1 1)
     = current_run_discoveries (mkGrimoire [] 0 0) + 1
  /\ add_spell (mkGrimoire [Samples.flame_burst] 1 1) Samples.flame_burst
     = (false, mkGrimoire [Samples.flame_burst] 1 1).
Proof.
  apply (add_spell_then_find (L := PyStr.western)
           (mkGrimoire [] 0 0) (mkGrimoire [Samples.flame_burst] 1 1)
           Samples.flame_burst).
  vm_compute. reflexivity.
Defined.

End Examples.
End GrimoireFacts.

(** ** Doors *)

Module DoorFacts.

Import PyStr Doors Scenes.

(** X15.  Saving and loading a door gives it back:
    [Door.from_dict(d.to_dict())] equals [d]. *)
Theorem door_round_trip (d : Door) : from_dict (to_dict d) = Returned d.
Proof. destruct d as [[] [] k]; reflexivity. Qed.

Lemma apply_op_frame (d : Door) (op : DoorOp) :
  door_direction (apply_op d op) = door_direction d
  /\ door_key_id (apply_op d op) = door_key_id d
  /\ (is_passable d = true -> is_passable (apply_op d op) = true).
Proof.
  destruct d as [dir st k]. destruct op as [key|]; unfold apply_op, unlock, open, is_locked, is_passable;
    destruct st; cbn; try (repeat split; auto; discriminate).
  destruct k as [k|]; cbn; [|repeat split; auto].
  destruct (truthy k && option_string_eqb key (Some k)); cbn; repeat split; auto.
Qed.

(** X16.  Whatever sequence of [unlock] and [open] calls a door
    receives, its direction and key id stay, and a door that can be
    passed can be passed ever after: nothing locks a door again. *)
Theorem passable_door_stays_passable (ops : list DoorOp) (d : Door) :
  let d' := fold_left apply_op ops d in
  door_direction d' = door_direction d
  /\ door_key_id d' = door_key_id d
  /\ (is_passable d = true -> is_passable d' = true).
Proof.
  revert d. induction ops as [|op ops IH]; intro d; cbn [fold_left].
  - repeat split; auto.
  - destruct (IH (apply_op d op)) as (H1 & H2 & H3).
    destruct (apply_op_frame d op) as (F1 & F2 & F3).
    cbv zeta. rewrite H1, H2. repeat split; auto.
Qed.

(** X17.  A locked door stays exactly as it is under every sequence of
    [open] and [unlock] calls that never presents its own non-empty key
    id; in particular a locked door without key id cannot be unlocked. *)
Theorem locked_door_needs_its_key (ops : list DoorOp) (d : Door) :
  is_locked d = true ->
  (forall k, In (Unlock (Some k)) ops ->
             door_key_id d <> Some k \/ k = "") ->
  fold_left apply_op ops d = d.
Proof.
  intros Hl. induction ops as [|op ops IH]; intro H; cbn [fold_left];
    [reflexivity|].
  assert (Hop : apply_op d op = d).
  { destruct op as [key|]; unfold apply_op, unlock, open.
    - rewrite Hl. cbn [negb].
      destruct (door_key_id d) as [k|] eqn:Ek; [|reflexivity].
      destruct (truthy k && option_string_eqb key (Some k)) eqn:E;
        [|reflexivity].
      exfalso. apply andb_true_iff in E. destruct E as [Et Ee].
      destruct key as [k'|]; [|discriminate]. simpl in Ee.
      apply String.eqb_eq in Ee. subst k'.
      destruct (H k (or_introl eq_refl)) as [Hk|Hk].
      + apply Hk. reflexivity.
      + subst k. discriminate.
    - rewrite Hl. reflexivity. }
  rewrite Hop. apply IH. intros k Hk. apply H. right. exact Hk.
Qed.

Lemma locked_door_needs_its_key_witness :
  fold_left apply_op
            [Open; Unlock (Some "golden_key"); Unlock None; Unlock (Some "")]
            locked_north
  = locked_north.
Proof.
  apply (locked_door_needs_its_key
           [Open; Unlock (Some "golden_key"); Unlock None; Unlock (Some "")]
           locked_north).
  - reflexivity.
  - intros k [H|[H|[H|[H|[]]]]]; try discriminate.
    + injection H as <-. left. discriminate.
    + injection H as <-. right. reflexivity.
Defined.

End DoorFacts.

(** ** The direct door handler *)

Module DoorHandlerFacts.

Import PyStr Doors DoorHandler Scenes.

Section Laws.

Context {L : PyStr.Lowering}.

Lemma Direction_eqb_eq (a b : Direction) : Direction_eqb a b = true <-> a = b.
Proof. destruct a, b; simpl; split; intro H; congruence. Qed.

Lemma Direction_eqb_refl (a : Direction) : Direction_eqb a a = true.
Proof. destruct a; reflexivity. Qed.

Lemma lookup_update_same {V} (dir : Direction) (f : V -> V)
      (d : list (Direction * V)) :
  lookup dir (update dir f d) = option_map f (lookup dir d).
Proof.
  unfold lookup. induction d as [|[k v] d IH]; [reflexivity|].
  cbn [update find fst snd].
  destruct (Direction_eqb k dir) eqn:E; cbn [find fst snd].
  - rewrite E. reflexivity.
  - rewrite E. exact IH.
Qed.

Lemma lookup_update_other {V} (dir dir' : Direction) (f : V -> V)
      (d : list (Direction * V)) :
  dir' <> dir -> lookup dir' (update dir f d) = lookup dir' d.
Proof.
  intro Hne. unfold lookup. induction d as [|[k v] d IH]; [reflexivity|].
  cbn [update find fst snd].
  destruct (Direction_eqb k dir) eqn:E; cbn [find fst snd].
  - apply Direction_eqb_eq in E. subst k.
    destruct (Direction_eqb dir dir') eqn:E'; [|reflexivity].
    apply Direction_eqb_eq in E'. congruence.
  - destruct (Direction_eqb k dir'); [reflexivity|exact IH].
Qed.

Lemma update_keys {V} (dir : Direction) (f : V -> V)
      (d : list (Direction * V)) :
  map fst (update dir f d) = map fst d.
Proof.
  induction d as [|[k v] d IH]; [reflexivity|].
  cbn [update fst snd]. destruct (Direction_eqb k dir); cbn [map fst].
  - reflexivity.
  - rewrite IH. reflexivity.
Qed.

Lemma update_id {V} (dir : Direction) (f : V -> V) (d : list (Direction * V)) :
  (forall v, lookup dir d = Some v -> f v = v) -> update dir f d = d.
Proof.
  unfold lookup. induction d as [|[k v] d IH]; [reflexivity|].
  cbn [update find fst snd]. intro H.
  destruct (Direction_eqb k dir) eqn:E.
  - rewrite (H v eq_refl). reflexivity.
  - rewrite IH; [reflexivity|exact H].
Qed.

Lemma option_string_eqb_eq (a b : option string) :
  option_string_eqb a b = true <-> a = b.
Proof.
  destruct a as [x|], b as [y|]; simpl; split; intro H; try congruence.
  - apply String.eqb_eq in H. congruence.
  - injection H as ->. apply String.eqb_refl.
Qed.

Lemma matching_key_first (inv : list Item) (door : Door) (a : string) :
  matching_key inv door a
  = find (fun item => option_string_eqb (item_key_id item) (door_key_id door))
         inv.
Proof.
  unfold matching_key.
  destruct (find (fun item => option_string_eqb (item_key_id item)
                                                (door_key_id door)) inv)
    as [item|] eqn:E; [reflexivity|].
  match goal with
  | |- find ?f inv = None => destruct (find f inv) as [item|] eqn:E2
  end; [|reflexivity].
  apply find_some in E2. destruct E2 as [Hin He].
  apply andb_true_iff in He. destruct He as [_ He].
  pose proof (find_none _ _ E item Hin) as Hn. cbv beta in Hn. congruence.
Qed.

Lemma list_remove_length (x : Item) (l : list Item) :
  In x l -> S (List.length (list_remove x l)) = List.length l.
Proof.
  induction l as [|y l IH]; [intros []|].
  intro H. cbn [list_remove].
  destruct (Item_eqb x y) eqn:E; [reflexivity|].
  destruct H as [H|H].
  - subst y. assert (Item_eqb x x = true)
      by (apply OrchestratorFacts.Item_eqb_eq; reflexivity). congruence.
  - cbn [List.length]. rewrite IH; auto.
Qed.

(** X18.  What [_handle_door_action] leaves alone.  When it answers
    False nothing changed.  The room keeps its doors' directions, only
    the targeted door can change, and no passable door becomes
    impassable.  The inventory stays as it is or loses exactly one item:
    one whose key id equals that of the targeted door, which was
    locked. *)
Theorem handle_door_action_frame (sc : Scene) (a : string) :
  let r := handle_door_action sc a in
  (fst r = false -> snd r = sc)
  /\ map fst (sc_doors (snd r)) = map fst (sc_doors sc)
  /\ (forall dir, target_direction a (sc_doors sc) <> Some dir ->
                  lookup dir (sc_doors (snd r)) = lookup dir (sc_doors sc))
  /\ (forall dir door, lookup dir (sc_doors sc) = Some door ->
                       is_passable door = true ->
                       exists door', lookup dir (sc_doors (snd r)) = Some door'
                                     /\ is_passable door' = true)
  /\ (sc_inventory (snd r) = sc_inventory sc
      \/ exists key dir door,
          target_direction a (sc_doors sc) = Some dir
          /\ lookup dir (sc_doors sc) = Some door
          /\ is_locked door = true
          /\ In key (sc_inventory sc)
          /\ item_key_id key = door_key_id door
          /\ sc_inventory (snd r) = list_remove key (sc_inventory sc)).
Proof.
  assert (Hsame : forall h,
             (fst (h, sc) = false -> snd (h, sc) = sc)
             /\ map fst (sc_doors (snd (h, sc))) = map fst (sc_doors sc)
             /\ (forall dir, target_direction a (sc_doors sc) <> Some dir ->
                             lookup dir (sc_doors (snd (h, sc)))
                             = lookup dir (sc_doors sc))
             /\ (forall dir door,
                    lookup dir (sc_doors sc) = Some door ->
                    is_passable door = true ->
                    exists door', lookup dir (sc_doors (snd (h, sc))) = Some door'
                                  /\ is_passable door' = true)
             /\ (sc_inventory (snd (h, sc)) = sc_inventory sc
                 \/ exists key dir door,
                     target_direction a (sc_doors sc) = Some dir
                     /\ lookup dir (sc_doors sc) = Some door
                     /\ is_locked door = true
                     /\ In key (sc_inventory sc)
                     /\ item_key_id key = door_key_id door
                     /\ sc_inventory (snd (h, sc))
                        = list_remove key (sc_inventory sc))).
  { intro h. cbn [fst snd]. repeat split; auto. intros dir door H1 H2.
    exists door. auto. }
  cbv zeta. unfold handle_door_action.
  destruct (target_direction a (sc_doors sc)) as [dir|] eqn:Et;
    [|apply Hsame].
  destruct (lookup dir (sc_doors sc)) as [door|] eqn:El; [|apply Hsame].
  assert (Hpass : forall f,
             (forall d, is_passable d = true -> is_passable (f d) = true) ->
             forall dir' door',
               lookup dir' (sc_doors sc) = Some door' ->
               is_passable door' = true ->
               exists door'', lookup dir' (update dir f (sc_doors sc))
                              = Some door''
                              /\ is_passable door'' = true).
  { intros f Hf dir' door' H1 H2.
    destruct (Direction_eqb dir dir') eqn:E.
    - apply Direction_eqb_eq in E. subst dir'.
      rewrite lookup_update_same, H1. cbn. eexists. split; [reflexivity|].
      apply Hf. exact H2.
    - rewrite lookup_update_other.
      + exists door'. auto.
      + intro Heq. subst dir'. rewrite Direction_eqb_refl in E.
        discriminate. }
  destruct (door_state door) eqn:Es; [apply Hsame| |].
  - cbn [fst snd sc_doors sc_inventory].
    split; [discriminate|]. split; [apply update_keys|].
    split; [|split].
    + intros dir' Hd. apply lookup_update_other. congruence.
    + apply Hpass. intros d. unfold open, is_locked, is_passable.
      destruct (door_state d) eqn:Ed; cbn; rewrite ?Ed; auto; discriminate.
    + left. reflexivity.
  - rewrite matching_key_first.
    destruct (find _ (sc_inventory sc)) as [key|] eqn:Ek; [|apply Hsame].
    cbn [fst snd sc_doors sc_inventory].
    split; [discriminate|]. split; [apply update_keys|].
    split; [|split].
    + intros dir' Hd. apply lookup_update_other. congruence.
    + apply Hpass. intros d. unfold unlock, is_locked, is_passable.
      destruct (door_state d) eqn:Ed; cbn; rewrite ?Ed; auto; discriminate.
    + right. exists key, dir, door.
      apply find_some in Ek. destruct Ek as [Hin He].
      apply option_string_eqb_eq in He.
      unfold is_locked. rewrite Es. auto 10.
Qed.

(** X19.  With a key for it in the inventory, naming the direction of
    a locked door twice first unlocks it (the door is then closed, one
    key is gone, and the mirror door of the neighbouring room is
    unlocked as well) and then opens it, without using anything
    more. *)
Theorem key_unlocks_then_opens (sc : Scene) (a : string) (dir : Direction)
        (door : Door) (k : string) (key : Item) :
  named_direction a = Some dir ->
  lookup dir (sc_doors sc) = Some door ->
  door_state door = LOCKED ->
  door_key_id door = Some k -> k <> "" ->
  In key (sc_inventory sc) -> item_key_id key = Some k ->
  let r1 := handle_door_action sc a in
  let r2 := handle_door_action (snd r1) a in
  fst r1 = true /\ fst r2 = true
  /\ lookup dir (sc_doors (snd r1)) = Some (with_state door CLOSED)
  /\ lookup dir (sc_doors (snd r2)) = Some (with_state door OPEN)
  /\ S (List.length (sc_inventory (snd r1))) = List.length (sc_inventory sc)
  /\ sc_inventory (snd r2) = sc_inventory (snd r1)
  /\ (forall rooms mdoor,
         lookup dir (sc_neighbours sc) = Some rooms ->
         lookup (mirror dir) rooms = Some mdoor ->
         door_state mdoor = LOCKED -> door_key_id mdoor = Some k ->
         exists rooms',
           lookup dir (sc_neighbours (snd r1)) = Some rooms'
           /\ lookup (mirror dir) rooms' = Some (with_state mdoor CLOSED)).
Proof.
  intros Hn Hl Hs Hk Hne Hin Hkey. cbv zeta.
  assert (Ht : forall doors, target_direction a doors = Some dir).
  { intro doors. unfold target_direction. rewrite Hn. reflexivity. }
  destruct (find (fun item => option_string_eqb (item_key_id item)
                                                (door_key_id door))
                 (sc_inventory sc)) as [key0|] eqn:Ef.
  2:{ exfalso. pose proof (find_none _ _ Ef key Hin) as Hf. cbv beta in Hf.
      rewrite Hkey, Hk in Hf. simpl in Hf. rewrite String.eqb_refl in Hf.
      discriminate. }
  assert (E1 : handle_door_action sc a
               = (true,
                  {| sc_inventory := list_remove key0 (sc_inventory sc);
                     sc_doors :=
                       update dir
                              (fun d => snd (unlock d (item_key_id key0)))
                              (sc_doors sc);
                     sc_neighbours :=
                       unlock_mirror dir (item_key_id key0)
                                     (sc_neighbours sc) |})).
  { unfold handle_door_action.
    rewrite (Ht (sc_doors sc)), Hl, Hs, matching_key_first, Ef.
    reflexivity. }
  apply find_some in Ef. destruct Ef as [Hin0 He0].
  apply option_string_eqb_eq in He0. rewrite Hk in He0.
  assert (Hu : forall d, door_state d = LOCKED -> door_key_id d = Some k ->
                         snd (unlock d (item_key_id key0))
                         = with_state d CLOSED).
  { intros d Hd1 Hd2. unfold unlock, is_locked. rewrite Hd1, Hd2, He0. cbn.
    rewrite String.eqb_refl. destruct k; [congruence|]. reflexivity. }
  assert (Hl1 : lookup dir
                  (update dir (fun d => snd (unlock d (item_key_id key0)))
                          (sc_doors sc))
                = Some (with_state door CLOSED)).
  { rewrite lookup_update_same, Hl. cbn. rewrite (Hu door Hs Hk).
    reflexivity. }
  rewrite E1. cbn [fst snd].
  match goal with
  | |- context [handle_door_action ?s a] =>
      assert (E2 : handle_door_action s a
                   = (true,
                      {| sc_inventory := sc_inventory s;
                         sc_doors :=
                           update dir (fun d => snd (open d)) (sc_doors s);
                         sc_neighbours := sc_neighbours s |}))
  end.
  { unfold handle_door_action. cbn [sc_doors sc_inventory sc_neighbours].
    rewrite Ht, Hl1. reflexivity. }
  rewrite E2. cbn [fst snd sc_doors sc_inventory sc_neighbours].
  split; [reflexivity|]. split; [reflexivity|]. split; [exact Hl1|].
  split.
  { rewrite lookup_update_same, Hl1. reflexivity. }
  split; [apply list_remove_length; exact Hin0|].
  split; [reflexivity|].
  intros rooms mdoor Hr Hm Hms Hmk.
  unfold unlock_mirror. rewrite lookup_update_same, Hr. cbn.
  eexists. split; [reflexivity|].
  rewrite lookup_update_same, Hm. cbn. rewrite (Hu mdoor Hms Hmk).
  reflexivity.
Qed.

(** X20.  A locked door that carries no key id (generation always
    gives one, [Door.from_dict] does not require it) takes the first
    inventory item when that item has no key id either: the item is
    removed and the door stays locked, since the key search compares the
    ids with [==] and None equals None. *)
Theorem keyless_lock_consumes_item (sc : Scene) (a : string)
        (dir : Direction) (door : Door) (item : Item) (rest : list Item) :
  target_direction a (sc_doors sc) = Some dir ->
  lookup dir (sc_doors sc) = Some door ->
  door_state door = LOCKED -> door_key_id door = None ->
  sc_inventory sc = item :: rest -> item_key_id item = None ->
  handle_door_action sc a
  = (true, {| sc_inventory := rest;
              sc_doors := sc_doors sc;
              sc_neighbours := sc_neighbours sc |}).
Proof.
  intros Ht Hl Hs Hk Hinv Hi. unfold handle_door_action.
  rewrite Ht, Hl, Hs, matching_key_first, Hinv. cbn [find].
  rewrite Hi, Hk. cbn [option_string_eqb].
  assert (Hu : forall d, snd (unlock d None) = d).
  { intro d. unfold unlock. destruct (negb (is_locked d)); [reflexivity|].
    destruct (door_key_id d) as [k|]; [|reflexivity].
    cbn. rewrite andb_false_r. reflexivity. }
  f_equal. f_equal.
  - cbn [list_remove].
    assert (Item_eqb item item = true)
      by (apply OrchestratorFacts.Item_eqb_eq; reflexivity).
    rewrite H. reflexivity.
  - apply update_id. intros v _. rewrite Hi. apply Hu.
  - unfold unlock_mirror. apply update_id. intros v _.
    apply update_id. intros d _. rewrite Hi. apply Hu.
Qed.

End Laws.

Section Examples.

Existing Instance PyStr.western.

Lemma key_unlocks_then_opens_witness :
  let r1 := handle_door_action hall "unlock the north door" in
  let r2 := handle_door_action (snd r1) "unlock the north door" in
  fst r1 = true /\ fst r2 = true
  /\ lookup NORTH (sc_doors (snd r1)) = Some (with_state locked_north CLOSED)
  /\ lookup NORTH (sc_doors (snd r2)) = Some (with_state locked_north OPEN)
  /\ S (List.length (sc_inventory (snd r1)))
     = List.length (sc_inventory hall)
  /\ sc_inventory (snd r2) = sc_inventory (snd r1).
Proof.
  destruct (key_unlocks_then_opens (L := PyStr.western)
              hall "unlock the north door" NORTH locked_north "rusty_key"
              rusty_key)
    as (H1 & H2 & H3 & H4 & H5 & H6 & _).
  - vm_compute. reflexivity.
  - vm_compute. reflexivity.
  - reflexivity.
  - reflexivity.
  - discriminate.
  - simpl. auto.
  - reflexivity.
  - repeat split; assumption.
Defined.

Lemma keyless_lock_consumes_item_witness :
  handle_door_action vault "open the door"
  = (true, {| sc_inventory := [];
              sc_doors := sc_doors vault;
              sc_neighbours := sc_neighbours vault |}).
Proof.
  apply (keyless_lock_consumes_item (L := PyStr.western)
           vault "open the door" EAST keyless_door sword []).
  - vm_compute. reflexivity.
  - vm_compute. reflexivity.
  - reflexivity.
  - reflexivity.
  - reflexivity.
  - reflexivity.
Defined.

End Examples.
End DoorHandlerFacts.

(** ** Target location, crafting materials, hidden key *)

Module ContextFacts.

Import PyStr ActionValidator ResolverContext HiddenKey Orchestrator Views Scenes.

Section Laws.

Context {L : PyStr.Lowering}.

(** X21.  [_determine_target_location] answers one of inventory,
    equipped, room, environment.  A target that names a carried item is
    in the inventory whatever is worn or lies in the room; one that names
    only a worn item is equipped; and environment is only answered when
    no carried, worn or lying item and not the monster carries the
    target in its name. *)
Theorem target_location_priority (t : string) (player : Player)
        (room : Room) :
  truthy t = true ->
  let loc := _determine_target_location (Some t) player room in
  In loc ["inventory"; "equipped"; "room"; "environment"]
  /\ (name_match t (inventory player) = true -> loc = "inventory")
  /\ (name_match t (inventory player) = false ->
      equipped_match t (equipment player) = true -> loc = "equipped")
  /\ (loc = "environment" ->
      name_match t (inventory player) = false
      /\ equipped_match t (equipment player) = false
      /\ name_match t (room_loot room) = false
      /\ match room_monster room with
         | Some m => str_in (lower t) (lower (monster_name m)) = false
         | None => True
         end).
Proof.
  intro Ht. cbv zeta. unfold _determine_target_location. rewrite Ht.
  cbn [negb].
  change (existsb (fun item => str_in (lower t) (lower (item_name item)))
                  (inventory player))
    with (name_match t (inventory player)).
  change (existsb (fun item => str_in (lower t) (lower (item_name item)))
                  (room_loot room))
    with (name_match t (room_loot room)).
  change (existsb _ (equipment player))
    with (equipped_match t (equipment player)).
  destruct (name_match t (inventory player)).
  { split; [simpl; auto|]. repeat split; auto; discriminate. }
  destruct (equipped_match t (equipment player)).
  { split; [simpl; auto|]. repeat split; auto; discriminate. }
  destruct (name_match t (room_loot room)).
  { split; [simpl; auto|]. repeat split; auto; discriminate. }
  destruct (room_monster room) as [m|].
  - destruct (str_in (lower t) (lower (monster_name m))).
    { split; [simpl; auto|]. repeat split; auto; discriminate. }
    destruct (match room_npc room with Some _ => _ | None => _ end).
    + split; [simpl; auto|]. repeat split; auto; discriminate.
    + split; [simpl; auto 6|]. repeat split; auto; discriminate.
  - destruct (match room_npc room with Some _ => _ | None => _ end).
    + split; [simpl; auto|]. repeat split; auto; discriminate.
    + split; [simpl; auto 6|]. repeat split; auto; discriminate.
Qed.

Lemma material_keywords_nodup : NoDup material_keywords.
Proof.
  assert (H : nodup string_dec material_keywords = material_keywords)
    by (vm_compute; reflexivity).
  rewrite <- H. apply NoDup_nodup.
Qed.

Lemma add_from_description_spec (desc : string) (kws acc : list string) :
  NoDup acc ->
  NoDup (fold_left
           (fun acc keyword =>
              if str_in keyword desc && negb (mem keyword acc)
              then (acc ++ [keyword])%list else acc) kws acc)
  /\ forall k,
      In k (fold_left
              (fun acc keyword =>
                 if str_in keyword desc && negb (mem keyword acc)
                 then (acc ++ [keyword])%list else acc) kws acc)
      <-> In k acc \/ (In k kws /\ str_in k desc = true).
Proof.
  revert acc. induction kws as [|kw kws IH]; intros acc Hnd; cbn [fold_left].
  - split; [exact Hnd|]. intro k. cbn [In]. tauto.
  - destruct (str_in kw desc) eqn:Es; cbn [andb].
    + destruct (mem kw acc) eqn:Em; cbn [negb].
      * destruct (IH acc Hnd) as [H1 H2]. split; [exact H1|].
        intro k. apply ValidatorFacts.mem_In in Em.
        split.
        -- intro H. apply H2 in H. cbn [In]. tauto.
        -- intro H. apply H2. cbn [In] in H.
           destruct H as [H|[[H|H] Hs]]; auto. subst k. auto.
      * assert (Hnd' : NoDup (acc ++ [kw])).
        { apply ValidatorFacts.mem_false in Em.
          apply NoDup_app; [exact Hnd|repeat constructor; simpl; tauto|].
          intros x Hx [Hk|[]]. subst x. contradiction. }
        destruct (IH _ Hnd') as [H1 H2]. split; [exact H1|].
        intro k. split.
        -- intro H. apply H2 in H. rewrite in_app_iff in H. cbn [In] in *.
           destruct H as [[H|[H|[]]]|H]; auto; try tauto.
           subst k. auto.
        -- intro H. apply H2. rewrite in_app_iff. cbn [In] in *.
           destruct H as [H|[[H|H] Hs]]; auto.
    + destruct (IH acc Hnd) as [H1 H2]. split; [exact H1|].
      intro k. split.
      * intro H. apply H2 in H. cbn [In]. tauto.
      * intro H. apply H2. cbn [In] in H.
        destruct H as [H|[[H|H] Hs]]; auto. subst k. congruence.
Qed.

Section Descriptions.

(** A law of [str.lower]: the empty text stays empty. *)
Hypothesis lower_empty : lower "" = "".

(** X22.  The materials [_generate_crafted_item] hands to the
    generator hold no duplicate and are exactly the material keywords
    that occur in the lowercased action or in the lowercased room
    description. *)
Theorem crafting_materials_spec (action : string) (room : Room) :
  NoDup (crafting_materials action room)
  /\ forall k,
      In k (crafting_materials action room)
      <-> In k material_keywords
          /\ (str_in k (lower action) = true
              \/ exists desc, room_description room = Some desc
                              /\ str_in k (lower desc) = true).
Proof.
  unfold crafting_materials. cbv zeta.
  set (from_action :=
         filter (fun keyword => str_in keyword (lower action))
                material_keywords).
  assert (Hnd : NoDup from_action)
    by (apply NoDup_filter, material_keywords_nodup).
  assert (Hin : forall k, In k from_action
                          <-> In k material_keywords
                              /\ str_in k (lower action) = true)
    by (intro k;
        exact (filter_In (fun keyword => str_in keyword (lower action))
                         k material_keywords)).
  destruct (room_description room) as [desc|].
  - destruct (truthy desc) eqn:Et.
    + unfold add_from_description.
      destruct (add_from_description_spec (lower desc) material_keywords
                                          from_action Hnd) as [H1 H2].
      split; [exact H1|]. intro k. rewrite H2, Hin.
      split.
      * intros [[Hk Ha]|[Hk Hd]]; split; auto. right. exists desc. auto.
      * intros [Hk [Ha|(d & Hd & Hs)]]; [left; auto|].
        injection Hd as <-. right. auto.
    + split; [exact Hnd|]. intro k. rewrite Hin.
      split; [intros [Hk Ha]; auto|].
      intros [Hk [Ha|(d & Hd & Hs)]]; [auto|].
      injection Hd as <-. destruct desc; [|discriminate].
      split; [exact Hk|]. exfalso.
      assert (Hkn : In k material_keywords -> k <> "").
      { clear. intros H ->. revert H. vm_compute. intuition discriminate. }
      apply (Hkn Hk). rewrite lower_empty in Hs. simpl in Hs.
      destruct k; [reflexivity|discriminate].
  - split; [exact Hnd|]. intro k. rewrite Hin.
    split; [intros [Hk Ha]; auto|].
    intros [Hk [Ha|(d & Hd & Hs)]]; [auto|discriminate].
Qed.

End Descriptions.

(** X23.  The hidden key of a room is found at most once: the step
    that hands it out moves it from the room to the end of the inventory
    (no item is lost or duplicated), happens only on a successful
    interact_object action, and repeating the step changes nothing
    more. *)
Theorem hidden_key_found_once (game : Game) (action : string)
        (result : Result) :
  let g1 := find_hidden_key game action result in
  find_hidden_key g1 action result = g1
  /\ (inventory (g_player g1) ++ as_list (room_hidden_key (g_room g1)))%list
     = (inventory (g_player game)
        ++ as_list (room_hidden_key (g_room game)))%list
  /\ (g1 = game
      \/ (room_hidden_key (g_room g1) = None
          /\ res_success result = true
          /\ action_type (res_intent result) = Some "interact_object")).
Proof.
  cbv zeta. unfold find_hidden_key.
  destruct (res_success result
            && option_string_eqb (action_type (res_intent result))
                                 (Some "interact_object")
            && any_in key_search_keywords (lower action)) eqn:Ec;
    [|repeat split; auto].
  destruct (room_hidden_key (g_room game)) as [key|] eqn:Eh.
  - unfold with_room, with_player, set_hidden_key, set_inventory.
    cbn [g_room g_player room_hidden_key inventory as_list].
    split; [reflexivity|]. split; [rewrite app_nil_r; reflexivity|].
    right. split; [reflexivity|].
    apply andb_true_iff in Ec. destruct Ec as [Ec _].
    apply andb_true_iff in Ec. destruct Ec as [Es Ea].
    split; [exact Es|].
    destruct (action_type (res_intent result)) as [ty|]; [|discriminate].
    simpl in Ea. apply String.eqb_eq in Ea. congruence.
  - rewrite Eh. repeat split; auto.
Qed.

End Laws.

Section Examples.

Existing Instance PyStr.western.

Lemma crafting_materials_spec_witness :
  NoDup (crafting_materials "schmiede Eisen und Holz" Samples.test_room)
  /\ forall k,
      In k (crafting_materials "schmiede Eisen und Holz" Samples.test_room)
      <-> In k material_keywords
          /\ (str_in k (lower "schmiede Eisen und Holz") = true
              \/ exists desc,
                  room_description Samples.test_room = Some desc
                  /\ str_in k (lower desc) = true).
Proof.
  exact (crafting_materials_spec (L := PyStr.western) eq_refl
           "schmiede Eisen und Holz" Samples.test_room).
Defined.

Lemma target_location_priority_witness :
  _determine_target_location
    (Some "Schwert") (Samples.hero [sword] [])
    (set_loot Samples.test_room [sword])
  = "inventory".
Proof.
  destruct (target_location_priority (L := PyStr.western)
              "Schwert" (Samples.hero [sword] [])
              (set_loot Samples.test_room [sword]) eq_refl)
    as (_ & H & _).
  apply H. vm_compute. reflexivity.
Defined.

End Examples.
End ContextFacts.

(** ** The player after an action *)

Module VitalsFacts.

Import PyStr Orchestrator Views Scenes.

Section Laws.

Context {L : PyStr.Lowering}.

Lemma check_level_up_vitals (p : Player) :
  sound_vitals p ->
  sound_vitals (check_level_up p) /\ advanced p (check_level_up p)
  /\ inventory (check_level_up p) = inventory p.
Proof.
  unfold sound_vitals, advanced, check_level_up. intros [Hh Hx].
  destruct p as [at_ h mh a d g x l b inv eq gr gf mo].
  cbn [attributes hp max_hp attack defense gold xp level buffs inventory
       equipment grimoire gift morality] in *.
  generalize (100 * l ^ 2). intro n.
  destruct (x >=? n) eqn:E;
    cbn [attributes hp max_hp attack defense gold xp level buffs inventory
         equipment grimoire gift morality];
    repeat split; try reflexivity; try lia.
Qed.

Lemma advanced_refl (p : Player) : advanced p p.
Proof. unfold advanced. repeat split; try reflexivity; lia. Qed.

Lemma apply_impact_vitals (impact : Impact) (p : Player) :
  sound_vitals p ->
  sound_vitals (apply_impact impact p) /\ advanced p (apply_impact impact p).
Proof.
  intros Hv. unfold apply_impact.
  set (p1 := if imp_hp impact =? 0 then p
             else set_hp p (Z.max 0 (Z.min (max_hp p) (hp p + imp_hp impact)))).
  assert (H1 : sound_vitals p1 /\ advanced p p1 /\ level p1 = level p).
  { unfold p1. destruct (imp_hp impact =? 0);
      [split; [exact Hv|split; [apply advanced_refl|reflexivity]]|].
    unfold sound_vitals, advanced in *. unfold set_hp.
    cbn [attributes hp max_hp attack defense gold xp level buffs inventory
         equipment grimoire gift morality].
    repeat split; try reflexivity; lia. }
  clearbody p1. destruct H1 as (V1 & A1 & L1).
  set (p2 := if imp_gold impact >? 0 then set_gold p1 (gold p1 + imp_gold impact)
             else p1).
  assert (H2 : sound_vitals p2 /\ advanced p p2 /\ level p2 = level p).
  { unfold p2. destruct (imp_gold impact >? 0) eqn:Eg;
      [|split; [|split]; assumption].
    unfold sound_vitals, advanced in *. unfold set_gold.
    cbn [attributes hp max_hp attack defense gold xp level buffs inventory
         equipment grimoire gift morality].
    apply Z.gtb_lt in Eg.
    repeat split; try tauto; try lia. }
  clearbody p2. clear p1 V1 A1 L1. destruct H2 as (V2 & A2 & L2).
  set (p3 := if imp_xp impact >? 0
             then check_level_up (set_xp p2 (xp p2 + imp_xp impact))
             else p2).
  assert (H3 : sound_vitals p3 /\ advanced p p3).
  { unfold p3. destruct (imp_xp impact >? 0) eqn:Ex; [|split; assumption].
    apply Z.gtb_lt in Ex.
    assert (Vx : sound_vitals (set_xp p2 (xp p2 + imp_xp impact))).
    { unfold sound_vitals in *. unfold set_xp.
      cbn [attributes hp max_hp attack defense gold xp level buffs inventory
           equipment grimoire gift morality]. lia. }
    destruct (check_level_up_vitals _ Vx) as (V3 & A3 & _).
    split; [exact V3|].
    unfold advanced in *. unfold set_xp in *.
    cbn [attributes hp max_hp attack defense gold xp level buffs inventory
         equipment grimoire gift morality] in *.
    destruct A3 as (B1 & B2 & B3 & B4 & B5 & B6 & B7 & B8 & B9).
    destruct A2 as (C1 & C2 & C3 & C4 & C5 & C6 & C7 & C8 & C9).
    repeat split; try congruence; try lia. }
  clearbody p3. clear p2 V2 A2 L2. destruct H3 as [V3 A3].
  destruct (imp_item impact) as [it|]; [|split; assumption].
  unfold sound_vitals, advanced in *. unfold set_inventory.
  cbn [attributes hp max_hp attack defense gold xp level buffs inventory
       equipment grimoire gift morality].
  split; assumption.
Qed.

Lemma set_gold_vitals (p : Player) (delta : Z) :
  0 <= delta -> sound_vitals p ->
  sound_vitals (set_gold p (gold p + delta))
  /\ advanced p (set_gold p (gold p + delta))
  /\ level (set_gold p (gold p + delta)) = level p.
Proof.
  intros Hd Hv. unfold sound_vitals, advanced in *. unfold set_gold.
  cbn [attributes hp max_hp attack defense gold xp level buffs inventory
       equipment grimoire gift morality].
  repeat split; try reflexivity; lia.
Qed.

Lemma settled_player_vitals (result : Result) (p : Player) :
  sound_vitals p ->
  sound_vitals (settled_player result p)
  /\ advanced p (settled_player result p).
Proof.
  intro Hv. unfold settled_player. cbv zeta.
  destruct (apply_impact_vitals (res_impact result) p Hv) as [V A].
  destruct (res_success result); [|split; assumption].
  unfold consume_components, sound_vitals, advanced in *. unfold set_inventory.
  cbn [attributes hp max_hp attack defense gold xp level buffs inventory
       equipment grimoire gift morality].
  split; assumption.
Qed.

(** X25.  Settling a resolved action keeps the player sound: hit
    points stay within 0..max_hp and experience stays non-negative; gold,
    maximal hit points and level never fall, the level rises by at most
    one, and attributes, equipment, grimoire, gift, morality and buffs
    are not touched. *)
Theorem settle_keeps_vitals (game : Game) (action : string)
        (result : Result) (orc : Oracle) (col : Collaborators)
        (rng : Rand.Rng) :
  res_attribute result <> None ->
  sound_vitals (g_player game) ->
  let p' := g_player (snd (fst (settle_result game action result orc col rng))) in
  sound_vitals p' /\ advanced (g_player game) p'.
Proof.
  intros Ha Hv. cbv zeta.
  pose proof (OrchestratorFacts.settle_result_spec
                game action result orc col rng Ha) as Hs.
  cbv zeta in Hs. destruct Hs as (_ & delta & Hd & Hp).
  destruct (set_gold_vitals (g_player game) delta Hd Hv) as (V1 & A1 & L1).
  destruct (fst (fst (settle_result game action result orc col rng))).
  - rewrite Hp.
    destruct (settled_player_vitals
                result (set_gold (g_player game) (gold (g_player game) + delta))
                V1) as [V2 A2].
    split; [exact V2|].
    unfold advanced in *.
    destruct A1 as (B1 & B2 & B3 & B4 & B5 & B6 & B7 & B8 & B9).
    destruct A2 as (C1 & C2 & C3 & C4 & C5 & C6 & C7 & C8 & C9).
    repeat split; try congruence; try lia.
  - rewrite Hp. split; assumption.
Qed.

End Laws.

Section Examples.

Existing Instance PyStr.western.

Lemma settle_keeps_vitals_witness :
  let p' :=
    g_player (snd (fst (settle_result
                          Samples.crate_game "push the crate" pushed
                          Samples.offline (Samples.collaborators Samples.silent)
                          []))) in
  sound_vitals p' /\ advanced (g_player Samples.crate_game) p'.
Proof.
  apply (settle_keeps_vitals (L := PyStr.western)
           Samples.crate_game "push the crate" pushed Samples.offline
           (Samples.collaborators Samples.silent) []).
  - discriminate.
  - unfold sound_vitals. simpl. lia.
Defined.

End Examples.
End VitalsFacts.

(** ** Exceptions of the resolver *)

Module ResolverFacts.

Import PyStr ActionValidator ActionResolver Orchestrator Scenes.

Section Laws.

Context {L : PyStr.Lowering}.

(** X27.  An interpreter answer that the validator allows but that
    lacks the ['method'] key (action type neither equip nor
    attempt_magic) makes [resolve_free_action] raise KeyError before it
    rolled or changed anything; [execute_free_action] swallows the
    exception and returns with player, room, failure tracker and random
    source as before. *)
Theorem missing_method_is_swallowed (game : Game) (action : string)
        (orc : Oracle) (col : Collaborators) (rng : Rand.Rng) (ty : string) :
  any_in door_keywords (lower action)
  && negb (any_in chest_keywords (lower action)) = false ->
  validate (obtain_intent action orc) (g_player game) (g_room game)
  = Allowed ->
  action_type (obtain_intent action orc) = Some ty ->
  ty <> "equip" -> ty <> "attempt_magic" ->
  method (obtain_intent action orc) = None ->
  (forall arg : GameArg,
      resolve_free_action action (g_player game) (g_room game) arg orc rng
      = (Raised "KeyError", g_player game, g_room game, rng))
  /\ execute_free_action game action orc col rng = (Returned tt, game, rng).
Proof.
  intros Hd Hv Ha He Hm Hn.
  assert (Hr : forall arg : GameArg,
             resolve_free_action action (g_player game) (g_room game)
                                 arg orc rng
             = (Raised "KeyError", g_player game, g_room game, rng)).
  { intro arg. unfold resolve_free_action. cbv zeta. rewrite Hv, Ha.
    cbn [option_string_eqb].
    apply String.eqb_neq in He. apply String.eqb_neq in Hm.
    rewrite He, Hm. unfold resolve_check. rewrite Ha, Hn. reflexivity. }
  split; [exact Hr|].
  unfold execute_free_action. cbv zeta. rewrite Hd.
  unfold Rand.bind. rewrite Hr. unfold Rand.ret.
  destruct game. reflexivity.
Qed.

End Laws.

Section Examples.

Existing Instance PyStr.western.

Lemma missing_method_is_swallowed_witness :
  resolve_free_action "push the crate" (g_player Samples.crate_game)
                      (g_room Samples.crate_game) TheGame
                      (Samples.oracle true (ReplyObject no_method)) [11]
  = (Raised "KeyError", g_player Samples.crate_game,
     g_room Samples.crate_game, [11])
  /\ execute_free_action Samples.crate_game "push the crate"
                         (Samples.oracle true (ReplyObject no_method))
                         (Samples.collaborators Samples.silent) [11]
     = (Returned tt, Samples.crate_game, [11]).
Proof.
  destruct (missing_method_is_swallowed (L := PyStr.western)
              Samples.crate_game "push the crate"
              (Samples.oracle true (ReplyObject no_method))
              (Samples.collaborators Samples.silent) [11]
              "environment_action") as [Hraise Hkept].
  - vm_compute. reflexivity.
  - vm_compute. reflexivity.
  - reflexivity.
  - discriminate.
  - discriminate.
  - reflexivity.
  - split; [exact (Hraise TheGame)|exact Hkept].
Defined.

End Examples.
End ResolverFacts.

(** ** The room after an action *)

Module RoomFacts.

Import PyStr Orchestrator Views.

Section Laws.

Context {L : PyStr.Lowering}.

Lemma room_grows_refl (r : Room) : room_grows r r.
Proof.
  unfold room_grows. repeat split; auto.
  - exists []. rewrite app_nil_r. reflexivity.
  - exists []. rewrite app_nil_r. split; [reflexivity|simpl; lia].
  - exists []. rewrite app_nil_r. reflexivity.
Qed.

(** Growth without a new destroyed object. *)
Lemma room_grows_trans (r1 r2 r3 : Room) :
  room_grows r1 r2 -> room_grows r2 r3 ->
  room_destroyed_objects r3 = room_destroyed_objects r2 ->
  room_grows r1 r3.
Proof.
  unfold room_grows.
  intros (A1 & A2 & A3 & A4 & A5 & A6 & A7 & (l1 & A8) & (d1 & A9 & A9')
          & (o1 & A10) & A11)
         (B1 & B2 & B3 & B4 & B5 & B6 & B7 & (l2 & B8) & _
          & (o2 & B10) & B11) Hd.
  repeat split; try congruence; auto.
  - exists (l1 ++ l2)%list. rewrite B8, A8, app_assoc. reflexivity.
  - exists d1. split; [congruence|exact A9'].
  - exists (o1 ++ o2)%list. rewrite B10, A10, app_assoc. reflexivity.
Qed.

Lemma track_failures_room (game : Game) (action : string) (result : Result) :
  room_grows (g_room game) (g_room (track_failures game action result)).
Proof.
  unfold track_failures.
  destruct (res_success result); [apply room_grows_refl|].
  cbv zeta.
  set (game1 := if String.eqb _ _ then _ else _).
  assert (H1 : g_room game1 = g_room game)
    by (unfold game1; destruct (String.eqb _ _); reflexivity).
  destruct (fail_count game1 >=? 3); [|rewrite H1; apply room_grows_refl].
  destruct (target (res_intent result)) as [t|];
    [|rewrite H1; apply room_grows_refl].
  destruct (truthy t); [|rewrite H1; apply room_grows_refl].
  cbn [with_fail_state with_room g_room]. rewrite H1.
  unfold room_grows, set_destroyed_objects.
  cbn [room_type room_description room_monster room_npc room_loot
       room_looted room_hidden_key room_destroyed_objects
       room_discovered_objects room_assigned_object].
  repeat split; auto.
  - exists []. rewrite app_nil_r. reflexivity.
  - exists [t]. split; [reflexivity|simpl; lia].
  - exists []. rewrite app_nil_r. reflexivity.
Qed.

Lemma loot_treasure_room (game : Game) (action : string) (result : Result)
      (col : Collaborators) (rng : Rand.Rng) :
  let g' := snd (fst (loot_treasure game action result col rng)) in
  room_grows (g_room game) (g_room g')
  /\ room_destroyed_objects (g_room g') = room_destroyed_objects (g_room game).
Proof.
  cbv zeta. unfold loot_treasure.
  destruct (_ && _); [|split; [apply room_grows_refl|reflexivity]].
  unfold Rand.bind, Rand.ret. destruct (roll_treasure col rng) as [t g].
  cbn [fst snd with_room g_room].
  split; [|reflexivity].
  unfold room_grows, set_looted.
  cbn [room_type room_description room_monster room_npc room_loot
       room_looted room_hidden_key room_destroyed_objects
       room_discovered_objects room_assigned_object].
  repeat split; auto.
  - exists []. rewrite app_nil_r. reflexivity.
  - exists []. rewrite app_nil_r. split; [reflexivity|simpl; lia].
  - exists []. rewrite app_nil_r. reflexivity.
Qed.

Lemma discover_items_room (elements : list Json) :
  forall (game : Game) (rng : Rand.Rng),
    let g' := snd (fst (discover_items elements game rng)) in
    room_grows (g_room game) (g_room g')
    /\ room_destroyed_objects (g_room g')
       = room_destroyed_objects (g_room game).
Proof.
  induction elements as [|x rest IH]; intros game rng; cbv zeta.
  - split; [apply room_grows_refl|reflexivity].
  - cbn [discover_items].
    destruct x as [| | |name| |];
      try (split; [apply room_grows_refl|reflexivity]).
    destruct (any_in currency_keywords (lower name)).
    + unfold Rand.bind. destruct (Rand.randint 5 20 rng) as [amount g].
      apply (IH (add_gold game amount) g).
    + destruct (IH (with_room game
                      (set_loot (g_room game)
                                (room_loot (g_room game)
                                 ++ [discovered_item (g_room game) name])))
                   rng) as [H1 H2].
      cbv zeta in H1, H2. cbn [with_room g_room] in H1, H2.
      split.
      * eapply room_grows_trans; [|exact H1|exact H2].
        unfold room_grows, set_loot.
        cbn [room_type room_description room_monster room_npc room_loot
             room_looted room_hidden_key room_destroyed_objects
             room_discovered_objects room_assigned_object].
        repeat split; auto.
        -- eexists. reflexivity.
        -- exists []. rewrite app_nil_r. split; [reflexivity|simpl; lia].
        -- exists []. rewrite app_nil_r. reflexivity.
      * rewrite H2. reflexivity.
Qed.

Lemma discover_objects_room (names : list string) :
  forall game : Game,
    room_grows (g_room game) (g_room (discover_objects names game))
    /\ room_destroyed_objects (g_room (discover_objects names game))
       = room_destroyed_objects (g_room game).
Proof.
  unfold discover_objects.
  induction names as [|n names IH]; intro game; cbn [fold_left].
  - split; [apply room_grows_refl|reflexivity].
  - destruct (mem n (room_discovered_objects (g_room game))) eqn:Em;
      [apply IH|].
    match goal with
    | |- context [fold_left ?f names ?g0] => destruct (IH g0) as [H1 H2]
    end.
    cbn [with_room g_room] in H1, H2.
    split.
    + eapply room_grows_trans; [|exact H1|exact H2].
      unfold room_grows, set_discovered_objects.
      cbn [room_type room_description room_monster room_npc room_loot
           room_looted room_hidden_key room_destroyed_objects
           room_discovered_objects room_assigned_object].
      repeat split; auto.
      * exists []. rewrite app_nil_r. reflexivity.
      * exists []. rewrite app_nil_r. split; [reflexivity|simpl; lia].
      * eexists. reflexivity.
      * intro Hnd. apply ValidatorFacts.mem_false in Em.
        apply NoDup_app; [exact Hnd|repeat constructor; simpl; tauto|].
        intros x Hx [Hk|[]]. subst x. contradiction.
    + rewrite H2. reflexivity.
Qed.

Lemma add_gold_room (game : Game) (amount : Z) :
  g_room (add_gold game amount) = g_room game.
Proof. reflexivity. Qed.

Lemma process_discoveries_room (nr : NarrationResult) (game : Game)
      (rng : Rand.Rng) :
  let g' := snd (fst (process_discoveries nr game rng)) in
  room_grows (g_room game) (g_room g')
  /\ room_destroyed_objects (g_room g')
     = room_destroyed_objects (g_room game).
Proof.
  cbv zeta. unfold process_discoveries. cbv zeta.
  set (game1 := if nr_discovered_gold nr >? 0 then _ else game).
  assert (H1 : g_room game1 = g_room game)
    by (unfold game1; destruct (_ >? 0); reflexivity).
  rewrite <- H1. clearbody game1.
  unfold Rand.bind.
  assert (Hfin : forall r : Outcome unit * Game * Rand.Rng,
             room_grows (g_room game1) (g_room (snd (fst r)))
             /\ room_destroyed_objects (g_room (snd (fst r)))
                = room_destroyed_objects (g_room game1) ->
             room_grows (g_room game1)
                        (g_room (snd (fst (let (a, g') := r in
                                           Rand.ret (finish_discoveries nr a)
                                                    g'))))
             /\ room_destroyed_objects
                  (g_room (snd (fst (let (a, g') := r in
                                     Rand.ret (finish_discoveries nr a) g'))))
                = room_destroyed_objects (g_room game1)).
  { intros [[out g2] g'] [Hg Hd]. cbn [fst snd] in *.
    unfold Rand.ret, finish_discoveries. cbn [fst snd].
    destruct out as [u|e]; cbn [fst snd]; [|split; assumption].
    destruct (discover_objects_room (nr_discovered_objects nr) g2)
      as [H2 H3].
    split; [eapply room_grows_trans; eassumption|congruence]. }
  apply Hfin.
  destruct (json_truthy (nr_discovered_items nr));
    [|split; [apply room_grows_refl|reflexivity]].
  destruct (json_iterate (nr_discovered_items nr)) as [elements|];
    [|split; [apply room_grows_refl|reflexivity]].
  apply discover_items_room.
Qed.

(** X28.  Settling a resolved action only appends to the room: loot,
    destroyed objects (at most one per action) and discovered objects
    grow at their end, discovered objects stay free of duplicates, a
    looted room stays looted, and type, description, monster, NPC, hidden
    key and palette object are not touched. *)
Theorem settle_only_appends_to_room (game : Game) (action : string)
        (result : Result) (orc : Oracle) (col : Collaborators)
        (rng : Rand.Rng) :
  room_grows (g_room game)
             (g_room (snd (fst (settle_result game action result orc col
                                              rng)))).
Proof.
  unfold settle_result.
  destruct (res_attribute result); [|apply room_grows_refl].
  cbv zeta. unfold Rand.bind.
  pose proof (track_failures_room game action result) as H1.
  set (game1 := track_failures game action result) in *. clearbody game1.
  destruct (loot_treasure_room game1 action result col rng) as [H2 H2'].
  destruct (loot_treasure game1 action result col rng) as [t rng1].
  cbn [fst snd] in *.
  set (game2 := snd t) in *. clearbody game2.
  assert (H3 : forall n : Outcome unit * Game * Rand.Rng,
             room_grows (g_room game2) (g_room (snd (fst n)))
             /\ room_destroyed_objects (g_room (snd (fst n)))
                = room_destroyed_objects (g_room game2) ->
             room_grows (g_room game)
                        (g_room (snd (fst (let (a, g') := n in
                                           Rand.ret (apply_result result a)
                                                    g'))))).
  { intros [[out g3] g'] [Hg Hd]. cbn [fst snd] in *.
    unfold Rand.ret, apply_result. cbn [fst snd].
    assert (Hroom : room_grows (g_room game) (g_room g3)).
    { eapply room_grows_trans; [|exact Hg|exact Hd].
      eapply room_grows_trans; [exact H1|exact H2|exact H2']. }
    destruct out; cbn [fst snd with_player g_room]; exact Hroom. }
  apply H3.
  destruct (negb (is_npc_conversation game2 action) && ai_available orc).
  - apply process_discoveries_room.
  - unfold Rand.ret. cbn [fst snd].
    split; [apply room_grows_refl|reflexivity].
Qed.

End Laws.
End RoomFacts.

(** ** Spoken words and spell effects *)

Module MagicMore.

Import PyStr ActionResolver Views.

Section Laws.

Context {L : PyStr.Lowering}.

Lemma span_unquoted_spec (s : string) :
  s = fst (span_unquoted s) ++ snd (span_unquoted s)
  /\ quote_free (fst (span_unquoted s)) = true
  /\ match snd (span_unquoted s) with
     | String q _ => is_quote q = true
     | EmptyString => True
     end.
Proof.
  induction s as [|c s IH]; cbn [span_unquoted].
  - cbn. auto.
  - destruct (is_quote c) eqn:Ec; cbn [fst snd].
    + cbn. auto.
    + destruct (span_unquoted s) as [run after]. cbn [fst snd] in *.
      destruct IH as (H1 & H2 & H3).
      split; [cbn; rewrite <- H1; reflexivity|].
      split; [|exact H3].
      unfold quote_free in *. cbn. rewrite Ec. exact H2.
Qed.

Lemma span_unquoted_run (w : string) (q : ascii) (post : string) :
  quote_free w = true -> is_quote q = true ->
  span_unquoted (w ++ String q post) = (w, String q post).
Proof.
  intros Hw Hq. induction w as [|c w IH]; cbn.
  - rewrite Hq. reflexivity.
  - unfold quote_free in Hw. cbn in Hw. apply andb_true_iff in Hw.
    destruct Hw as [Hc Hw]. apply negb_true_iff in Hc. rewrite Hc.
    rewrite (IH Hw). reflexivity.
Qed.

Lemma quoted_in_cons (c : ascii) (s w : string) :
  quoted_in s w -> quoted_in (String c s) w.
Proof.
  intros (H1 & H2 & pre & q1 & q2 & post & H3 & H4 & H5).
  split; [exact H1|]. split; [exact H2|].
  exists (String c pre), q1, q2, post. rewrite H3. cbn. auto.
Qed.

Lemma extract_words_sound_aux (s w : string) :
  extract_words s = Some w -> quoted_in s w.
Proof.
  induction s as [|c s IH]; cbn [extract_words]; [discriminate|].
  destruct (is_quote c) eqn:Ec;
    [|intro H; apply quoted_in_cons, IH; exact H].
  destruct (span_unquoted_spec s) as (H1 & H2 & H3).
  destruct (span_unquoted s) as [run after]. cbn [fst snd] in *.
  destruct run as [|a run];
    [intro H; apply quoted_in_cons, IH; exact H|].
  destruct after as [|q post];
    [intro H; apply quoted_in_cons, IH; exact H|].
  intro H. injection H as <-.
  split; [discriminate|]. split; [exact H2|].
  exists "", c, q, post. rewrite H1. cbn. auto.
Qed.

Lemma extract_words_complete_aux (pre w : string) (q1 q2 : ascii)
      (post : string) :
  w <> "" -> quote_free w = true ->
  is_quote q1 = true -> is_quote q2 = true ->
  extract_words (pre ++ String q1 (w ++ String q2 post)) <> None.
Proof.
  intros Hw Hf Hq1 Hq2.
  assert (Hhit : extract_words (String q1 (w ++ String q2 post)) = Some w).
  { cbn [extract_words]. rewrite Hq1.
    rewrite (span_unquoted_run w q2 post Hf Hq2).
    destruct w; [congruence|reflexivity]. }
  induction pre as [|c pre IH]; cbn [append].
  - rewrite Hhit. discriminate.
  - cbn [extract_words].
    destruct (is_quote c); [|exact IH].
    destruct (span_unquoted _) as [[|a run] [|q post']]; try exact IH.
    discriminate.
Qed.

(** X29.  The words of a spell are read off the method text soundly
    and completely: what [resolve_magic_attempt] extracts is a non-empty
    quote-free piece of the text that stands between two quotes; a text
    that holds such a piece yields one; a text without quotes yields
    none. *)
Theorem extract_words_finds_quoted (s : string) :
  (forall w, extract_words s = Some w -> quoted_in s w)
  /\ ((exists w, quoted_in s w) -> extract_words s <> None)
  /\ (quote_free s = true -> extract_words s = None).
Proof.
  split; [intros w; apply extract_words_sound_aux|]. split.
  - intros (w & H1 & H2 & pre & q1 & q2 & post & -> & H4 & H5).
    apply extract_words_complete_aux; assumption.
  - intro Hf. induction s as [|c s IH]; [reflexivity|].
    unfold quote_free in Hf. cbn in Hf. apply andb_true_iff in Hf.
    destruct Hf as [Hc Hs]. apply negb_true_iff in Hc.
    cbn [extract_words]. rewrite Hc. apply IH. exact Hs.
Qed.

Lemma magnitude_mult_pos (m : string) : (0 <= magnitude_mult m)%Q.
Proof.
  unfold magnitude_mult.
  repeat match goal with
         | |- context [if ?c then _ else _] => destruct c
         end; unfold Qle; simpl; lia.
Qed.

Lemma scaled_nonneg (d : Z) (mult : Q) :
  0 <= d -> (0 <= mult)%Q -> 0 <= scaled d mult.
Proof.
  intros Hd Hm. unfold scaled.
  change 0 with (py_int 0%Q) at 1. apply CheckFacts.py_int_mono.
  apply Qmult_le_0_compat; [|exact Hm].
  unfold Qle. simpl. lia.
Qed.

Lemma set_monster_same (room : Room) :
  set_monster room (room_monster room) = room.
Proof. destruct room. reflexivity. Qed.

Lemma spell_frame_still (player : Player) (room : Room) (h x : Z) :
  spell_frame player room (mkImpact h 0 x None, player, room).
Proof.
  unfold spell_frame. rewrite set_monster_same.
  repeat split. destruct (room_monster room); [|exact I].
  repeat split. lia.
Qed.

Lemma attack_spell_frame (lo hi xp_base bf_lo bf_hi : Z) (stun : bool)
      (loss : Z) (mult : Q) (player : Player) (room : Room) (rng : Rand.Rng) :
  0 <= lo <= hi -> (0 <= mult)%Q ->
  spell_frame player room
    (fst (attack_spell lo hi xp_base bf_lo bf_hi stun loss mult player room
                       rng)).
Proof.
  intros Hlo Hm. unfold attack_spell, living_monster.
  destruct (room_monster room) as [m|] eqn:Em.
  - destruct (monster_hp m >? 0).
    + unfold Rand.bind, Rand.ret.
      pose proof (OrchestratorFacts.randint_range lo hi rng ltac:(lia)) as R.
      destruct (Rand.randint lo hi rng) as [d g]. cbn [fst snd] in *.
      pose proof (scaled_nonneg d mult ltac:(lia) Hm) as Hs.
      unfold spell_frame. cbn [imp_gold imp_item].
      unfold set_monster at 2.
      cbn [room_monster]. rewrite Em.
      unfold damage_monster. cbn [monster_hp monster_name monster_max_hp].
      repeat split; try reflexivity; try lia.
      cbn [monster_hp]. lia.
    + unfold Rand.bind, Rand.ret.
      destruct (Rand.randint bf_lo bf_hi rng) as [b g]. cbn [fst].
      pose proof (spell_frame_still player room (- b) 1) as H.
      exact H.
  - unfold Rand.bind, Rand.ret.
    destruct (Rand.randint bf_lo bf_hi rng) as [b g]. cbn [fst].
    exact (spell_frame_still player room (- b) 1).
Qed.

Lemma heal_spell_frame (lo hi xp_base : Z) (mult : Q) (player : Player)
      (room : Room) (rng : Rand.Rng) :
  spell_frame player room (fst (heal_spell lo hi xp_base mult player room rng)).
Proof.
  unfold heal_spell, Rand.bind, Rand.ret.
  destruct (Rand.randint lo hi rng) as [h g]. cbn [fst].
  unfold spell_frame, set_hp.
  cbn [imp_gold imp_item gold inventory max_hp xp level equipment].
  rewrite set_monster_same.
  repeat split. destruct (room_monster room); [|exact I].
  repeat split. lia.
Qed.

(** X30.  [apply_spell_effect] never yields gold or an item and never
    touches the caster's gold, inventory, maximal hit points, experience,
    level or equipment; of the room it changes at most the monster,
    which keeps its name and never gains hit points. *)
Theorem spell_effect_frame (spell : Spell) (player : Player) (room : Room)
        (rng : Rand.Rng) :
  spell_frame player room (fst (apply_spell_effect spell player room rng)).
Proof.
  unfold apply_spell_effect. cbv zeta.
  pose proof (magnitude_mult_pos (spell_magnitude spell)) as Hm.
  repeat match goal with
         | |- context [if String.eqb ?a ?b then _ else _] =>
             destruct (String.eqb a b)
         end;
    try (apply attack_spell_frame; [lia|exact Hm]);
    try apply heal_spell_frame.
  - unfold Rand.bind, Rand.ret.
    destruct (Rand.randint 3 8 rng) as [v g]. cbn [fst].
    unfold spell_frame, set_buffs.
    cbn [imp_gold imp_item gold inventory max_hp xp level equipment].
    rewrite set_monster_same.
    repeat split. destruct (room_monster room); [|exact I].
    repeat split. lia.
  - unfold Rand.ret. cbn [fst]. apply spell_frame_still.
Qed.

End Laws.
End MagicMore.
